(** * NCCN-RAG chatbot: page clipping, corpus store, chunker and retrieval

    A shallow embedding of [src/app.py], [src/final_extract.py] and
    [src/Automated_script.py], and the properties of the curation and
    retrieval pipeline proved about it.

    Layout: the Python built-ins the three scripts rely on ([Py]); the
    outcomes of running code and the files; the scripts themselves ([App],
    [FinalExtract], [AutomatedScript]) with the libraries and services they
    call taken as parameters; the corpus and the chunker's windows in closed
    form; sample collaborators for the worked examples; then the lemmas and
    the theorems, component by component. *)

From Stdlib Require Import ZArith NArith List Lia Bool.
From Stdlib Require Import Strings.String Strings.Ascii Numbers.DecimalString.
From Stdlib Require Import Floats.PrimFloat Floats.SpecFloat Floats.FloatOps.
From stdpp Require Import base option list gmap strings.

Local Open Scope Z_scope.

(* ===================================================================== *)
(** * Python built-ins used by the scripts *)
(* ===================================================================== *)

Module Py.

(** A Python [str] is a sequence of Unicode code points. *)
Definition char := N.
Definition str := list char.

(** An ASCII literal of the source, as a [str]. *)
Definition lit (s : string) : str :=
  map N_of_ascii (list_ascii_of_string s).

(** [c.isspace()] for one code point: the characters that [str.split()]
    and [str.strip()] treat as whitespace. *)
Definition isspace (c : char) : bool :=
  ((9 <=? c) && (c <=? 13) || (28 <=? c) && (c <=? 32)
   || (c =? 133) || (c =? 160) || (c =? 5760)
   || (8192 <=? c) && (c <=? 8202)
   || (c =? 8232) || (c =? 8233) || (c =? 8239) || (c =? 8287)
   || (c =? 12288))%N.

(** [s.lstrip()], [s.rstrip()], [s.strip()] *)
Fixpoint lstrip (s : str) : str :=
  match s with
  | c :: s' => if isspace c then lstrip s' else s
  | [] => []
  end.

Definition rstrip (s : str) : str := rev (lstrip (rev s)).

Definition strip (s : str) : str := rstrip (lstrip s).

(** [s.split()]: the maximal runs of non-whitespace characters, in order.
    [cur] is the run being read, most recent character first. *)
Fixpoint split_ws_from (cur : str) (s : str) : list str :=
  match s with
  | [] => match cur with [] => [] | _ :: _ => [rev cur] end
  | c :: s' =>
      if isspace c then
        match cur with
        | [] => split_ws_from [] s'
        | _ :: _ => rev cur :: split_ws_from [] s'
        end
      else split_ws_from (c :: cur) s'
  end.

Definition split_ws (s : str) : list str := split_ws_from [] s.

(** [s.startswith(sep)] *)
Fixpoint startswith (sep s : str) : bool :=
  match sep, s with
  | [], _ => true
  | a :: sep', b :: s' => (a =? b)%N && startswith sep' s'
  | _ :: _, [] => false
  end.

(** Puts one more character in front of the first piece. *)
Definition cons_head (c : char) (pieces : list str) : list str :=
  match pieces with
  | p :: ps => (c :: p) :: ps
  | [] => [[c]]
  end.

(** [s.split(sep)] for a non-empty [sep]: the text is cut at the
    occurrences of [sep] found scanning left to right, an occurrence
    starting only after the previous one has ended. [skip] counts the
    characters of the current occurrence still to pass over. (Python
    raises [ValueError] on an empty separator; the one separator of the
    source is a non-empty literal.) *)
Fixpoint split_skip (sep : str) (skip : nat) (s : str) : list str :=
  match s with
  | [] => [[]]
  | c :: s' =>
      match skip with
      | S k => split_skip sep k s'
      | O =>
          if startswith sep s
          then [] :: split_skip sep (Nat.pred (length sep)) s'
          else cons_head c (split_skip sep 0 s')
      end
  end.

Definition split (sep s : str) : list str := split_skip sep 0 s.

(** [sep.join(pieces)] *)
Fixpoint join (sep : str) (pieces : list str) : str :=
  match pieces with
  | [] => []
  | [p] => p
  | p :: ps => p ++ sep ++ join sep ps
  end.

(** A slice bound [i] of [l[i:j]] on a sequence of length [n]: negative
    bounds count from the end, and both are clamped to [0..n]. *)
Definition slice_bound (n i : Z) : Z :=
  if i <? 0 then Z.max 0 (i + n) else Z.min i n.

(** [l[start:stop]] *)
Definition slice {A} (l : list A) (start stop : Z) : list A :=
  let n := Z.of_nat (length l) in
  let lo := slice_bound n start in
  let hi := slice_bound n stop in
  take (Z.to_nat (hi - lo)) (drop (Z.to_nat lo) l).

(** [l[i]]: a negative index counts from the end; [None] is
    [IndexError]. *)
Definition getitem {A} (l : list A) (i : Z) : option A :=
  let n := Z.of_nat (length l) in
  if (0 <=? i) && (i <? n) then l !! Z.to_nat i
  else if (- n <=? i) && (i <? 0) then l !! Z.to_nat (i + n)
  else None.

(** [str(z)] for an [int], as an f-string formats it. *)
Definition str_of_int (z : Z) : str :=
  lit (NilZero.string_of_int (Z.to_int z)).

(** ** Floats (IEEE 754 binary64) *)

(** [float(z)] for an [int]: the nearest double; [None] is
    [OverflowError]. *)
Definition float_of_int (z : Z) : option float :=
  let x := SF2Prim (binary_normalize prec emax z 0 false) in
  if is_infinity x then None else Some x.

(** [int(x)]: truncation toward zero; [None] is the error Python raises
    on a NaN or an infinity. *)
Definition int_of_float (x : float) : option Z :=
  match Prim2SF x with
  | S754_zero _ => Some 0
  | S754_finite s m e =>
      let a := Z.shiftl (Z.pos m) e in
      Some (if s then - a else a)
  | S754_infinity _ | S754_nan => None
  end.

(** [a / b] on floats; [None] is [ZeroDivisionError]. *)
Definition truediv (a b : float) : option float :=
  if PrimFloat.eqb b PrimFloat.zero then None else Some (PrimFloat.div a b).

(** ** UTF-8, the encoding every file of the scripts is opened with *)

(** The bytes of one code point, for the Unicode scalar values; on a lone
    surrogate Python's encoder raises, see [encodable]. *)
Definition utf8_char (c : char) : list N :=
  (if c <? 128 then [c]
   else if c <? 2048 then [192 + c / 64; 128 + c mod 64]
   else if c <? 65536 then
     [224 + c / 4096; 128 + (c / 64) mod 64; 128 + c mod 64]
   else
     [240 + c / 262144; 128 + (c / 4096) mod 64;
      128 + (c / 64) mod 64; 128 + c mod 64])%N.

(** A Unicode scalar value: a code point up to U+10FFFF that is not a
    surrogate. *)
Definition is_scalar (c : char) : bool :=
  ((c <? 55296) || ((57344 <=? c) && (c <? 1114112)))%N.

(** [s.encode("utf-8")] *)
Definition encode (s : str) : list N := flat_map utf8_char s.

(** The strings a UTF-8 encoder accepts: a code point that is not a
    scalar value, a lone surrogate, makes it raise
    [UnicodeEncodeError]. *)
Definition encodable (s : str) : bool := forallb is_scalar s.

(** A continuation byte, [10xxxxxx]. *)
Definition is_cont (b : N) : bool := ((128 <=? b) && (b <? 192))%N.

(** [b.decode("utf-8")], strict: [None] is [UnicodeDecodeError] (a stray
    or missing continuation byte, an overlong form, a surrogate, a value
    above U+10FFFF). *)
Fixpoint decode (b : list N) : option str :=
  match b with
  | [] => Some []
  | b0 :: r0 =>
      if (b0 <? 128)%N then cons b0 <$> decode r0
      else if (b0 <? 192)%N then None
      else if (b0 <? 224)%N then
        match r0 with
        | b1 :: r1 =>
            let c := ((b0 - 192) * 64 + (b1 - 128))%N in
            if is_cont b1 && (128 <=? c)%N then cons c <$> decode r1 else None
        | _ => None
        end
      else if (b0 <? 240)%N then
        match r0 with
        | b1 :: b2 :: r2 =>
            let c := ((b0 - 224) * 4096 + (b1 - 128) * 64 + (b2 - 128))%N in
            if is_cont b1 && is_cont b2 && (2048 <=? c)%N
               && negb ((55296 <=? c) && (c <? 57344))%N
            then cons c <$> decode r2 else None
        | _ => None
        end
      else if (b0 <? 248)%N then
        match r0 with
        | b1 :: b2 :: b3 :: r3 =>
            let c := ((b0 - 240) * 262144 + (b1 - 128) * 4096
                      + (b2 - 128) * 64 + (b3 - 128))%N in
            if is_cont b1 && is_cont b2 && is_cont b3
               && (65536 <=? c)%N && (c <? 1114112)%N
            then cons c <$> decode r3 else None
        | _ => None
        end
      else None
  end.

(** What reading a file in text mode makes of the decoded text (universal
    newlines, the default of [open]): every ["\r\n"], and every other
    ["\r"], is read as ["\n"]. *)
Fixpoint universal_newlines (s : str) : str :=
  match s with
  | [] => []
  | 13%N :: 10%N :: s' => 10%N :: universal_newlines s'
  | 13%N :: s' => 10%N :: universal_newlines s'
  | c :: s' => c :: universal_newlines s'
  end.

End Py.


(* ===================================================================== *)
(** * Outcomes and files *)
(* ===================================================================== *)

(** The Python exceptions the modelled code can raise. [CollaboratorError]
    stands for whatever a hosted model or a third-party library raises. *)
Inductive exn :=
| IndexError
| ValueError
| AssertionError
| ZeroDivisionError
| OverflowError
| FileNotFoundError
| UnicodeDecodeError
| UnicodeEncodeError
| OSError
| CollaboratorError.

(** What running a piece of the program gives: a value, an exception, or
    a loop still running when the step budget of the model ran out. *)
Inductive outcome (A : Type) :=
| Returns (a : A)
| Raises (e : exn)
| Unfinished.

Arguments Returns {A} a.
Arguments Raises {A} e.
Arguments Unfinished {A}.

#[global] Instance outcome_ret : MRet outcome := fun _ a => Returns a.

#[global] Instance outcome_bind : MBind outcome := fun _ _ k m =>
  match m with
  | Returns a => k a
  | Raises e => Raises e
  | Unfinished => Unfinished
  end.

#[global] Instance outcome_fmap : FMap outcome := fun _ _ f m =>
  match m with
  | Returns a => Returns (f a)
  | Raises e => Raises e
  | Unfinished => Unfinished
  end.

(** [o] when it is [Some], else the exception [e]. *)
Definition or_raise {A} (e : exn) (o : option A) : outcome A :=
  match o with
  | Some a => Returns a
  | None => Raises e
  end.

(** A [for] loop or comprehension that collects one result per element and
    stops at the first exception. *)
Fixpoint for_each {A B} (f : A -> outcome B) (l : list A) : outcome (list B) :=
  match l with
  | [] => Returns []
  | a :: l' => b ← f a; bs ← for_each f l'; Returns (b :: bs)
  end.

(** The bytes of a file. *)
Abbreviation blob := (list N).

(** The files of the working directory, by path. *)
Abbreviation fs := (gmap string blob).

(** [open(path, "r", encoding="utf-8").read()]: the bytes decoded
    strictly, then the newlines as text mode reads them. *)
Definition read_text (files : fs) (path : string) : outcome Py.str :=
  match files !! path with
  | Some b => or_raise UnicodeDecodeError (Py.universal_newlines <$> Py.decode b)
  | None => Raises FileNotFoundError
  end.

(** The bytes of [path], for a reader of binary files. *)
Definition read_binary (files : fs) (path : string) : outcome blob :=
  or_raise FileNotFoundError (files !! path).

(** Writing a whole file, replacing what was there (modes ["w"], ["wb"]). *)
Definition write_binary (files : fs) (path : string) (b : blob) : fs :=
  <[path := b]> files.

(** [open(path, "a", encoding="utf-8")]: the file is created when
    missing. *)
Definition open_append (files : fs) (path : string) : fs :=
  <[path := default [] (files !! path)]> files.

(** [f.write(s)] on a file opened so, with the file as it is once closed
    (on a POSIX system, where ["\n"] is written as it is): the encoded
    text goes after what the file holds; a text that cannot be encoded
    raises [UnicodeEncodeError] and nothing of it is written. *)
Definition append_text (files : fs) (path : string) (s : Py.str) : outcome unit * fs :=
  if Py.encodable s
  then (Returns tt, <[path := default [] (files !! path) ++ Py.encode s]> files)
  else (Raises UnicodeEncodeError, files).

(** One more [f.write(s)] inside the same [with] block: not reached once
    a write has raised. *)
Definition then_append (path : string) (s : Py.str) (r : outcome unit * fs)
  : outcome unit * fs :=
  match r with
  | (Returns _, files) => append_text files path s
  | _ => r
  end.

(** [os.unlink(path)]; [None] is the [OSError] of a missing file. *)
Definition unlink (files : fs) (path : string) : option fs :=
  match files !! path with
  | Some _ => Some (delete path files)
  | None => None
  end.

(** [os.path.exists(path)] *)
Definition path_exists (files : fs) (path : string) : bool :=
  bool_decide (is_Some (files !! path)).

(** [int(x)] with the exception Python raises on a NaN or an infinity. *)
Definition to_int (x : float) : outcome Z :=
  match Py.int_of_float x with
  | Some z => Returns z
  | None => Raises (if is_nan x then ValueError else OverflowError)
  end.

(** [float(z)], as the mixed arithmetic of a float and an [int] does it. *)
Definition to_float (z : Z) : outcome float :=
  or_raise OverflowError (Py.float_of_int z).

(** The newline character. *)
Definition NL : Py.char := 10%N.

(* ===================================================================== *)
(** * [src/app.py]: chunking, index build and load, retrieval *)
(* ===================================================================== *)

Module App.

Definition TEXT_FILE : string := "nccn_output.txt".
Definition FAISS_INDEX_FILE : string := "faiss.index".
Definition CHUNKS_FILE : string := "chunks.pkl".

Definition CHUNK_SIZE : Z := 600.
Definition CHUNK_OVERLAP : Z := 100.
Definition TOP_K : Z := 10.

(** The separator of [text.split("=== PAGE")]. *)
Definition PAGE_SEP : Py.str := Py.lit "=== PAGE".

Definition load_text (files : fs) : outcome Py.str := read_text files TEXT_FILE.

(** The [while start < len(words)] loop of [chunk_text], for a chunk size
    and an overlap; [chunks] is the list the loop appends to. Each turn of
    the loop uses one unit of [fuel]. *)
Fixpoint window_walk (fuel : nat) (size overlap : Z) (words : list Py.str)
    (start : Z) (chunks : list Py.str) : outcome (list Py.str) :=
  if start <? Z.of_nat (length words) then
    match fuel with
    | O => Unfinished
    | S fuel' =>
        let stop := start + size in
        window_walk fuel' size overlap words (start + (size - overlap))
          (chunks ++ [Py.join (Py.lit " ") (Py.slice words start stop)])
    end
  else Returns chunks.

(** The [for page in pages] loop of [chunk_text]. *)
Fixpoint chunk_pages (fuel : nat) (size overlap : Z) (pages : list Py.str)
    (chunks : list Py.str) : outcome (list Py.str) :=
  match pages with
  | [] => Returns chunks
  | page :: pages' =>
      match Py.strip page with
      | [] => chunk_pages fuel size overlap pages' chunks
      | _ :: _ =>
          chunks' ← window_walk fuel size overlap (Py.split_ws page) 0 chunks;
          chunk_pages fuel size overlap pages' chunks'
      end
  end.

(** [chunk_text] with the two module constants it reads as parameters. *)
Definition chunk_text_with (size overlap : Z) (fuel : nat) (text : Py.str)
  : outcome (list Py.str) :=
  chunk_pages fuel size overlap (Py.split PAGE_SEP text) [].

Definition chunk_text (fuel : nat) (text : Py.str) : outcome (list Py.str) :=
  chunk_text_with CHUNK_SIZE CHUNK_OVERLAP fuel text.

(** ** Embedding and index *)

(** A NumPy array of at most two dimensions, by its shape and rows. *)
Record ndarray := { shape : list Z; rows : list (list float) }.

(** [np.array(vectors)] on a list of lists of numbers: an empty list gives
    shape [(0,)], rows of one length [d] give shape [(n, d)], and ragged
    rows are refused. *)
Definition np_array (vectors : list (list float)) : outcome ndarray :=
  match vectors with
  | [] => Returns {| shape := [0]; rows := [] |}
  | v :: vs =>
      if forallb (fun w => Nat.eqb (length w) (length v)) vs
      then Returns {| shape := [Z.of_nat (length vectors); Z.of_nat (length v)];
                      rows := vectors |}
      else Raises ValueError
  end.

(** A double rounded to the nearest binary32 value (ties to even). *)
Definition to_float32 (x : float) : float :=
  match Prim2SF x with
  | S754_finite s m e => SF2Prim (binary_round 24 128 s m e)
  | _ => x
  end.

(** [a.astype("float32")] *)
Definition astype_float32 (a : ndarray) : ndarray :=
  {| shape := shape a; rows := map (map to_float32) (rows a) |}.

(** The hosted embedding model: one call of [bedrock.invoke_model] and the
    ["embedding"] field of its JSON reply. *)
Record Bedrock := { invoke_embedding : Py.str -> outcome (list float) }.

Definition embed_texts (bedrock : Bedrock) (texts : list Py.str) : outcome ndarray :=
  vectors ← for_each (invoke_embedding bedrock) texts;
  a ← np_array vectors;
  Returns (astype_float32 a).

(** [faiss.IndexFlatL2]: the dimension and the stored vectors, in the
    order they were added. *)
Record IndexFlatL2 := { d : Z; xb : list (list float) }.

Definition ntotal (index : IndexFlatL2) : Z := Z.of_nat (length (xb index)).

(** [index.add(x)] *)
Definition index_add (index : IndexFlatL2) (x : ndarray) : outcome IndexFlatL2 :=
  match shape x with
  | [_; dx] =>
      if dx =? d index
      then Returns {| d := d index; xb := xb index ++ rows x |}
      else Raises AssertionError
  | _ => Raises ValueError
  end.

(** What the scripts use of the FAISS library beyond the above:
    [index.search(x, k)], giving the distance and the id matrices, and
    the two functions that write and read an index file. *)
Record Faiss := {
  search : IndexFlatL2 -> ndarray -> Z -> outcome (list (list float) * list (list Z));
  write_index : IndexFlatL2 -> blob;
  read_index : blob -> outcome IndexFlatL2
}.

(** [pickle.dump] and [pickle.load] on a list of strings. *)
Record Pickle := {
  dumps : list Py.str -> blob;
  loads : blob -> outcome (list Py.str)
}.

(** The collaborators of [app.py]. *)
Record Env := { bedrock : Bedrock; faiss : Faiss; pickle : Pickle }.

(** [build_and_save_index()], with the files after it. *)
Definition build_and_save_index (env : Env) (fuel : nat) (files : fs)
  : outcome (IndexFlatL2 * list Py.str) * fs :=
  match
    text ← load_text files;
    chunks ← chunk_text fuel text;
    embeddings ← embed_texts (bedrock env) chunks;
    dim ← or_raise IndexError (Py.getitem (shape embeddings) 1);
    index ← index_add {| d := dim; xb := [] |} embeddings;
    Returns (index, chunks)
  with
  | Returns (index, chunks) =>
      let files1 := write_binary files FAISS_INDEX_FILE (write_index (faiss env) index) in
      let files2 := write_binary files1 CHUNKS_FILE (dumps (pickle env) chunks) in
      (Returns (index, chunks), files2)
  | Raises e => (Raises e, files)
  | Unfinished => (Unfinished, files)
  end.

(** [load_index()] *)
Definition load_index (env : Env) (files : fs) : outcome (IndexFlatL2 * list Py.str) :=
  b ← read_binary files FAISS_INDEX_FILE;
  index ← read_index (faiss env) b;
  c ← read_binary files CHUNKS_FILE;
  chunks ← loads (pickle env) c;
  Returns (index, chunks).

(** [retrieve(query, index, chunks)] *)
Definition retrieve (env : Env) (query : Py.str) (index : IndexFlatL2)
    (chunks : list Py.str) : outcome (list Py.str) :=
  q_emb ← embed_texts (bedrock env) [query];
  found ← search (faiss env) index q_emb TOP_K;
  ids ← or_raise IndexError (Py.getitem (snd found) 0);
  for_each (fun i => or_raise IndexError (Py.getitem chunks i)) ids.

(** The start of the application: the index and the chunk list are read
    from the two files when both exist, and built and written otherwise. *)
Definition load_or_build (env : Env) (fuel : nat) (files : fs)
  : outcome (IndexFlatL2 * list Py.str) * fs :=
  if path_exists files FAISS_INDEX_FILE && path_exists files CHUNKS_FILE
  then (load_index env files, files)
  else build_and_save_index env fuel files.

End App.

(* ===================================================================== *)
(** * The PDF, imaging and process collaborators of the curation tools *)
(* ===================================================================== *)

(** [fitz.Rect]: four floats, kept as given. *)
Record Rect := { x0 : float; y0 : float; x1 : float; y1 : float }.

(** A page of an opened document: its bounds, and the selectable text
    that [page.get_text("text", clip=r)] finds inside a rectangle. *)
Record Page := { rect : Rect; get_text : Rect -> Py.str }.

(** What the tools use of PyMuPDF: [fitz.open(path)], a document being
    the list of its pages and [doc[i]] read as on a Python list, and the
    [height] property of a rectangle. *)
Record Fitz := {
  fitz_open : string -> outcome (list Page);
  rect_height : Rect -> float
}.

(** A pixel box [(left, upper, right, lower)]. *)
Definition box := (Z * Z * Z * Z)%type.

(** What the tools use of pdf2image and Pillow, for a type of images:
    [convert_from_path(path, first_page, last_page)], [img.size] and
    [img.crop(box)]. *)
Record Imaging (Image : Type) := {
  convert_from_path : string -> Z -> Z -> outcome (list Image);
  size : Image -> Z * Z;
  crop : Image -> box -> outcome Image
}.

Arguments convert_from_path {Image} _ _ _ _.
Arguments size {Image} _ _.
Arguments crop {Image} _ _ _.

(** The operating system as [launch_editor] sees it: the environment
    variables, the name [tempfile.NamedTemporaryFile] picks for a suffix,
    and [subprocess.call(argv)], which gives the exit status and the files
    the program leaves, or [None] when the program cannot be started. *)
Record OS := {
  environ : gmap string string;
  temp_name : fs -> string -> string;
  call : list string -> fs -> option (Z * fs)
}.

(** [len(PdfReader(pdf_path).pages)] *)
Record Reader := { page_count : string -> outcome Z }.

(** The vision model as the tools reach it, for a type [St] of states of
    the world outside the program: [encode_image_to_base64(img)], and
    [invoke_claude_image(prompt, b64)], whose reply may differ from one
    call to the next. *)
Record Vision (Image St : Type) := {
  encode_image_to_base64 : Image -> outcome Py.str;
  invoke_claude_image : St -> Py.str -> Py.str -> outcome Py.str * St
}.

Arguments encode_image_to_base64 {Image St} _ _.
Arguments invoke_claude_image {Image St} _ _ _ _.

(** The operator's desk: the system an editor session starts in, and the
    state of the world once the session is over. *)
Record Desk (St : Type) := {
  os_of : St -> OS;
  after_editor : St -> St
}.

Arguments os_of {St} _ _.
Arguments after_editor {St} _ _.

(** Two built-ins of [str] taken as given: [s.lower()], and [int(s)],
    [None] being its [ValueError]. *)
Record Builtins := {
  lower : Py.str -> Py.str;
  int_of_str : Py.str -> option Z
}.

(** Everything the curation tools call. *)
Record Tools (Image St : Type) := {
  builtins : Builtins;
  reader : Reader;
  fitz : Fitz;
  imaging : Imaging Image;
  vision : Vision Image St;
  desk : Desk St
}.

Arguments builtins {Image St} _.
Arguments reader {Image St} _.
Arguments fitz {Image St} _.
Arguments imaging {Image St} _.
Arguments vision {Image St} _.
Arguments desk {Image St} _.

(** Why a session stops short of returning: an exception, the end of the
    input ([EOFError] of [input()]), or the step budget of the model. *)
Inductive halt :=
| Raised (e : exn)
| EndOfInput
| OutOfFuel.

(** An outcome as the result of a step of a session. *)
Definition lift {A} (o : outcome A) : halt + A :=
  match o with
  | Returns a => inr a
  | Raises e => inl (Raised e)
  | Unfinished => inl OutOfFuel
  end.

(** What a session works on: the files, the lines the operator will
    type, and the state of the world outside; and, for the record only,
    the calls [append_to_output(page_num, content)] made so far, oldest
    first, which no code reads. What the tools print is left out. *)
Record world (St : Type) := World {
  w_files : fs;
  w_stdin : list Py.str;
  w_env : St;
  w_log : list (Z * Py.str)
}.

Arguments World {St} _ _ _ _.
Arguments w_files {St} _.
Arguments w_stdin {St} _.
Arguments w_env {St} _.
Arguments w_log {St} _.

(** [input(prompt)]: the next line typed. *)
Definition input {St} (w : world St) : (halt + Py.str) * world St :=
  match w_stdin w with
  | [] => (inl EndOfInput, w)
  | line :: rest => (inr line, World (w_files w) rest (w_env w) (w_log w))
  end.

(** [range(a, b)] *)
Definition py_range (a b : Z) : list Z := seqZ a (b - a).

(** [fitz.Rect(r.x0 + left, r.y0 + top, r.x1 - right, r.y1 - bottom)] for
    a rectangle of floats and four [int] margins. *)
Definition clipped (r : Rect) (left top right bottom : Z) : outcome Rect :=
  l ← to_float left;
  t ← to_float top;
  rt ← to_float right;
  b ← to_float bottom;
  Returns {| x0 := PrimFloat.add (x0 r) l; y0 := PrimFloat.add (y0 r) t;
             x1 := PrimFloat.sub (x1 r) rt; y1 := PrimFloat.sub (y1 r) b |}.

(** The tuple [crop_box] of [render_clipped_image]. *)
Definition crop_box (clip_rect : Rect) (dpi_scale : float) : outcome box :=
  a ← to_int (PrimFloat.mul (x0 clip_rect) dpi_scale);
  b ← to_int (PrimFloat.mul (y0 clip_rect) dpi_scale);
  c ← to_int (PrimFloat.mul (x1 clip_rect) dpi_scale);
  e ← to_int (PrimFloat.mul (y1 clip_rect) dpi_scale);
  Returns (a, b, c, e).

(** [page_img.size[1] / pdf_page.rect.height] *)
Definition scale_of (fitz : Fitz) (img_height : Z) (page_rect : Rect) : outcome float :=
  h ← to_float img_height;
  or_raise ZeroDivisionError (Py.truediv h (rect_height fitz page_rect)).

(** The start line of a block, with the two newlines before it. *)
Definition start_line (page_num : Z) : Py.str :=
  [NL; NL] ++ Py.lit "=== PAGE " ++ Py.str_of_int page_num ++ Py.lit " ===" ++ [NL].

(** The body of [append_to_output] on the file at [path]: the file opened
    for appending, then the three writes; a write that raises leaves what
    was written before it. *)
Definition append_block (path : string) (page_num : Z) (content : Py.str)
    (files : fs) : outcome unit * fs :=
  then_append path (Py.lit "=== END PAGE ===" ++ [NL])
    (then_append path (Py.strip content ++ [NL])
       (append_text (open_append files path) path (start_line page_num))).

(** A call [append(page_num, content)] made in a session: the files after
    it, and the call added to the record. *)
Definition call_append {St} (append : Z -> Py.str -> fs -> outcome unit * fs)
    (page_num : Z) (content : Py.str) (w : world St) : outcome unit * world St :=
  match append page_num content (w_files w) with
  | (o, files1) =>
      (o, World files1 (w_stdin w) (w_env w) (w_log w ++ [(page_num, content)]))
  end.

(* ===================================================================== *)
(** * [src/final_extract.py]: the interactive reviewer's helpers *)
(* ===================================================================== *)

Module FinalExtract.

Definition PDF_PATH : string := "all.pdf".
Definition OUTPUT_PATH : string := "nccn_trial.txt".

(** [extract_text_with_margins(pdf_path, page_num, margin_left, margin_top,
    margin_right, margin_bottom)] *)
Definition extract_text_with_margins (fitz : Fitz) (pdf_path : string)
    (page_num margin_left margin_top margin_right margin_bottom : Z)
  : outcome (Py.str * Rect) :=
  doc ← fitz_open fitz pdf_path;
  page ← or_raise IndexError (Py.getitem doc page_num);
  clipped_rect ← clipped (rect page) margin_left margin_top margin_right margin_bottom;
  Returns (get_text page clipped_rect, clipped_rect).

(** [render_clipped_image(pdf_path, page_num, clip_rect)] *)
Definition render_clipped_image {Image} (imaging : Imaging Image) (fitz : Fitz)
    (pdf_path : string) (page_num : Z) (clip_rect : Rect) : outcome Image :=
  imgs ← convert_from_path imaging pdf_path (page_num + 1) (page_num + 1);
  page_img ← or_raise IndexError (Py.getitem imgs 0);
  pdf_doc ← fitz_open fitz pdf_path;
  pdf_page ← or_raise IndexError (Py.getitem pdf_doc page_num);
  dpi_scale ← scale_of fitz (snd (size imaging page_img)) (rect pdf_page);
  b ← crop_box clip_rect dpi_scale;
  crop imaging page_img b.

(** [launch_editor(initial_text)], with the files after it. *)
Definition launch_editor (os : OS) (initial_text : Py.str) (files : fs)
  : outcome Py.str * fs :=
  let editor := default "nano" (environ os !! "EDITOR") in
  let tf_name := temp_name os files ".txt" in
  let files1 := write_binary files tf_name (Py.encode initial_text) in
  match call os [editor; tf_name] files1 with
  | None => (Raises OSError, files1)
  | Some (_, files2) =>
      match read_text files2 tf_name with
      | Returns final_text =>
          (Returns final_text, default files2 (unlink files2 tf_name))
      | Raises e => (Raises e, files2)
      | Unfinished => (Unfinished, files2)
      end
  end.

(** [append_to_output(page_num, content)], with the files after it. *)
Definition append_to_output (page_num : Z) (content : Py.str) (files : fs)
  : outcome unit * fs :=
  append_block OUTPUT_PATH page_num content files.

(** The instructions sent with the image in flowchart mode. *)
Definition prompt_text : Py.str :=
  Py.lit "You are given an image of a PDF page that may contain a flowchart or a table or diagram. convert this page of guidelines that has flowchart into paragraph that can be used for RAG"
  ++ Py.lit "Convert the visual guidance into a single clear, concise paragraph suitable for RAG ingestion. "
  ++ Py.lit "Do NOT add facts not present in the image or invent steps."
  ++ Py.lit "if its a paragraph retain it as is and remove the superscript only"
  ++ Py.lit "if its a table, covert it into json format and give the output"
  ++ Py.lit "if and when any drugs are mentioned based on gene deletion or mutation like EGFR exon, mention them in the paragraph"
  ++ Py.lit "Include the blue references mentioned in brackets on the right side of flowchart in the output paragraph"
  ++ Py.lit "Do not include the lines - Note: All recommendations are category 2A unless otherwise indicated,  mentioned at the bottom"
  ++ Py.lit " Do not include the word - References mentioned at the bottom right corner"
  ++ Py.lit "Include the page number given in the bottom right of the pdf thats a mix of letters and numbers in a new line below output text".

(** The four margins of a raw-mode review. *)
Record margins := {
  margin_left : Z;
  margin_top : Z;
  margin_right : Z;
  margin_bottom : Z
}.

(** How a review loop is left: [break], on to the next page, or [return],
    out of [interactive_run]. *)
Inductive leave := Break | Return.

(** [append_to_output(page + 1, text)] followed by [break]: an exception
    of the write is not caught and ends the session. *)
Definition save {St} (page : Z) (text : Py.str) (w : world St)
  : (halt + leave) * world St :=
  match call_append append_to_output (page + 1) text w with
  | (Returns _, w1) => (inr Break, w1)
  | (Raises e, w1) => (inl (Raised e), w1)
  | (Unfinished, w1) => (inl OutOfFuel, w1)
  end.

(** [input(...).strip().lower()] *)
Definition ask {Image St} (tools : Tools Image St) (w : world St)
  : (halt + Py.str) * world St :=
  match input w with
  | (inr line, w1) => (inr (lower (builtins tools) (Py.strip line)), w1)
  | (inl h, w1) => (inl h, w1)
  end.

(** The assignments of the (m)odify branch, in the order of the source:
    top, bottom, left, right. An entry left empty keeps the margin; the
    first entry that [int] refuses ends the updates ([ValueError] is
    caught), the margins assigned before it staying changed. *)
Definition modify_margins (b : Builtins) (m : margins)
    (new_top new_bottom new_left new_right : Py.str) : margins :=
  match (match new_top with [] => Some (margin_top m) | _ => int_of_str b new_top end) with
  | None => m
  | Some top_v =>
      let m1 := {| margin_left := margin_left m; margin_top := top_v;
                   margin_right := margin_right m; margin_bottom := margin_bottom m |} in
      match (match new_bottom with [] => Some (margin_bottom m) | _ => int_of_str b new_bottom end) with
      | None => m1
      | Some bottom_v =>
          let m2 := {| margin_left := margin_left m; margin_top := top_v;
                       margin_right := margin_right m; margin_bottom := bottom_v |} in
          match (match new_left with [] => Some (margin_left m) | _ => int_of_str b new_left end) with
          | None => m2
          | Some left_v =>
              let m3 := {| margin_left := left_v; margin_top := top_v;
                           margin_right := margin_right m; margin_bottom := bottom_v |} in
              match (match new_right with [] => Some (margin_right m) | _ => int_of_str b new_right end) with
              | None => m3
              | Some right_v =>
                  {| margin_left := left_v; margin_top := top_v;
                     margin_right := right_v; margin_bottom := bottom_v |}
              end
          end
      end
  end.

(** The (e)dit branch of both review loops: an editor session on [text],
    then the question whether to save. [Some Break] when the edited text
    was committed, [None] to go round the loop again. *)
Definition edit_and_confirm {Image St} (tools : Tools Image St) (page : Z)
    (text : Py.str) (w : world St) : (halt + option leave) * world St :=
  match launch_editor (os_of (desk tools) (w_env w)) text (w_files w) with
  | (Returns edited, files1) =>
      let w1 := World files1 (w_stdin w) (after_editor (desk tools) (w_env w))
                      (w_log w) in
      match ask tools w1 with
      | (inr answer, w2) =>
          if bool_decide (answer = Py.lit "y")
          then match save page edited w2 with
               | (inr l, w3) => (inr (Some l), w3)
               | (inl h, w3) => (inl h, w3)
               end
          else (inr None, w2)
      | (inl h, w2) => (inl h, w2)
      end
  | (Raises e, files1) =>
      (inl (Raised e),
       World files1 (w_stdin w) (after_editor (desk tools) (w_env w)) (w_log w))
  | (Unfinished, files1) =>
      (inl OutOfFuel,
       World files1 (w_stdin w) (after_editor (desk tools) (w_env w)) (w_log w))
  end.

(** The [while True] loop of raw mode on one page; each turn uses one
    unit of [fuel]. *)
Fixpoint raw_loop {Image St} (fuel : nat) (tools : Tools Image St)
    (pdf_path : string) (page : Z) (m : margins) (w : world St)
  : (halt + leave) * world St :=
  match fuel with
  | O => (inl OutOfFuel, w)
  | S fuel' =>
      match lift (extract_text_with_margins (fitz tools) pdf_path page
                    (margin_left m) (margin_top m) (margin_right m) (margin_bottom m)) with
      | inl h => (inl h, w)
      | inr (text, _) =>
          match ask tools w with
          | (inl h, w1) => (inl h, w1)
          | (inr choice, w1) =>
              if bool_decide (choice = Py.lit "a") then save page text w1
              else if bool_decide (choice = Py.lit "m") then
                match input w1 with
                | (inl h, w2) => (inl h, w2)
                | (inr new_top, w2) =>
                match input w2 with
                | (inl h, w3) => (inl h, w3)
                | (inr new_bottom, w3) =>
                match input w3 with
                | (inl h, w4) => (inl h, w4)
                | (inr new_left, w4) =>
                match input w4 with
                | (inl h, w5) => (inl h, w5)
                | (inr new_right, w5) =>
                    raw_loop fuel' tools pdf_path page
                      (modify_margins (builtins tools) m
                         (Py.strip new_top) (Py.strip new_bottom)
                         (Py.strip new_left) (Py.strip new_right)) w5
                end end end end
              else if bool_decide (choice = Py.lit "e") then
                match edit_and_confirm tools page text w1 with
                | (inl h, w2) => (inl h, w2)
                | (inr (Some l), w2) => (inr l, w2)
                | (inr None, w2) => raw_loop fuel' tools pdf_path page m w2
                end
              else if bool_decide (choice = Py.lit "re") then
                raw_loop fuel' tools pdf_path page m w1
              else if bool_decide (choice = Py.lit "s") then (inr Break, w1)
              else if bool_decide (choice = Py.lit "q") then (inr Return, w1)
              else raw_loop fuel' tools pdf_path page m w1
          end
      end
  end.

(** [invoke_claude_image(prompt_text, b64_img)] inside its [try]: any
    exception gives the empty output. *)
Definition invoke_or_empty {Image St} (tools : Tools Image St) (b64_img : Py.str)
    (w : world St) : Py.str * world St :=
  match invoke_claude_image (vision tools) (w_env w) prompt_text b64_img with
  | (Returns output, env1) => (output, World (w_files w) (w_stdin w) env1 (w_log w))
  | (_, env1) => ([], World (w_files w) (w_stdin w) env1 (w_log w))
  end.

(** The [while True] loop of flowchart mode on one page. *)
Fixpoint flowchart_loop {Image St} (fuel : nat) (tools : Tools Image St)
    (page : Z) (b64_img output : Py.str) (w : world St)
  : (halt + leave) * world St :=
  match fuel with
  | O => (inl OutOfFuel, w)
  | S fuel' =>
      match ask tools w with
      | (inl h, w1) => (inl h, w1)
      | (inr post, w1) =>
          if bool_decide (post = Py.lit "a") then save page output w1
          else if bool_decide (post = Py.lit "e") then
            match edit_and_confirm tools page output w1 with
            | (inl h, w2) => (inl h, w2)
            | (inr (Some l), w2) => (inr l, w2)
            | (inr None, w2) => flowchart_loop fuel' tools page b64_img output w2
            end
          else if bool_decide (post = Py.lit "re") then
            match invoke_or_empty tools b64_img w1 with
            | (output', w2) => flowchart_loop fuel' tools page b64_img output' w2
            end
          else if bool_decide (post = Py.lit "s") then (inr Break, w1)
          else if bool_decide (post = Py.lit "q") then (inr Return, w1)
          else flowchart_loop fuel' tools page b64_img output w1
      end
  end.

(** Flowchart mode on one page: the clip region of the default margins,
    the cropped image, the model's output, then the review loop. *)
Definition flowchart_mode {Image St} (fuel : nat) (tools : Tools Image St)
    (pdf_path : string) (page : Z) (w : world St) : (halt + leave) * world St :=
  match lift (found ← extract_text_with_margins (fitz tools) pdf_path page 0 60 0 30;
              clipped_img ← render_clipped_image (imaging tools) (fitz tools)
                               pdf_path page (snd found);
              encode_image_to_base64 (vision tools) clipped_img) with
  | inl h => (inl h, w)
  | inr b64_img =>
      match invoke_or_empty tools b64_img w with
      | (output, w1) => flowchart_loop fuel tools page b64_img output w1
      end
  end.

(** The [while page < total_pages] loop of [interactive_run]. *)
Fixpoint main_loop {Image St} (fuel : nat) (tools : Tools Image St)
    (pdf_path : string) (total_pages page : Z) (w : world St)
  : (halt + unit) * world St :=
  if page <? total_pages then
    match fuel with
    | O => (inl OutOfFuel, w)
    | S fuel' =>
        match ask tools w with
        | (inl h, w1) => (inl h, w1)
        | (inr action, w1) =>
            if bool_decide (action = Py.lit "q") then (inr tt, w1)
            else if bool_decide (action = Py.lit "s") then
              main_loop fuel' tools pdf_path total_pages (page + 1) w1
            else if bool_decide (action = Py.lit "r") then
              match raw_loop fuel' tools pdf_path page
                      {| margin_left := 0; margin_top := 80;
                         margin_right := 0; margin_bottom := 30 |} w1 with
              | (inl h, w2) => (inl h, w2)
              | (inr Return, w2) => (inr tt, w2)
              | (inr Break, w2) =>
                  main_loop fuel' tools pdf_path total_pages (page + 1) w2
              end
            else if bool_decide (action = Py.lit "f") then
              match flowchart_mode fuel' tools pdf_path page w1 with
              | (inl h, w2) => (inl h, w2)
              | (inr Return, w2) => (inr tt, w2)
              | (inr Break, w2) =>
                  main_loop fuel' tools pdf_path total_pages (page + 1) w2
              end
            else main_loop fuel' tools pdf_path total_pages page w1
        end
    end
  else (inr tt, w).

(** [interactive_run(pdf_path, start_page)] *)
Definition interactive_run {Image St} (fuel : nat) (tools : Tools Image St)
    (pdf_path : string) (start_page : Z) (w : world St)
  : (halt + unit) * world St :=
  match lift (page_count (reader tools) pdf_path) with
  | inl h => (inl h, w)
  | inr total_pages =>
      main_loop fuel tools pdf_path total_pages (Z.max 1 start_page - 1) w
  end.

End FinalExtract.

(* ===================================================================== *)
(** * [src/Automated_script.py]: the unattended flowchart converter *)
(* ===================================================================== *)

Module AutomatedScript.

Definition PDF_PATH : string := "ovarian.pdf".
Definition OUTPUT_PATH : string := "nccn_ovarian_output.txt".

Definition MARGIN_LEFT : Z := 0.
Definition MARGIN_RIGHT : Z := 0.
Definition MARGIN_TOP : Z := 60.
Definition MARGIN_BOTTOM : Z := 30.

(** [extract_clip_rect(pdf_path, page_num)] *)
Definition extract_clip_rect (fitz : Fitz) (pdf_path : string) (page_num : Z)
  : outcome Rect :=
  doc ← fitz_open fitz pdf_path;
  page ← or_raise IndexError (Py.getitem doc page_num);
  clipped (rect page) MARGIN_LEFT MARGIN_TOP MARGIN_RIGHT MARGIN_BOTTOM.

(** [render_clipped_image(pdf_path, page_num, clip_rect)] *)
Definition render_clipped_image {Image} (imaging : Imaging Image) (fitz : Fitz)
    (pdf_path : string) (page_num : Z) (clip_rect : Rect) : outcome Image :=
  imgs ← convert_from_path imaging pdf_path (page_num + 1) (page_num + 1);
  page_img ← or_raise IndexError (Py.getitem imgs 0);
  pdf_doc ← fitz_open fitz pdf_path;
  pdf_page ← or_raise IndexError (Py.getitem pdf_doc page_num);
  dpi_scale ← scale_of fitz (snd (size imaging page_img)) (rect pdf_page);
  b ← crop_box clip_rect dpi_scale;
  crop imaging page_img b.

(** [append_to_output(page_num, content)], with the files after it. *)
Definition append_to_output (page_num : Z) (content : Py.str) (files : fs)
  : outcome unit * fs :=
  append_block OUTPUT_PATH page_num content files.

(** The instructions sent with every image. *)
Definition prompt_text : Py.str :=
  Py.lit "You are given an image of a PDF page that may contain a flowchart or a table or diagram. "
  ++ Py.lit "Convert this page of guidelines that has flowchart into paragraph that can be used for RAG. "
  ++ Py.lit "Convert the visual guidance into a single clear, concise paragraph suitable for RAG ingestion. "
  ++ Py.lit "Do NOT add facts not present in the image or invent steps. "
  ++ Py.lit "If it's a paragraph, retain it as is and remove superscripts only. "
  ++ Py.lit "If it's a table, convert it into JSON format. "
  ++ Py.lit "If drugs are mentioned based on gene deletion or mutation (e.g., EGFR exon), include that. "
  ++ Py.lit "Include blue references in brackets shown on the right side of the flowchart. "
  ++ Py.lit "Do NOT include category notes or reference section labels. "
  ++ Py.lit "Include the page number (alphanumeric) shown at the bottom-right of the PDF as a new line.".

(** The body of the [try] of [process_pages] up to the model's reply, for
    one page. *)
Definition convert_page {Image St} (tools : Tools Image St) (pdf_path : string)
    (page : Z) (env : St) : outcome Py.str * St :=
  match
    clip_rect ← extract_clip_rect (fitz tools) pdf_path page;
    image ← render_clipped_image (imaging tools) (fitz tools) pdf_path page clip_rect;
    encode_image_to_base64 (vision tools) image
  with
  | Returns b64_image => invoke_claude_image (vision tools) env prompt_text b64_image
  | Raises e => (Raises e, env)
  | Unfinished => (Unfinished, env)
  end.

(** The [for page in range(...)] loop of [process_pages]: a page whose
    conversion raises is reported and passed over, and so is an exception
    of [append_to_output], which is called inside the same [try]. *)
Fixpoint process_range {Image St} (tools : Tools Image St) (pdf_path : string)
    (pages : list Z) (w : world St) : world St :=
  match pages with
  | [] => w
  | page :: pages' =>
      match convert_page tools pdf_path page (w_env w) with
      | (Returns output, env1) =>
          match call_append append_to_output (page + 1) output
                  (World (w_files w) (w_stdin w) env1 (w_log w)) with
          | (_, w1) => process_range tools pdf_path pages' w1
          end
      | (_, env1) =>
          process_range tools pdf_path pages'
            (World (w_files w) (w_stdin w) env1 (w_log w))
      end
  end.

(** [process_pages(pdf_path, start_page, end_page)] *)
Definition process_pages {Image St} (tools : Tools Image St) (pdf_path : string)
    (start_page end_page : Z) (w : world St) : outcome unit * world St :=
  match page_count (reader tools) pdf_path with
  | Returns total_pages =>
      let start_idx := Z.max 1 start_page - 1 in
      let end_idx := Z.min end_page total_pages - 1 in
      (Returns tt, process_range tools pdf_path (py_range start_idx (end_idx + 1)) w)
  | Raises e => (Raises e, w)
  | Unfinished => (Unfinished, w)
  end.

End AutomatedScript.

(* ===================================================================== *)
(** * The corpus and the chunker's windows in closed form *)
(* ===================================================================== *)

(** The text one [append_to_output(page_num, content)] adds to the corpus
    file: the start line, the trimmed content, the end line. *)
Definition page_block (page_num : Z) (content : Py.str) : Py.str :=
  ([NL; NL] ++ Py.lit "=== PAGE " ++ Py.str_of_int page_num ++ Py.lit " ===" ++ [NL])
  ++ (Py.strip content ++ [NL])
  ++ (Py.lit "=== END PAGE ===" ++ [NL]).

(** What a block holds after the separator ["=== PAGE"] of its start line. *)
Definition block_rest (page_num : Z) (content : Py.str) : Py.str :=
  Py.lit " " ++ Py.str_of_int page_num ++ Py.lit " ===" ++ [NL]
  ++ Py.strip content ++ [NL] ++ Py.lit "=== END PAGE ===" ++ [NL].

(** The corpus text after committing the given pages, in that order. *)
Definition corpus_of (blocks : list (Z * Py.str)) : Py.str :=
  flat_map (fun b => page_block (fst b) (snd b)) blocks.

(** The number of windows over [n] words when the start advances by
    [step] words: the least [k] with [n <= k * step]. *)
Definition window_count (step : Z) (n : nat) : nat :=
  Z.to_nat ((Z.of_nat n + step - 1) / step).

(** The start indices [0, S-O, 2(S-O), ...] below [n]. *)
Definition window_starts (size overlap : Z) (n : nat) : list Z :=
  map (fun k => Z.of_nat k * (size - overlap))
      (seq 0 (window_count (size - overlap) n)).

(** The window of at most [size] words from index [start] on, joined by
    single spaces; it is shorter when fewer words remain. *)
Definition window_at (size : Z) (words : list Py.str) (start : Z) : Py.str :=
  Py.join (Py.lit " ") (take (Z.to_nat size) (drop (Z.to_nat start) words)).

(** The windows of one segment of the corpus. *)
Definition segment_windows (size overlap : Z) (seg : Py.str) : list Py.str :=
  match Py.strip seg with
  | [] => []
  | _ :: _ =>
      map (window_at size (Py.split_ws seg))
          (window_starts size overlap (length (Py.split_ws seg)))
  end.

(** The windows of a whole corpus text: segment by segment, in order. *)
Definition corpus_windows (size overlap : Z) (text : Py.str) : list Py.str :=
  flat_map (segment_windows size overlap) (Py.split App.PAGE_SEP text).

(** The chunks that [chunk_text] draws from the block of one committed
    page, taken alone. *)
Definition block_chunks (b : Z * Py.str) : list Py.str :=
  corpus_windows App.CHUNK_SIZE App.CHUNK_OVERLAP (page_block (fst b) (snd b)).

(** A corpus of one segment of 1000 one-letter words. *)
Definition thousand_words : Py.str :=
  flat_map (fun _ => Py.lit "w ") (seq 0 1000).

(** What two consecutive commits through [append] leave in the file at
    [path], when the trimmed contents can be encoded: both calls return,
    and the file holds the bytes that were there, then the block of the
    first commit, then the block of the second; no other file changes; and
    a file that did not exist holds the corpus of the two blocks, and
    reads back as it, newlines as text mode reads them. *)
Definition appends_in_order (path : string)
    (append : Z -> Py.str -> fs -> outcome unit * fs) : Prop :=
  forall (p1 p2 : Z) (c1 c2 : Py.str) (files : fs),
    Py.encodable (Py.strip c1) = true ->
    Py.encodable (Py.strip c2) = true ->
    let old := default [] (files !! path) in
    let after1 := snd (append p1 c1 files) in
    let after2 := snd (append p2 c2 after1) in
    fst (append p1 c1 files) = Returns tt
    /\ fst (append p2 c2 after1) = Returns tt
    /\ after1 !! path = Some (old ++ Py.encode (page_block p1 c1))
    /\ after2 !! path
       = Some (old ++ Py.encode (page_block p1 c1) ++ Py.encode (page_block p2 c2))
    /\ (forall other : string, other <> path -> after2 !! other = files !! other)
    /\ (files !! path = None ->
        after2 !! path = Some (Py.encode (corpus_of [(p1, c1); (p2, c2)]))
        /\ read_text after2 path
           = Returns (Py.universal_newlines (corpus_of [(p1, c1); (p2, c2)]))).

(** What a commit through [append] leaves when its trimmed content cannot
    be encoded: the call raises [UnicodeEncodeError], and the file holds
    the bytes that were there and the start line of the block, without
    content and without end line; no other file changes. *)
Definition append_tears (path : string)
    (append : Z -> Py.str -> fs -> outcome unit * fs) : Prop :=
  forall (p : Z) (c : Py.str) (files : fs),
    Py.encodable (Py.strip c) = false ->
    append p c files
    = (Raises UnicodeEncodeError,
       <[path := default [] (files !! path) ++ Py.encode (start_line p)]> files).

(* ===================================================================== *)
(** * Sample collaborators, for the worked examples *)
(* ===================================================================== *)

(** A US-letter page, 612 by 792 points. *)
Definition letter_page : Page :=
  {| rect := {| x0 := 0; y0 := 0; x1 := 612; y1 := 792 |};
     get_text := fun _ => Py.lit "Stage IA disease" |}.

(** A label-sized page, 100 by 50 points: lower than the top margin. *)
Definition label_page : Page :=
  {| rect := {| x0 := 0; y0 := 0; x1 := 100; y1 := 50 |};
     get_text := fun _ => [] |}.

(** A PDF library that opens every path as the two pages above, the
    height of a rectangle being [y1 - y0]. *)
Definition sample_fitz : Fitz :=
  {| fitz_open := fun _ => Returns [letter_page; label_page];
     rect_height := fun r => PrimFloat.sub (y1 r) (y0 r) |}.

(** An image, by its size and the box it was cropped to, if any. *)
Record shot := { shot_size : Z * Z; shot_box : option box }.

(** An imaging library that renders at [dots] pixels per point the page
    asked for, and whose [crop] takes any box as it is given. *)
Definition sample_imaging (dots : Z) : Imaging shot :=
  {| convert_from_path := fun _ first_page _ =>
       match first_page with
       | 1 => Returns [{| shot_size := (612 * dots, 792 * dots); shot_box := None |}]
       | 2 => Returns [{| shot_size := (100 * dots, 50 * dots); shot_box := None |}]
       | _ => Returns []
       end;
     size := shot_size;
     crop := fun img b =>
       match b with
       | (l, u, r, w) =>
           Returns {| shot_size := (r - l, w - u); shot_box := Some b |}
       end |}.

(** [b] lies within an image of the given size. *)
Definition box_within (b : box) (sz : Z * Z) : bool :=
  match b with
  | (l, u, r, w) =>
      (0 <=? l) && (l <=? r) && (r <=? fst sz)
      && (0 <=? u) && (u <=? w) && (w <=? snd sz)
  end.

(** The rectangle has no area: it is degenerate or inverted. *)
Definition no_area (r : Rect) : bool :=
  PrimFloat.leb (x1 r) (x0 r) || PrimFloat.leb (y1 r) (y0 r).

(** An operating system whose [EDITOR] is ["vim"], that names every
    temporary file ["/tmp/tmpk3x9"] plus the suffix, and where the editor,
    when it is installed, replaces the content of the file it is given by
    ["edited"] and exits with status 0. *)
Definition sample_os (editor_installed : bool) : OS :=
  {| environ := {[ "EDITOR" := "vim" ]};
     temp_name := fun _ suffix => String.append "/tmp/tmpk3x9" suffix;
     call := fun argv files =>
       if editor_installed then
         match argv with
         | [_; f] => Some (0, <[f := Py.encode (Py.lit "edited")]> files)
         | _ => Some (2, files)
         end
       else None |}.

(** An embedding model of dimension 2: the length of the text, and 1. *)
Definition sample_bedrock : App.Bedrock :=
  {| App.invoke_embedding := fun text =>
       Returns [default PrimFloat.zero (Py.float_of_int (Z.of_nat (length text)));
                PrimFloat.one] |}.

(** The squared Euclidean distance of two vectors. *)
Definition l2_sqr (q v : list float) : float :=
  foldr (fun p acc =>
           PrimFloat.add
             (PrimFloat.mul (PrimFloat.sub (fst p) (snd p))
                            (PrimFloat.sub (fst p) (snd p))) acc)
        PrimFloat.zero (zip q v).

(** One more (distance, id) pair in a list sorted by distance. *)
Fixpoint insert_by_distance (p : float * Z) (l : list (float * Z))
  : list (float * Z) :=
  match l with
  | [] => [p]
  | h :: t =>
      if PrimFloat.leb (fst p) (fst h) then p :: l
      else h :: insert_by_distance p t
  end.

(** The stored vectors by distance to [q], nearest first. *)
Definition ranked (index : App.IndexFlatL2) (q : list float) : list (float * Z) :=
  foldr insert_by_distance []
        (imap (fun i v => (l2_sqr q v, Z.of_nat i)) (App.xb index)).

(** An exhaustive search: for each query row the [k] nearest stored
    vectors, the slots beyond the number of vectors holding the largest
    binary32 value and the id -1. *)
Definition exhaustive_search (index : App.IndexFlatL2) (x : App.ndarray) (k : Z)
  : outcome (list (list float) * list (list Z)) :=
  if forallb (fun q => Z.of_nat (length q) =? App.d index) (App.rows x) then
    let top := fun q => take (Z.to_nat k) (ranked index q) in
    let pad := fun q => (Z.to_nat k - length (top q))%nat in
    Returns
      (map (fun q => map fst (top q) ++ replicate (pad q) 0x1.fffffep+127%float)
           (App.rows x),
       map (fun q => map snd (top q) ++ replicate (pad q) (-1)) (App.rows x))
  else Raises AssertionError.

(** A float as four numbers: its class, sign, mantissa and shifted
    exponent. *)
Definition float_to_blob (x : float) : blob :=
  match Prim2SF x with
  | S754_zero s => [0; if s then 1 else 0; 0; 0]%N
  | S754_infinity s => [1; if s then 1 else 0; 0; 0]%N
  | S754_nan => [2; 0; 0; 0]%N
  | S754_finite s m e => [3%N; if s then 1%N else 0%N; N.pos m; Z.to_N (e + 2000)]
  end.

Definition float_of_blob (tag sign m e : N) : float :=
  SF2Prim
    match tag with
    | 0%N => S754_zero (N.eqb sign 1)
    | 1%N => S754_infinity (N.eqb sign 1)
    | 3%N =>
        match m with
        | N.pos p => S754_finite (N.eqb sign 1) p (Z.of_N e - 2000)
        | N0 => S754_nan
        end
    | _ => S754_nan
    end.

(** [n] floats read from a blob, and the rest of it. *)
Fixpoint floats_of_blob (n : nat) (b : blob) : option (list float * blob) :=
  match n with
  | O => Some ([], b)
  | S n' =>
      match b with
      | tag :: sign :: m :: e :: b' =>
          '(xs, rest) ← floats_of_blob n' b';
          Some (float_of_blob tag sign m e :: xs, rest)
      | _ => None
      end
  end.

(** [n] rows of [dim] floats read from a blob. *)
Fixpoint rows_of_blob (n dim : nat) (b : blob) : option (list (list float)) :=
  match n with
  | O => match b with [] => Some [] | _ :: _ => None end
  | S n' =>
      '(row, rest) ← floats_of_blob dim b;
      rows ← rows_of_blob n' dim rest;
      Some (row :: rows)
  end.

(** An index file: the dimension, the number of vectors, the vectors. *)
Definition index_to_blob (index : App.IndexFlatL2) : blob :=
  Z.to_N (App.d index) :: N.of_nat (length (App.xb index))
  :: flat_map (flat_map float_to_blob) (App.xb index).

Definition index_of_blob (b : blob) : outcome App.IndexFlatL2 :=
  match b with
  | dim :: n :: b' =>
      match rows_of_blob (N.to_nat n) (N.to_nat dim) b' with
      | Some rows => Returns {| App.d := Z.of_N dim; App.xb := rows |}
      | None => Raises CollaboratorError
      end
  | _ => Raises CollaboratorError
  end.

Definition sample_faiss : App.Faiss :=
  {| App.search := exhaustive_search;
     App.write_index := index_to_blob;
     App.read_index := index_of_blob |}.

(** A list of strings as bytes: each string by the length of its UTF-8
    encoding, then the encoding. *)
Definition strings_to_blob (l : list Py.str) : blob :=
  flat_map (fun s => N.of_nat (length (Py.encode s)) :: Py.encode s) l.

Fixpoint strings_of_blob (fuel : nat) (b : blob) : outcome (list Py.str) :=
  match b with
  | [] => Returns []
  | n :: b' =>
      match fuel with
      | O => Unfinished
      | S fuel' =>
          s ← or_raise CollaboratorError (Py.decode (take (N.to_nat n) b'));
          l ← strings_of_blob fuel' (drop (N.to_nat n) b');
          Returns (s :: l)
      end
  end.

Definition sample_pickle : App.Pickle :=
  {| App.dumps := strings_to_blob;
     App.loads := fun b => strings_of_blob (length b) b |}.

Definition sample_env : App.Env :=
  {| App.bedrock := sample_bedrock; App.faiss := sample_faiss;
     App.pickle := sample_pickle |}.

(** A corpus file of two committed pages. *)
Definition sample_files : fs :=
  {[ App.TEXT_FILE :=
       Py.encode (corpus_of [(1, Py.lit "hello world"); (3, Py.lit "stage IA")]) ]}.

(** The chunks and the index that [build_and_save_index] makes of
    [sample_files] with these collaborators. *)
Definition sample_chunks : list Py.str :=
  [Py.lit "1 === hello world === END PAGE ===";
   Py.lit "3 === stage IA === END PAGE ==="].

Definition sample_index : App.IndexFlatL2 :=
  {| App.d := 2; App.xb := [[34%float; 1%float]; [31%float; 1%float]] |}.

(** What FAISS documents of the ids that [search] gives for one query
    over [n] stored vectors and [k] neighbours: [k] ids, those of the
    neighbours found first, each below [n], and -1 in every slot for
    which no neighbour is left. *)
Definition flat_search_ids (n k : Z) (ids : list Z) : bool :=
  (Z.of_nat (length ids) =? k)
  && forallb (fun i => (0 <=? i) && (i <? n)) (take (Z.to_nat n) ids)
  && forallb (fun i => i =? -1) (drop (Z.to_nat n) ids).

(** [w] put after the last of the [pieces]. *)
Fixpoint app_last (pieces : list Py.str) (w : Py.str) : list Py.str :=
  match pieces with
  | [] => [w]
  | [p] => [p ++ w]
  | p :: ps => p :: app_last ps w
  end.

(* ===================================================================== *)
(** * Words, committed blocks and sessions *)
(* ===================================================================== *)

(** A word, as [str.split()] gives them: not empty, no whitespace. *)
Definition is_word (w : Py.str) : Prop :=
  w <> [] /\ Forall (fun c => Py.isspace c = false) w.

(** The content of the output file once the blocks of the given commits
    have been appended to what it held ([None]: no file). *)
Definition appended (before : option blob) (blocks : list (Z * Py.str)) : option blob :=
  match blocks with
  | [] => before
  | _ :: _ => Some (default [] before ++ Py.encode (corpus_of blocks))
  end.

(** Every editor session on the system [os] leaves the file at [path] as
    it was. *)
Definition sessions_keep (os : OS) (path : string) : Prop :=
  forall (text : Py.str) (files : fs),
    snd (FinalExtract.launch_editor os text files) !! path = files !! path.

(** The call [append_to_output(page_num, content)] writes its whole
    block: the trimmed content can be encoded. *)
Definition whole (b : Z * Py.str) : bool := Py.encodable (Py.strip (snd b)).

(** The text that a call of [append_to_output] adds to the output file:
    its block, or the start line only when the write of the content
    raises. *)
Definition entry_text (b : Z * Py.str) : Py.str :=
  if whole b then page_block (fst b) (snd b) else start_line (fst b).

(** The content of the output file once the given calls have been made
    on what it held ([None]: no file). *)
Definition written (before : option blob) (entries : list (Z * Py.str)) : option blob :=
  match entries with
  | [] => before
  | _ :: _ => Some (default [] before ++ Py.encode (flat_map entry_text entries))
  end.

(** From [w] to [w'] the calls [entries] of [append_to_output] were made,
    in this order and no other, and the file at [path] holds what they
    wrote after what it held. *)
Definition extended {St} (path : string) (entries : list (Z * Py.str))
    (w w' : world St) : Prop :=
  w_log w' = w_log w ++ entries
  /\ w_files w' !! path = written (w_files w !! path) entries.

(** A step of a session made no call of [append_to_output] and left the
    reviewer's output file as it was. *)
Definition unchanged {St} (w w' : world St) : Prop :=
  w_log w' = w_log w
  /\ w_files w' !! FinalExtract.OUTPUT_PATH = w_files w !! FinalExtract.OUTPUT_PATH.

(** A step of a session made the one call
    [append_to_output(page + 1, text)], for some text: it gave [ok] when
    the block was written whole, and the [UnicodeEncodeError] of the
    write otherwise. *)
Definition committed {St A} (page : Z) (ok : A) (w w' : world St) (r : halt + A)
  : Prop :=
  exists text : Py.str,
    extended FinalExtract.OUTPUT_PATH [(page + 1, text)] w w'
    /\ (if whole (page + 1, text) then r = inr ok
        else r = inl (Raised UnicodeEncodeError)).

(** Every call wrote its whole block, but for the last when the run ended
    with the [UnicodeEncodeError] of its write. *)
Definition torn_only_last {A} (entries : list (Z * Py.str)) (r : halt + A) : Prop :=
  Forall (fun b => whole b = true) entries
  \/ exists (pre : list (Z * Py.str)) (b : Z * Py.str),
       entries = pre ++ [b]
       /\ Forall (fun b => whole b = true) pre
       /\ whole b = false
       /\ r = inl (Raised UnicodeEncodeError).

(** The content of an entry of the record is a reply of the model of the
    batch run to the image of the entry's page. *)
Definition replied {Image St} (tools : Tools Image St) (pdf_path : string)
    (b : Z * Py.str) : Prop :=
  exists env env' : St,
    AutomatedScript.convert_page tools pdf_path (fst b - 1) env
    = (Returns (snd b), env').

(** The call comes back: with a value or with an exception. *)
Definition settled {A} (o : outcome A) : Prop := o <> Unfinished.

(** Every call the reviewer makes to its libraries on [pdf_path] comes
    back. *)
Definition tools_settle {Image St} (tools : Tools Image St) (pdf_path : string) : Prop :=
  settled (page_count (reader tools) pdf_path)
  /\ settled (fitz_open (fitz tools) pdf_path)
  /\ (forall first_page last_page : Z,
         settled (convert_from_path (imaging tools) pdf_path first_page last_page))
  /\ (forall (img : Image) (b : box), settled (crop (imaging tools) img b))
  /\ (forall img : Image, settled (encode_image_to_base64 (vision tools) img)).

(** A step of a session ends within its step budget, and the lines left
    to read are no more than before. *)
Definition ends {St A} (w : world St) (r : halt + A) (w' : world St) : Prop :=
  r <> inl OutOfFuel /\ (length (w_stdin w') <= length (w_stdin w))%nat.

(* ===================================================================== *)
(** * Sample tools and a sample session *)
(* ===================================================================== *)

(** ASCII lower case. *)
Definition ascii_lower (s : Py.str) : Py.str :=
  map (fun c => if ((65 <=? c) && (c <=? 90))%N then (c + 32)%N else c) s.

(** Decimal digits read as a natural number. *)
Fixpoint digits_value (acc : Z) (s : Py.str) : option Z :=
  match s with
  | [] => Some acc
  | c :: s' =>
      if ((48 <=? c) && (c <=? 57))%N
      then digits_value (10 * acc + Z.of_N (c - 48)) s'
      else None
  end.

(** [int(s)] on an optional minus sign and decimal digits; every other
    string is refused. *)
Definition decimal_of_str (s : Py.str) : option Z :=
  match s with
  | [] => None
  | 45%N :: c :: s' => Z.opp <$> digits_value 0 (c :: s')
  | _ => digits_value 0 s
  end.

(** An operating system as [sample_os], whose editor saves the two lines
    ["Stage"] and ["IB"] with the line ends of DOS and of the old Mac OS:
    ["Stage\r\nIB\r"]. *)
Definition dos_os : OS :=
  {| environ := environ (sample_os true);
     temp_name := temp_name (sample_os true);
     call := fun argv files =>
       match argv with
       | [_; f] =>
           Some (0, <[f := Py.encode [83; 116; 97; 103; 101; 13; 10; 73; 66; 13]%N]> files)
       | _ => Some (2, files)
       end |}.

(** A vision model that answers on even states and fails on odd ones. *)
Definition sample_vision : Vision shot nat :=
  {| encode_image_to_base64 := fun _ => Returns (Py.lit "aW1hZ2U=");
     invoke_claude_image := fun st _ _ =>
       if Nat.even st then (Returns (Py.lit " Stage IA: surgery. "), S st)
       else (Raises CollaboratorError, S st) |}.

(** The tools of the worked examples: a document of two pages, rendered
    at 2 pixels per point, the editor of [sample_os], and the state of the
    world a counter of the calls made. *)
Definition sample_tools : Tools shot nat :=
  {| builtins := {| lower := ascii_lower; int_of_str := decimal_of_str |};
     reader := {| page_count := fun _ => Returns 2 |};
     fitz := sample_fitz;
     imaging := sample_imaging 2;
     vision := sample_vision;
     desk := {| os_of := fun _ => sample_os true; after_editor := S |} |}.

(** A PDF library that opens every path as two letter pages, and an
    imaging library that renders each of them at [dots] pixels per
    point. *)
Definition letter_fitz : Fitz :=
  {| fitz_open := fun _ => Returns [letter_page; letter_page];
     rect_height := fun r => PrimFloat.sub (y1 r) (y0 r) |}.

Definition letter_imaging (dots : Z) : Imaging shot :=
  {| convert_from_path := fun _ first_page _ =>
       if (1 <=? first_page) && (first_page <=? 2)
       then Returns [{| shot_size := (612 * dots, 792 * dots); shot_box := None |}]
       else Returns [];
     size := shot_size;
     crop := fun img b =>
       match b with
       | (l, u, r, w) =>
           Returns {| shot_size := (r - l, w - u); shot_box := Some b |}
       end |}.

(** A vision model that answers every call. *)
Definition steady_vision : Vision shot nat :=
  {| encode_image_to_base64 := fun _ => Returns (Py.lit "aW1hZ2U=");
     invoke_claude_image := fun st _ _ =>
       (Returns (Py.lit "Stage IB: chemotherapy."), S st) |}.

(** Tools on a document of two letter pages, with the model that answers
    every call. *)
Definition steady_tools : Tools shot nat :=
  {| builtins := builtins sample_tools;
     reader := reader sample_tools;
     fitz := letter_fitz;
     imaging := letter_imaging 2;
     vision := steady_vision;
     desk := desk sample_tools |}.

(** The files that [build_and_save_index] leaves on [sample_files]. *)
Definition sample_built : fs :=
  <[App.CHUNKS_FILE := App.dumps sample_pickle sample_chunks]>
    (<[App.FAISS_INDEX_FILE := App.write_index sample_faiss sample_index]> sample_files).

(** A session on the sample tools: page 1 accepted in raw mode after a
    change of margins, page 2 edited and saved in flowchart mode. *)
Definition sample_session : world nat :=
  World ∅ [Py.lit " R "; Py.lit "m"; Py.lit "50"; Py.lit "x"; Py.lit "3";
           Py.lit ""; Py.lit "a"; Py.lit "f"; Py.lit "re"; Py.lit "e";
           Py.lit "y"; Py.lit "zz"] 0%nat [].

(* ===================================================================== *)
(** * Lemmas on the Python built-ins *)
(* ===================================================================== *)

Section BuiltinFacts.

Lemma slice_take_drop {A} (l : list A) (start len : Z) :
  0 <= start -> 0 <= len ->
  Py.slice l start (start + len) = take (Z.to_nat len) (drop (Z.to_nat start) l).
Proof.
  intros Hs Hl. unfold Py.slice, Py.slice_bound.
  destruct (Z.ltb_spec start 0); [lia|].
  destruct (Z.ltb_spec (start + len) 0); [lia|].
  set (n := Z.of_nat (length l)).
  destruct (Z.le_gt_cases start n) as [Hle|Hgt].
  - rewrite (Z.min_l start n) by lia.
    destruct (Z.le_gt_cases (start + len) n) as [Hle'|Hgt'].
    + rewrite Z.min_l by lia. f_equal. lia.
    + rewrite Z.min_r by lia.
      rewrite !take_ge; [reflexivity | |]; rewrite length_drop; lia.
  - rewrite !Z.min_r by lia. rewrite Z.sub_diag.
    rewrite (drop_ge l (Z.to_nat start)) by lia. by rewrite take_nil.
Qed.

Lemma lstrip_nil_iff (s : Py.str) :
  Py.lstrip s = [] <-> Forall (fun c => Py.isspace c = true) s.
Proof.
  induction s as [|c s IH]; simpl.
  - split; auto.
  - destruct (Py.isspace c) eqn:E.
    + rewrite IH. split; [by constructor | by inversion 1].
    + split; [discriminate | inversion 1; congruence].
Qed.

Lemma lstrip_head (s : Py.str) c r :
  Py.lstrip s = c :: r -> Py.isspace c = false.
Proof.
  induction s as [|a s IH]; simpl; [discriminate|].
  destruct (Py.isspace a) eqn:E; [exact IH|]. intros [= <- <-]. exact E.
Qed.

Lemma strip_nil_iff (s : Py.str) :
  Py.strip s = [] <-> Forall (fun c => Py.isspace c = true) s.
Proof.
  unfold Py.strip, Py.rstrip. split.
  - intros H. apply lstrip_nil_iff.
    destruct (Py.lstrip s) as [|c r] eqn:E; [done|].
    apply lstrip_head in E.
    assert (Hl : Py.lstrip (rev (c :: r)) = []).
    { destruct (Py.lstrip (rev (c :: r))); [done|].
      apply (f_equal length) in H. rewrite length_rev in H. done. }
    apply lstrip_nil_iff in Hl. rewrite Forall_forall in Hl.
    specialize (Hl c). rewrite E in Hl. discriminate Hl.
    apply list_elem_of_In, in_rev. rewrite rev_involutive. by left.
  - intros H. apply lstrip_nil_iff in H. by rewrite H.
Qed.

Lemma split_ws_from_spaces (cur t : Py.str) :
  Forall (fun c => Py.isspace c = true) t ->
  Py.split_ws_from cur t = match cur with [] => [] | _ :: _ => [rev cur] end.
Proof.
  intros H. revert cur. induction H as [|c t Hc _ IH]; intros cur; simpl; [done|].
  rewrite Hc. destruct cur; [exact (IH [])|]. by rewrite (IH []).
Qed.

Lemma split_ws_from_app_spaces (s t cur : Py.str) :
  Forall (fun c => Py.isspace c = true) t ->
  Py.split_ws_from cur (s ++ t) = Py.split_ws_from cur s.
Proof.
  intros Ht. revert cur. induction s as [|c s IH]; intros cur; simpl.
  - rewrite split_ws_from_spaces by done. by destruct cur.
  - destruct (Py.isspace c); [destruct cur|]; by rewrite ?IH.
Qed.

Lemma split_ws_from_length (s cur : Py.str) :
  (length (Py.split_ws_from cur s) <= length s + length cur)%nat.
Proof.
  revert cur. induction s as [|c s IH]; intros cur; simpl.
  - destruct cur; simpl; lia.
  - destruct (Py.isspace c).
    + destruct cur; simpl; [specialize (IH []) | specialize (IH [])]; simpl in IH; lia.
    + specialize (IH (c :: cur)). simpl in IH. lia.
Qed.

Lemma split_ws_length (s : Py.str) : (length (Py.split_ws s) <= length s)%nat.
Proof. unfold Py.split_ws. pose proof (split_ws_from_length s []). simpl in *. lia. Qed.

Lemma startswith_app_l (sep s t : Py.str) :
  Py.startswith sep s = true -> Py.startswith sep (s ++ t) = true.
Proof.
  revert s. induction sep as [|a sep IH]; intros [|b s]; simpl; try done.
  intros [-> H]%andb_prop. by rewrite IH.
Qed.

Lemma startswith_self (sep t : Py.str) : Py.startswith sep (sep ++ t) = true.
Proof. induction sep as [|a sep IH]; simpl; [done|]. by rewrite N.eqb_refl. Qed.

Lemma startswith_length (sep s : Py.str) :
  Py.startswith sep s = true -> (length sep <= length s)%nat.
Proof.
  revert s. induction sep as [|a sep IH]; intros [|b s]; simpl; try done; try lia.
  intros [_ H]%andb_prop. apply IH in H. lia.
Qed.

(** An occurrence of [sep] at the start of [s ++ t] lies inside [s], or
    [s] is made of characters of [sep] and so is the first of [t]. *)
Lemma startswith_app_inv (sep s t : Py.str) :
  Py.startswith sep (s ++ t) = true ->
  Py.startswith sep s = true
  \/ (Forall (fun c => c ∈ sep) s /\ exists c t', t = c :: t' /\ c ∈ sep).
Proof.
  revert s. induction sep as [|a sep IH]; intros s; simpl; [by left|].
  destruct s as [|b s]; simpl.
  - destruct t as [|c t']; [done|]. intros [E _]%andb_prop.
    apply N.eqb_eq in E as ->. right. split; [constructor|].
    exists c, t'. split; [done | by left].
  - intros [E H]%andb_prop. apply N.eqb_eq in E as ->.
    destruct (IH _ H) as [H1 | [H1 (c & t' & -> & Hc)]].
    + left. by rewrite N.eqb_refl.
    + right. split.
      * constructor; [by left|]. eapply Forall_impl; [exact H1|].
        intros x Hx. by right.
      * exists c, t'. split; [done | by right].
Qed.

Lemma split_skip_nonempty (sep : Py.str) (skip : nat) (s : Py.str) :
  Py.split_skip sep skip s <> [].
Proof.
  revert skip. induction s as [|c s IH]; intros skip; simpl; [done|].
  destruct skip; [|apply IH].
  destruct (Py.startswith sep (c :: s)); [done|].
  specialize (IH 0%nat). by destruct (Py.split_skip sep 0 s).
Qed.

Lemma split_skip_pieces_length (sep : Py.str) (skip : nat) (s : Py.str) :
  Forall (fun p => (length p <= length s)%nat) (Py.split_skip sep skip s).
Proof.
  revert skip. induction s as [|c s IH]; intros skip; simpl.
  - constructor; [simpl; lia | constructor].
  - assert (Hw : forall k, Forall (fun p => (length p <= S (length s))%nat)
                       (Py.split_skip sep k s)).
    { intros k. eapply Forall_impl; [apply IH|]. simpl. intros; lia. }
    destruct skip; [|apply Hw].
    destruct (Py.startswith sep (c :: s)).
    + constructor; [simpl; lia | apply Hw].
    + specialize (IH 0%nat). destruct (Py.split_skip sep 0 s) as [|p ps]; simpl.
      * constructor; [simpl; lia | constructor].
      * inversion IH; subst. constructor; [simpl; lia|].
        eapply Forall_impl; [eassumption|]. simpl. intros; lia.
Qed.

(** Passing over the rest of an occurrence. *)
Lemma split_skip_pass (sep pre s : Py.str) :
  Py.split_skip sep (length pre) (pre ++ s) = Py.split_skip sep 0 s.
Proof. induction pre as [|a pre IH]; simpl; [done | exact IH]. Qed.

Lemma cons_head_app (c : Py.char) (l1 l2 : list Py.str) :
  l1 <> [] -> Py.cons_head c (l1 ++ l2) = Py.cons_head c l1 ++ l2.
Proof. by destruct l1. Qed.

Lemma app_last_cons_head (c : Py.char) (l : list Py.str) (w : Py.str) :
  l <> [] -> app_last (Py.cons_head c l) w = Py.cons_head c (app_last l w).
Proof. destruct l as [|p [|q l]]; done. Qed.

Lemma app_last_cons (p : Py.str) (l : list Py.str) (w : Py.str) :
  l <> [] -> app_last (p :: l) w = p :: app_last l w.
Proof. by destruct l. Qed.

Lemma split_skip_no_sep (sep w : Py.str) :
  sep <> [] -> Forall (fun c => c ∉ sep) w -> Py.split_skip sep 0 w = [w].
Proof.
  intros Hsep. induction 1 as [|c w Hc _ IH]; simpl; [done|].
  destruct sep as [|a sep]; [done|]. simpl.
  destruct (N.eqb_spec a c) as [->|_]; simpl.
  - exfalso. apply Hc. by left.
  - change (Py.split_skip (a :: sep) 0 w) with (Py.split_skip (a :: sep) 0 w).
    by rewrite IH.
Qed.

(** Text after which no occurrence of [sep] can start or end: cutting
    [s ++ w] cuts [s] and leaves [w] at the end of the last piece. *)
Lemma split_skip_app_tail (sep s w : Py.str) (skip : nat) :
  sep <> [] -> Forall (fun c => c ∉ sep) w -> (skip <= length s)%nat ->
  Py.split_skip sep skip (s ++ w) = app_last (Py.split_skip sep skip s) w.
Proof.
  intros Hsep Hw. revert skip. induction s as [|c s IH]; intros skip Hk.
  - assert (skip = 0)%nat as -> by (simpl in Hk; lia).
    simpl. by apply split_skip_no_sep.
  - simpl in Hk. simpl. destruct skip as [|k]; [|apply IH; lia].
    change (c :: s ++ w) with ((c :: s) ++ w).
    destruct (Py.startswith sep (c :: s)) eqn:E.
    + rewrite (startswith_app_l _ _ _ E).
      pose proof (startswith_length _ _ E) as Hl. simpl in Hl.
      rewrite IH by lia. rewrite app_last_cons; [done | apply split_skip_nonempty].
    + destruct (Py.startswith sep ((c :: s) ++ w)) eqn:E'.
      * apply startswith_app_inv in E' as [E' | [_ (x & w' & -> & Hx)]];
          [congruence|]. inversion Hw; subst. done.
      * rewrite IH by lia.
        rewrite app_last_cons_head; [done | apply split_skip_nonempty].
Qed.

(** A separator that follows text whose last character is not one of its
    own: the pieces before it and the pieces after it are cut apart. *)
Lemma split_skip_app_sep (sep s r : Py.str) (skip : nat) :
  sep <> [] -> (forall c, last s = Some c -> c ∉ sep) -> (skip <= length s)%nat ->
  Py.split_skip sep skip (s ++ sep ++ r)
  = Py.split_skip sep skip s ++ Py.split_skip sep 0 r.
Proof.
  intros Hsep. revert skip. induction s as [|c s IH]; intros skip Hlast Hk.
  - assert (skip = 0)%nat as -> by (simpl in Hk; lia).
    destruct sep as [|a sep]; [done|].
    change ([] ++ (a :: sep) ++ r) with ((a :: sep) ++ r).
    assert (E := startswith_self (a :: sep) r).
    simpl in E |- *. rewrite E. simpl. by rewrite split_skip_pass.
  - assert (Hlast' : forall x, last s = Some x -> x ∉ sep).
    { intros x Hx. apply Hlast. destruct s; [done | exact Hx]. }
    simpl in Hk. simpl. destruct skip as [|k]; [|apply IH; [done | lia]].
    change (c :: s ++ sep ++ r) with ((c :: s) ++ sep ++ r).
    destruct (Py.startswith sep (c :: s)) eqn:E.
    + rewrite (startswith_app_l _ _ _ E).
      pose proof (startswith_length _ _ E) as Hl. simpl in Hl.
      rewrite IH by (done || lia). done.
    + destruct (Py.startswith sep ((c :: s) ++ sep ++ r)) eqn:E'.
      * apply startswith_app_inv in E' as [E' | [Hall _]]; [congruence|].
        exfalso. destruct (last (c :: s)) as [x|] eqn:Hx.
        -- apply (Hlast x eq_refl). rewrite Forall_forall in Hall. apply Hall.
           by apply last_Some_elem_of.
        -- by apply last_None in Hx.
      * rewrite IH by (done || lia).
        rewrite cons_head_app; [done | apply split_skip_nonempty].
Qed.

(** ** UTF-8 *)

Ltac decide_N_tests :=
  repeat match goal with
  | |- context [(?a <? ?b)%N] =>
      first [ rewrite (proj2 (N.ltb_lt a b)) by lia
            | rewrite (proj2 (N.ltb_ge a b)) by lia ]
  | |- context [(?a <=? ?b)%N] =>
      first [ rewrite (proj2 (N.leb_le a b)) by lia
            | rewrite (proj2 (N.leb_gt a b)) by lia ]
  end.

Lemma encode_app (s t : Py.str) : Py.encode (s ++ t) = Py.encode s ++ Py.encode t.
Proof. apply flat_map_app. Qed.

Lemma decode_utf8_char (c : Py.char) (rest : list N) :
  Py.is_scalar c = true ->
  Py.decode (Py.utf8_char c ++ rest) = cons c <$> Py.decode rest.
Proof.
  unfold Py.is_scalar, Py.utf8_char. intros Hv.
  assert (Hvalid : (c < 55296 \/ 57344 <= c < 1114112)%N).
  { apply orb_prop in Hv as [H%N.ltb_lt|[H1%N.leb_le H2%N.ltb_lt]%andb_prop];
      [by left | by right]. }
  clear Hv.
  pose proof (N.div_mod c 64 ltac:(lia)) as Hc.
  pose proof (N.mod_upper_bound c 64 ltac:(lia)) as Hr.
  pose proof (N.div_mod (c / 64) 64 ltac:(lia)) as Hc2.
  pose proof (N.mod_upper_bound (c / 64) 64 ltac:(lia)) as Hr2.
  pose proof (N.div_mod (c / 64 / 64) 64 ltac:(lia)) as Hc3.
  pose proof (N.mod_upper_bound (c / 64 / 64) 64 ltac:(lia)) as Hr3.
  replace (c / 4096)%N with (c / 64 / 64)%N by (by rewrite N.Div0.div_div).
  replace (c / 262144)%N with (c / 64 / 64 / 64)%N by (by rewrite !N.Div0.div_div).
  set (a := (c / 64)%N) in *. set (r := (c mod 64)%N) in *.
  set (b := (a / 64)%N) in *. set (r2 := (a mod 64)%N) in *.
  set (d := (b / 64)%N) in *. set (r3 := (b mod 64)%N) in *.
  clearbody a r b r2 d r3.
  destruct (N.ltb_spec c 128); [|destruct (N.ltb_spec c 2048);
    [|destruct (N.ltb_spec c 65536)]];
    cbn [app Py.decode]; unfold Py.is_cont; decide_N_tests; cbn [andb negb].
  - done.
  - replace ((192 + a - 192) * 64 + (128 + r - 128))%N with c by lia.
    by decide_N_tests.
  - replace ((224 + b - 224) * 4096 + (128 + r2 - 128) * 64 + (128 + r - 128))%N
      with c by lia.
    destruct Hvalid; by decide_N_tests.
  - replace ((240 + d - 240) * 262144 + (128 + r3 - 128) * 4096
             + (128 + r2 - 128) * 64 + (128 + r - 128))%N with c by lia.
    by decide_N_tests.
Qed.

(** Decoding what was encoded gives the text back. *)
Lemma decode_encode (s : Py.str) :
  Forall (fun c => Py.is_scalar c = true) s -> Py.decode (Py.encode s) = Some s.
Proof.
  induction 1 as [|c s Hc _ IH]; [done|].
  unfold Py.encode in *. cbn [flat_map]. rewrite decode_utf8_char by done.
  by rewrite IH.
Qed.

Lemma lit_scalar (s : string) : Forall (fun c => Py.is_scalar c = true) (Py.lit s).
Proof.
  unfold Py.lit. apply Forall_forall. intros c [a [-> _]]%list_elem_of_fmap.
  pose proof (N_ascii_bounded a). unfold Py.is_scalar.
  apply orb_true_intro. left. apply N.ltb_lt. lia.
Qed.

Lemma lstrip_scalar (s : Py.str) :
  Forall (fun c => Py.is_scalar c = true) s ->
  Forall (fun c => Py.is_scalar c = true) (Py.lstrip s).
Proof.
  induction 1 as [|c s Hc Hs IH]; simpl; [done|].
  destruct (Py.isspace c); [done | by constructor].
Qed.

Lemma strip_scalar (s : Py.str) :
  Forall (fun c => Py.is_scalar c = true) s ->
  Forall (fun c => Py.is_scalar c = true) (Py.strip s).
Proof.
  intros H. unfold Py.strip, Py.rstrip.
  assert (Hrev : forall l, Forall (fun c => Py.is_scalar c = true) l ->
                      Forall (fun c => Py.is_scalar c = true) (rev l)).
  { intros l Hl. rewrite Forall_forall in *. intros x Hx. apply Hl.
    by apply list_elem_of_In, in_rev, list_elem_of_In. }
  by apply Hrev, lstrip_scalar, Hrev, lstrip_scalar.
Qed.

End BuiltinFacts.

(* ===================================================================== *)
(** * The window walk of [chunk_text] *)
(* ===================================================================== *)

Section ChunkerFacts.

Variables size overlap : Z.

Let step := size - overlap.

Lemma window_walk_eq (fuel : nat) (words : list Py.str) (start : Z) (chunks : list Py.str) :
  App.window_walk fuel size overlap words start chunks
  = if start <? Z.of_nat (length words) then
      match fuel with
      | O => Unfinished
      | S fuel' =>
          App.window_walk fuel' size overlap words (start + (size - overlap))
            (chunks ++ [Py.join (Py.lit " ") (Py.slice words start (start + size))])
      end
    else Returns chunks.
Proof. by destruct fuel. Qed.

(** [k] turns of the loop, when exactly [k] starts lie below the number
    of words. *)
Lemma window_walk_steps (words : list Py.str) (k fuel : nat) (start : Z)
    (chunks : list Py.str) :
  0 < step -> (k <= fuel)%nat ->
  (forall i, (i < k)%nat -> start + Z.of_nat i * step < Z.of_nat (length words)) ->
  Z.of_nat (length words) <= start + Z.of_nat k * step ->
  App.window_walk fuel size overlap words start chunks
  = Returns (chunks ++
      map (fun i => Py.join (Py.lit " ")
                      (Py.slice words (start + Z.of_nat i * step)
                                      (start + Z.of_nat i * step + size)))
          (seq 0 k)).
Proof.
  intros Hstep. revert fuel start chunks.
  induction k as [|k IH]; intros fuel start chunks Hfuel Hlt Hge.
  - rewrite window_walk_eq.
    destruct (Z.ltb_spec start (Z.of_nat (length words))); [lia|].
    simpl. by rewrite app_nil_r.
  - rewrite window_walk_eq. pose proof (Hlt 0%nat ltac:(lia)) as H0.
    destruct (Z.ltb_spec start (Z.of_nat (length words))); [|lia].
    destruct fuel as [|fuel]; [lia|].
    rewrite IH; [| lia | |].
    + f_equal. rewrite <- app_assoc. f_equal. simpl. f_equal.
      * do 2 f_equal; lia.
      * rewrite <- seq_shift, map_map. apply map_ext. intros i.
        fold step. do 2 f_equal; lia.
    + intros i Hi. specialize (Hlt (S i) ltac:(lia)). fold step. lia.
    + fold step. lia.
Qed.

Lemma window_count_spec (n : nat) :
  0 < step ->
  (forall i, (i < window_count step n)%nat -> Z.of_nat i * step < Z.of_nat n)
  /\ Z.of_nat n <= Z.of_nat (window_count step n) * step
  /\ (window_count step n <= n)%nat.
Proof.
  intros Hstep. unfold window_count.
  pose proof (Z.div_mod (Z.of_nat n + step - 1) step ltac:(lia)) as Hdm.
  pose proof (Z.mod_pos_bound (Z.of_nat n + step - 1) step Hstep) as Hmod.
  set (q := (Z.of_nat n + step - 1) / step) in *.
  assert (0 <= q) by (apply Z.div_pos; lia).
  repeat split.
  - intros i Hi. nia.
  - rewrite Z2Nat.id by lia. nia.
  - destruct (Z.eq_dec q 0) as [->|]; [simpl; lia|]. nia.
Qed.

(** The walk over the words of a segment: enough fuel gives the windows at
    the starts [0, step, 2 step, ...] below the number of words. *)
Lemma window_walk_slices (words : list Py.str) (fuel : nat) (chunks : list Py.str) :
  0 < step -> (length words <= fuel)%nat ->
  App.window_walk fuel size overlap words 0 chunks
  = Returns (chunks ++
      map (fun s => Py.join (Py.lit " ") (Py.slice words s (s + size)))
          (window_starts size overlap (length words))).
Proof.
  intros Hstep Hfuel.
  destruct (window_count_spec (length words) Hstep) as (H1 & H2 & H3).
  rewrite (window_walk_steps words (window_count step (length words)));
    [| done | lia | intros; rewrite Z.add_0_l; by apply H1 | by rewrite Z.add_0_l].
  unfold window_starts. rewrite map_map. do 2 f_equal.
Qed.

Lemma window_walk_closed (words : list Py.str) (fuel : nat) (chunks : list Py.str) :
  0 < step -> 0 <= size -> (length words <= fuel)%nat ->
  App.window_walk fuel size overlap words 0 chunks
  = Returns (chunks ++
      map (window_at size words) (window_starts size overlap (length words))).
Proof.
  intros Hstep Hsize Hfuel. rewrite window_walk_slices by done.
  do 2 f_equal. unfold window_starts. rewrite !map_map. apply map_ext.
  intros i. unfold window_at. rewrite slice_take_drop; [done | | done].
  fold step. nia.
Qed.

Lemma window_walk_never_raises (fuel : nat) (words : list Py.str) (start : Z)
    (chunks : list Py.str) (e : exn) :
  App.window_walk fuel size overlap words start chunks <> Raises e.
Proof.
  revert start chunks. induction fuel as [|fuel IH]; intros start chunks;
    rewrite window_walk_eq; destruct (start <? _); done || apply IH.
Qed.

Lemma chunk_pages_never_raises (fuel : nat) (pages : list Py.str)
    (chunks : list Py.str) (e : exn) :
  App.chunk_pages fuel size overlap pages chunks <> Raises e.
Proof.
  revert chunks. induction pages as [|page pages IH]; intros chunks; simpl; [done|].
  destruct (Py.strip page); [apply IH|].
  pose proof (window_walk_never_raises fuel (Py.split_ws page) 0 chunks e) as Hw.
  destruct (App.window_walk fuel size overlap (Py.split_ws page) 0 chunks);
    simpl; [apply IH | | done].
  intros [= ->]. done.
Qed.

Lemma chunk_pages_returns (fuel : nat) (pages : list Py.str) (chunks : list Py.str) :
  0 < step ->
  Forall (fun page => (length page <= fuel)%nat) pages ->
  exists out, App.chunk_pages fuel size overlap pages chunks = Returns out.
Proof.
  intros Hstep Hpages. revert chunks.
  induction Hpages as [|page pages Hp _ IH]; intros chunks; simpl; [by eexists|].
  destruct (Py.strip page); [apply IH|].
  rewrite window_walk_slices; [apply IH | done |].
  pose proof (split_ws_length page). lia.
Qed.

Lemma chunk_pages_closed (fuel : nat) (pages : list Py.str) (chunks : list Py.str) :
  0 < step -> 0 <= size ->
  Forall (fun page => (length page <= fuel)%nat) pages ->
  App.chunk_pages fuel size overlap pages chunks
  = Returns (chunks ++ flat_map (segment_windows size overlap) pages).
Proof.
  intros Hstep Hsize Hpages. revert chunks.
  induction Hpages as [|page pages Hp _ IH]; intros chunks; simpl.
  - by rewrite app_nil_r.
  - unfold segment_windows at 1. destruct (Py.strip page); [apply IH|].
    rewrite window_walk_closed; [| done | done |].
    + simpl. rewrite IH. by rewrite <- app_assoc.
    + pose proof (split_ws_length page). lia.
Qed.

Lemma split_pieces_fuel (text : Py.str) (fuel : nat) :
  (length text <= fuel)%nat ->
  Forall (fun page => (length page <= fuel)%nat) (Py.split App.PAGE_SEP text).
Proof.
  intros H. eapply Forall_impl; [apply split_skip_pieces_length|].
  simpl. intros; lia.
Qed.

Lemma chunk_text_with_closed (fuel : nat) (text : Py.str) :
  0 < step -> 0 <= size -> (length text <= fuel)%nat ->
  App.chunk_text_with size overlap fuel text
  = Returns (corpus_windows size overlap text).
Proof.
  intros. unfold App.chunk_text_with.
  rewrite chunk_pages_closed by auto using split_pieces_fuel. done.
Qed.

(** White space after a segment changes none of its windows. *)
Lemma segment_windows_app_spaces (seg t : Py.str) :
  Forall (fun c => Py.isspace c = true) t ->
  segment_windows size overlap (seg ++ t) = segment_windows size overlap seg.
Proof.
  intros Ht. unfold segment_windows, Py.split_ws.
  rewrite split_ws_from_app_spaces by done.
  destruct (Py.strip (seg ++ t)) eqn:E1, (Py.strip seg) eqn:E2; try done.
  - apply strip_nil_iff, Forall_app in E1 as [E1 _].
    apply strip_nil_iff in E1. congruence.
  - apply strip_nil_iff in E2.
    assert (Py.strip (seg ++ t) = []) by (apply strip_nil_iff, Forall_app; done).
    congruence.
Qed.

Lemma segment_windows_spaces (t : Py.str) :
  Forall (fun c => Py.isspace c = true) t -> segment_windows size overlap t = [].
Proof. intros Ht. unfold segment_windows. apply strip_nil_iff in Ht. by rewrite Ht. Qed.

Lemma flat_map_app_last (pieces : list Py.str) (t : Py.str) :
  pieces <> [] -> Forall (fun c => Py.isspace c = true) t ->
  flat_map (segment_windows size overlap) (app_last pieces t)
  = flat_map (segment_windows size overlap) pieces.
Proof.
  intros Hne Ht. induction pieces as [|p [|q ps] IH]; [done | |].
  - simpl. by rewrite segment_windows_app_spaces.
  - rewrite app_last_cons by done.
    change (flat_map ?f (p :: ?l)) with (f p ++ flat_map f l).
    by rewrite IH.
Qed.

End ChunkerFacts.

(* ===================================================================== *)
(** * Page blocks and the chunker *)
(* ===================================================================== *)

Section BlockFacts.

Variables size overlap : Z.

Lemma NL_not_in_sep : NL ∉ App.PAGE_SEP.
Proof. apply (bool_decide_unpack (NL ∉ App.PAGE_SEP)). by vm_compute. Qed.

Lemma newlines_not_in_sep : Forall (fun c => c ∉ App.PAGE_SEP) [NL; NL].
Proof. repeat constructor; apply NL_not_in_sep. Qed.

Lemma newlines_are_spaces : Forall (fun c => Py.isspace c = true) [NL; NL].
Proof. by repeat constructor. Qed.

Lemma page_sep_nonempty : App.PAGE_SEP <> [].
Proof. done. Qed.

Lemma page_block_eq (page_num : Z) (content : Py.str) :
  page_block page_num content
  = [NL; NL] ++ App.PAGE_SEP ++ block_rest page_num content.
Proof. unfold page_block, block_rest. by rewrite <- !app_assoc. Qed.

(** Cutting a corpus that ends with a freshly appended block: the pieces
    of what was there, its last piece two newlines longer, then the pieces
    of the block after its start marker. *)
Lemma split_app_block (corpus : Py.str) (page_num : Z) (content : Py.str) :
  Py.split App.PAGE_SEP (corpus ++ page_block page_num content)
  = app_last (Py.split App.PAGE_SEP corpus) [NL; NL]
    ++ Py.split App.PAGE_SEP (block_rest page_num content).
Proof.
  rewrite page_block_eq. unfold Py.split.
  rewrite (app_assoc corpus).
  rewrite split_skip_app_sep; [| apply page_sep_nonempty | | lia].
  - by rewrite split_skip_app_tail
      by (apply page_sep_nonempty || apply newlines_not_in_sep || lia).
  - intros c. change [NL; NL] with ([NL] ++ [NL]).
    rewrite app_assoc, last_snoc. intros [= <-]. apply NL_not_in_sep.
Qed.

Lemma corpus_windows_app_block (corpus : Py.str) (page_num : Z) (content : Py.str) :
  corpus_windows size overlap (corpus ++ page_block page_num content)
  = corpus_windows size overlap corpus
    ++ corpus_windows size overlap (page_block page_num content).
Proof.
  unfold corpus_windows at 1 2. rewrite split_app_block, flat_map_app.
  rewrite flat_map_app_last
    by (apply split_skip_nonempty || apply newlines_are_spaces).
  f_equal. unfold corpus_windows.
  rewrite <- (app_nil_l (page_block _ _)), split_app_block, flat_map_app.
  change (Py.split App.PAGE_SEP []) with [@nil Py.char].
  simpl app_last.
  change (flat_map ?f [?x]) with (f x ++ []).
  by rewrite segment_windows_spaces by apply newlines_are_spaces.
Qed.

Lemma corpus_of_snoc (blocks : list (Z * Py.str)) (b : Z * Py.str) :
  corpus_of (blocks ++ [b]) = corpus_of blocks ++ page_block (fst b) (snd b).
Proof.
  unfold corpus_of. rewrite flat_map_app. cbn [flat_map]. by rewrite app_nil_r.
Qed.

Lemma corpus_windows_corpus_of (blocks : list (Z * Py.str)) :
  corpus_windows size overlap (corpus_of blocks)
  = flat_map (fun b => corpus_windows size overlap (page_block (fst b) (snd b)))
             blocks.
Proof.
  induction blocks as [|b blocks IH] using rev_ind; [done|].
  rewrite corpus_of_snoc, corpus_windows_app_block, IH, flat_map_app.
  cbn [flat_map]. by rewrite app_nil_r.
Qed.

Lemma page_block_length_le (blocks : list (Z * Py.str)) (b : Z * Py.str) :
  b ∈ blocks -> (length (page_block (fst b) (snd b)) <= length (corpus_of blocks))%nat.
Proof.
  induction 1 as [b blocks | b b' blocks _ IH]; unfold corpus_of in *;
    cbn [flat_map]; rewrite length_app; lia.
Qed.

End BlockFacts.

(* ===================================================================== *)
(** * Theorems: the chunker *)
(* ===================================================================== *)

Lemma chunk_text_closed (text : Py.str) (fuel : nat) :
  (length text <= fuel)%nat ->
  App.chunk_text fuel text
  = Returns (corpus_windows App.CHUNK_SIZE App.CHUNK_OVERLAP text).
Proof. intros H. unfold App.chunk_text. by rewrite chunk_text_with_closed. Qed.

(** C1. For every corpus text, [chunk_text] cuts it into segments at the
    page separator and, for each segment that is not blank, with its [n]
    words, chunk size 600 and overlap 100, gives the windows that start at
    the word indices 0, 500, 1000, ... below [n], each of at most 600
    words, the last one holding only the words that remain. In particular
    a corpus of one segment of 1000 words gives exactly two windows, from
    index 0 and from index 500, the second holding the 500 words at the
    indices 500 to 999; so does every segment of 1000 words. *)
Theorem chunk_text_windows :
  (forall (text : Py.str) (fuel : nat),
     (length text <= fuel)%nat ->
     App.chunk_text fuel text
     = Returns (flat_map (segment_windows App.CHUNK_SIZE App.CHUNK_OVERLAP)
                         (Py.split App.PAGE_SEP text)))
  /\ (forall (n : nat) (s : Z),
        s ∈ window_starts App.CHUNK_SIZE App.CHUNK_OVERLAP n
        <-> exists k : nat,
              s = Z.of_nat k * (App.CHUNK_SIZE - App.CHUNK_OVERLAP)
              /\ s < Z.of_nat n)
  /\ (forall seg : Py.str,
        length (Py.split_ws seg) = 1000%nat ->
        window_starts App.CHUNK_SIZE App.CHUNK_OVERLAP (length (Py.split_ws seg))
        = [0; 500]
        /\ segment_windows App.CHUNK_SIZE App.CHUNK_OVERLAP seg
           = [Py.join (Py.lit " ") (take 600 (Py.split_ws seg));
              Py.join (Py.lit " ") (drop 500 (Py.split_ws seg))]
        /\ length (drop 500 (Py.split_ws seg)) = 500%nat).
Proof.
  pose proof chunk_text_closed as Hgen.
  split; [exact Hgen | split].
  - intros n s. unfold window_starts.
    destruct (window_count_spec App.CHUNK_SIZE App.CHUNK_OVERLAP n ltac:(done))
      as (H1 & H2 & _).
    rewrite list_elem_of_fmap. split.
    + intros (k & -> & Hk). exists k. split; [done|].
      apply H1. apply elem_of_seq in Hk. lia.
    + intros (k & -> & Hk). exists k. split; [done|].
      apply elem_of_seq. split; [lia|]. simpl.
      destruct (Nat.lt_ge_cases k
                  (window_count (App.CHUNK_SIZE - App.CHUNK_OVERLAP) n)); [done|].
      change (App.CHUNK_SIZE - App.CHUNK_OVERLAP) with 500 in *. nia.
  - intros seg Hlen. rewrite Hlen.
    assert (Hstarts : window_starts App.CHUNK_SIZE App.CHUNK_OVERLAP 1000 = [0; 500])
      by (by vm_compute).
    split; [exact Hstarts|].
    assert (Hdrop : length (drop 500 (Py.split_ws seg)) = 500%nat)
      by (rewrite length_drop, Hlen; by vm_compute).
    split; [|exact Hdrop].
    unfold segment_windows. rewrite Hlen, Hstarts.
    destruct (Py.strip seg) eqn:E.
    + apply strip_nil_iff in E. unfold Py.split_ws in Hlen.
      rewrite split_ws_from_spaces in Hlen by done. done.
    + cbn [map]. unfold window_at.
      change (Z.to_nat App.CHUNK_SIZE) with 600%nat.
      change (Z.to_nat 0) with 0%nat. change (Z.to_nat 500) with 500%nat.
      rewrite drop_0.
      rewrite (take_ge (drop 500 (Py.split_ws seg))); [done|].
      rewrite Hdrop. lia.
Qed.

Lemma chunk_text_windows_witness :
  App.chunk_text (length thousand_words) thousand_words
  = Returns [Py.join (Py.lit " ") (take 600 (Py.split_ws thousand_words));
             Py.join (Py.lit " ") (drop 500 (Py.split_ws thousand_words))]
  /\ length (drop 500 (Py.split_ws thousand_words)) = 500%nat.
Proof.
  destruct chunk_text_windows as (Hall & _ & Hthousand).
  destruct (Hthousand thousand_words) as (_ & Hseg & Hrest); [by vm_compute|].
  split; [|exact Hrest].
  rewrite Hall by lia.
  change (Py.split App.PAGE_SEP thousand_words) with [thousand_words].
  cbn [flat_map]. by rewrite Hseg, app_nil_r.
Defined.

(** C2 (amended). [chunk_text] has no check of its configuration: for no
    chunk size and overlap does it refuse to run. It terminates on every
    corpus whenever the overlap is below the chunk size, as it is for the
    constants it is shipped with (100 < 600), the start then advancing by
    a positive number of words at each window. *)
Theorem chunk_text_terminates_below_size :
  App.CHUNK_OVERLAP < App.CHUNK_SIZE
  /\ (forall (size overlap : Z) (text : Py.str) (fuel : nat),
        overlap < size -> (length text <= fuel)%nat ->
        exists chunks, App.chunk_text_with size overlap fuel text = Returns chunks)
  /\ (forall (size overlap : Z) (fuel : nat) (text : Py.str) (e : exn),
        App.chunk_text_with size overlap fuel text <> Raises e).
Proof.
  split; [done | split].
  - intros size overlap text fuel Hlt Hfuel. unfold App.chunk_text_with.
    apply chunk_pages_returns; [lia | by apply split_pieces_fuel].
  - intros. apply chunk_pages_never_raises.
Qed.

Lemma chunk_text_terminates_below_size_witness :
  exists chunks,
    App.chunk_text_with 600 100 5 (Py.lit "a b c") = Returns chunks.
Proof.
  apply (proj1 (proj2 chunk_text_terminates_below_size)); [lia | simpl; lia].
Defined.

(** C2, as stated, fails: with an overlap equal to the chunk size nothing
    is refused or clamped; on the one-word corpus ["a"] each turn of the
    walk appends the window ["a"] and leaves the start at 0, so the walk
    is still running after any number of turns. *)
Lemma chunk_text_overlap_equal_size_runs_forever :
  (forall fuel : nat,
     App.chunk_text_with 100 100 fuel (Py.lit "a") = Unfinished)
  /\ (forall (fuel : nat) (chunks : list Py.str),
        App.window_walk (S fuel) 100 100 [Py.lit "a"] 0 chunks
        = App.window_walk fuel 100 100 [Py.lit "a"] 0 (chunks ++ [Py.lit "a"])).
Proof.
  assert (Hw : forall fuel chunks,
            App.window_walk fuel 100 100 [Py.lit "a"] 0 chunks = Unfinished).
  { induction fuel as [|fuel IH]; intros chunks; [done|].
    rewrite window_walk_eq. exact (IH _). }
  split; [|done].
  intros fuel.
  change (App.chunk_text_with 100 100 fuel (Py.lit "a"))
    with (App.window_walk fuel 100 100 [Py.lit "a"] 0 [] ≫= Returns).
  by rewrite Hw.
Qed.

(** C7 (amended). Every chunk is a contiguous window of at most 600 words
    over the words of one segment of the text of exactly one page block,
    that text being the rest of the block's start line (the page ordinal
    and the closing marker), the trimmed content and the end line; the
    chunks of a corpus are the chunks of its blocks taken one by one, in
    order, so no chunk holds words of two page blocks. *)
Theorem chunks_stay_within_one_page_block :
  forall (blocks : list (Z * Py.str)) (fuel : nat),
    (length (corpus_of blocks) <= fuel)%nat ->
    App.chunk_text fuel (corpus_of blocks) = Returns (flat_map block_chunks blocks)
    /\ forall b : Z * Py.str, b ∈ blocks ->
         App.chunk_text fuel (page_block (fst b) (snd b)) = Returns (block_chunks b)
         /\ forall chunk : Py.str, chunk ∈ block_chunks b ->
              exists (seg : Py.str) (start : Z),
                seg ∈ Py.split App.PAGE_SEP (page_block (fst b) (snd b))
                /\ 0 <= start
                /\ chunk = window_at App.CHUNK_SIZE (Py.split_ws seg) start.
Proof.
  intros blocks fuel Hfuel. split.
  - rewrite chunk_text_closed by done. f_equal.
    exact (corpus_windows_corpus_of App.CHUNK_SIZE App.CHUNK_OVERLAP blocks).
  - intros b Hb. split.
    + rewrite chunk_text_closed; [done|]. pose proof (page_block_length_le blocks b Hb). lia.
    + intros chunk Hin. unfold block_chunks, corpus_windows in Hin.
      apply list_elem_of_In, in_flat_map in Hin as (seg & Hseg & Hin).
      unfold segment_windows in Hin.
      destruct (Py.strip seg); [done|].
      apply in_map_iff in Hin as (start & <- & Hstart).
      exists seg, start. split; [by apply list_elem_of_In | split; [|done]].
      unfold window_starts in Hstart.
      apply in_map_iff in Hstart as (k & <- & _).
      change (App.CHUNK_SIZE - App.CHUNK_OVERLAP) with 500. lia.
Qed.

Lemma chunks_stay_within_one_page_block_witness :
  App.chunk_text 200 (corpus_of [(1, Py.lit "hello"); (7, Py.lit " foo bar ")])
  = Returns (flat_map block_chunks [(1, Py.lit "hello"); (7, Py.lit " foo bar ")]).
Proof.
  apply (chunks_stay_within_one_page_block
           [(1, Py.lit "hello"); (7, Py.lit " foo bar ")] 200).
  vm_compute. lia.
Defined.

(** C7, as stated, fails: the one chunk of the corpus made of the block of
    page 1 with content ["hello"] also holds the page ordinal and the
    words of the two markers, so it is no window over the words of the
    block's content. *)
Lemma chunk_holds_marker_words :
  App.chunk_text 100 (corpus_of [(1, Py.lit "hello")])
  = Returns [Py.lit "1 === hello === END PAGE ==="]
  /\ ~ (exists i j : Z,
          Py.lit "1 === hello === END PAGE ==="
          = Py.join (Py.lit " ") (Py.slice (Py.split_ws (Py.lit "hello")) i j)).
Proof.
  split; [by vm_compute|].
  intros (i & j & H). unfold Py.slice in H.
  change (Py.split_ws (Py.lit "hello")) with [Py.lit "hello"] in H.
  destruct (Z.to_nat (Py.slice_bound _ i)) as [|[|b]];
    destruct (Z.to_nat _) as [|[|a]]; vm_compute in H; discriminate H.
Qed.

(* ===================================================================== *)
(** * Theorems: the geometry clipper *)
(* ===================================================================== *)

Section ClipFacts.

Variable fitz : Fitz.
Variable pdf_path : string.
Variable page_num : Z.
Variable doc : list Page.
Variable page : Page.

Hypothesis opened : fitz_open fitz pdf_path = Returns doc.
Hypothesis found : Py.getitem doc page_num = Some page.

Lemma clipped_returns (r : Rect) (left top right bottom : Z) (l t rt b : float) :
  Py.float_of_int left = Some l -> Py.float_of_int top = Some t ->
  Py.float_of_int right = Some rt -> Py.float_of_int bottom = Some b ->
  clipped r left top right bottom
  = Returns {| x0 := PrimFloat.add (x0 r) l; y0 := PrimFloat.add (y0 r) t;
               x1 := PrimFloat.sub (x1 r) rt; y1 := PrimFloat.sub (y1 r) b |}.
Proof. intros Hl Ht Hr Hb. unfold clipped, to_float. by rewrite Hl, Ht, Hr, Hb. Qed.

Lemma extract_text_with_margins_returns (left top right bottom : Z)
    (l t rt b : float) :
  Py.float_of_int left = Some l -> Py.float_of_int top = Some t ->
  Py.float_of_int right = Some rt -> Py.float_of_int bottom = Some b ->
  let clip := {| x0 := PrimFloat.add (x0 (rect page)) l;
                 y0 := PrimFloat.add (y0 (rect page)) t;
                 x1 := PrimFloat.sub (x1 (rect page)) rt;
                 y1 := PrimFloat.sub (y1 (rect page)) b |} in
  FinalExtract.extract_text_with_margins fitz pdf_path page_num left top right bottom
  = Returns (get_text page clip, clip).
Proof.
  intros Hl Ht Hr Hb clip. unfold FinalExtract.extract_text_with_margins.
  rewrite opened. simpl. rewrite found. simpl.
  by rewrite (clipped_returns _ _ _ _ _ l t rt b).
Qed.

Lemma extract_clip_rect_returns :
  AutomatedScript.extract_clip_rect fitz pdf_path page_num
  = Returns {| x0 := PrimFloat.add (x0 (rect page)) 0;
               y0 := PrimFloat.add (y0 (rect page)) 60;
               x1 := PrimFloat.sub (x1 (rect page)) 0;
               y1 := PrimFloat.sub (y1 (rect page)) 30 |}.
Proof.
  unfold AutomatedScript.extract_clip_rect.
  rewrite opened. simpl. rewrite found. simpl.
  by rewrite (clipped_returns _ _ _ _ _ 0 60 0 30).
Qed.

End ClipFacts.

(** C3. For every page bounds and margins (integers, as the tools have
    them, within the range of a float), the clip rectangle that
    [extract_text_with_margins] and [extract_clip_rect] compute is
    (x0+left, y0+top, x1-right, y1-bottom); for the bounds (0,0,612,792)
    and the margins left 0, top 60, right 0, bottom 30 it is exactly
    (0,60,612,762). *)
Theorem clip_rect_from_margins :
  forall (fitz : Fitz) (pdf_path : string) (page_num : Z) (doc : list Page)
         (page : Page),
    fitz_open fitz pdf_path = Returns doc ->
    Py.getitem doc page_num = Some page ->
    (forall (left top right bottom : Z) (l t rt b : float),
        Py.float_of_int left = Some l -> Py.float_of_int top = Some t ->
        Py.float_of_int right = Some rt -> Py.float_of_int bottom = Some b ->
        snd <$> FinalExtract.extract_text_with_margins fitz pdf_path page_num
                  left top right bottom
        = Returns {| x0 := PrimFloat.add (x0 (rect page)) l;
                     y0 := PrimFloat.add (y0 (rect page)) t;
                     x1 := PrimFloat.sub (x1 (rect page)) rt;
                     y1 := PrimFloat.sub (y1 (rect page)) b |})
    /\ AutomatedScript.extract_clip_rect fitz pdf_path page_num
       = Returns {| x0 := PrimFloat.add (x0 (rect page)) 0;
                    y0 := PrimFloat.add (y0 (rect page)) 60;
                    x1 := PrimFloat.sub (x1 (rect page)) 0;
                    y1 := PrimFloat.sub (y1 (rect page)) 30 |}
    /\ (rect page = {| x0 := 0; y0 := 0; x1 := 612; y1 := 792 |} ->
        snd <$> FinalExtract.extract_text_with_margins fitz pdf_path page_num
                  0 60 0 30
        = Returns {| x0 := 0; y0 := 60; x1 := 612; y1 := 762 |}
        /\ AutomatedScript.extract_clip_rect fitz pdf_path page_num
           = Returns {| x0 := 0; y0 := 60; x1 := 612; y1 := 762 |}).
Proof.
  intros fitz pdf_path page_num doc page Hopen Hfound. split; [|split].
  - intros left top right bottom l t rt b Hl Ht Hr Hb.
    by rewrite (extract_text_with_margins_returns fitz pdf_path page_num doc page
                  Hopen Hfound left top right bottom l t rt b).
  - by apply (extract_clip_rect_returns fitz pdf_path page_num doc page).
  - intros Hrect. split.
    + rewrite (extract_text_with_margins_returns fitz pdf_path page_num doc page
                 Hopen Hfound 0 60 0 30 0 60 0 30) by reflexivity.
      rewrite Hrect. reflexivity.
    + rewrite (extract_clip_rect_returns fitz pdf_path page_num doc page Hopen Hfound).
      rewrite Hrect. reflexivity.
Qed.

Lemma clip_rect_from_margins_witness :
  snd <$> FinalExtract.extract_text_with_margins sample_fitz FinalExtract.PDF_PATH
            0 0 60 0 30
  = Returns {| x0 := 0; y0 := 60; x1 := 612; y1 := 762 |}
  /\ AutomatedScript.extract_clip_rect sample_fitz AutomatedScript.PDF_PATH 0
     = Returns {| x0 := 0; y0 := 60; x1 := 612; y1 := 762 |}.
Proof.
  split.
  - apply (clip_rect_from_margins sample_fitz FinalExtract.PDF_PATH 0
             [letter_page; label_page] letter_page); reflexivity.
  - apply (clip_rect_from_margins sample_fitz AutomatedScript.PDF_PATH 0
             [letter_page; label_page] letter_page); reflexivity.
Defined.

(** C4 (amended). For every page bounds and margins, also those whose
    derived rectangle is degenerate or inverted (x0+left >= x1-right or
    y0+top >= y1-bottom), the clipper returns the rectangle (x0+left,
    y0+top, x1-right, y1-bottom) as computed: it signals no invalid-region
    error. *)
Theorem clip_rect_without_area_is_returned :
  forall (fitz : Fitz) (pdf_path : string) (page_num : Z) (doc : list Page)
         (page : Page),
    fitz_open fitz pdf_path = Returns doc ->
    Py.getitem doc page_num = Some page ->
    (forall (left top right bottom : Z) (l t rt b : float),
        Py.float_of_int left = Some l -> Py.float_of_int top = Some t ->
        Py.float_of_int right = Some rt -> Py.float_of_int bottom = Some b ->
        let clip := {| x0 := PrimFloat.add (x0 (rect page)) l;
                       y0 := PrimFloat.add (y0 (rect page)) t;
                       x1 := PrimFloat.sub (x1 (rect page)) rt;
                       y1 := PrimFloat.sub (y1 (rect page)) b |} in
        no_area clip = true ->
        FinalExtract.extract_text_with_margins fitz pdf_path page_num
          left top right bottom
        = Returns (get_text page clip, clip))
    /\ (let clip := {| x0 := PrimFloat.add (x0 (rect page)) 0;
                       y0 := PrimFloat.add (y0 (rect page)) 60;
                       x1 := PrimFloat.sub (x1 (rect page)) 0;
                       y1 := PrimFloat.sub (y1 (rect page)) 30 |} in
        no_area clip = true ->
        AutomatedScript.extract_clip_rect fitz pdf_path page_num = Returns clip).
Proof.
  intros fitz pdf_path page_num doc page Hopen Hfound. split.
  - intros left top right bottom l t rt b Hl Ht Hr Hb clip _.
    by apply (extract_text_with_margins_returns fitz pdf_path page_num doc page).
  - intros clip _.
    by apply (extract_clip_rect_returns fitz pdf_path page_num doc page).
Qed.

Lemma clip_rect_without_area_is_returned_witness :
  FinalExtract.extract_text_with_margins sample_fitz FinalExtract.PDF_PATH
    0 0 500 0 500
  = Returns (Py.lit "Stage IA disease",
             {| x0 := 0; y0 := 500; x1 := 612; y1 := 292 |})
  /\ AutomatedScript.extract_clip_rect sample_fitz AutomatedScript.PDF_PATH 1
     = Returns {| x0 := 0; y0 := 60; x1 := 100; y1 := 20 |}.
Proof.
  split.
  - apply (proj1 (clip_rect_without_area_is_returned sample_fitz
             FinalExtract.PDF_PATH 0 [letter_page; label_page] letter_page
             eq_refl eq_refl) 0 500 0 500 0%float 500%float 0%float 500%float);
      reflexivity.
  - apply (proj2 (clip_rect_without_area_is_returned sample_fitz
             AutomatedScript.PDF_PATH 1 [letter_page; label_page] label_page
             eq_refl eq_refl)); reflexivity.
Defined.

(** C4, as stated, fails: with top and bottom margins of 500 points on a
    letter page the clipper returns the inverted rectangle
    (0,500,612,292), and on a page 50 points high the fixed margins of the
    unattended tool give the inverted rectangle (0,60,100,20); no error is
    raised. *)
Lemma inverted_clip_rect_is_returned :
  (snd <$> FinalExtract.extract_text_with_margins sample_fitz FinalExtract.PDF_PATH
             0 0 500 0 500
   = Returns {| x0 := 0; y0 := 500; x1 := 612; y1 := 292 |}
   /\ no_area {| x0 := 0; y0 := 500; x1 := 612; y1 := 292 |} = true)
  /\ (AutomatedScript.extract_clip_rect sample_fitz AutomatedScript.PDF_PATH 1
      = Returns {| x0 := 0; y0 := 60; x1 := 100; y1 := 20 |}
      /\ no_area {| x0 := 0; y0 := 60; x1 := 100; y1 := 20 |} = true).
Proof. repeat split; reflexivity. Qed.

(* ===================================================================== *)
(** * Theorems: the pixel crop box *)
(* ===================================================================== *)

(** [int(x)] truncates toward zero: on the finite float of sign [sg],
    mantissa [m] and exponent [ex], that is of value [+/- m * 2^ex], it
    gives [+/- q] for the integer part [q] of [m * 2^ex]. *)
Lemma int_of_float_truncates (x : float) (z : Z) (sg : bool) (m : positive) (ex : Z) :
  Prim2SF x = S754_finite sg m ex ->
  Py.int_of_float x = Some z ->
  exists q : Z,
    0 <= q /\ z = (if sg then - q else q)
    /\ (0 <= ex -> q = Z.pos m * 2 ^ ex)
    /\ (ex < 0 -> q * 2 ^ (- ex) <= Z.pos m < (q + 1) * 2 ^ (- ex)).
Proof.
  intros Hx. unfold Py.int_of_float. rewrite Hx. intros [= <-].
  exists (Z.shiftl (Z.pos m) ex). repeat split.
  - apply Z.shiftl_nonneg. lia.
  - intros Hex. by apply Z.shiftl_mul_pow2.
  - rewrite <- (Z.opp_involutive ex) at 1. rewrite Z.shiftl_opp_r.
    rewrite Z.shiftr_div_pow2 by lia. rewrite Z.mul_comm.
    apply Z.mul_div_le. apply Z.pow_pos_nonneg; lia.
  - rewrite <- (Z.opp_involutive ex) at 1. rewrite Z.shiftl_opp_r.
    rewrite Z.shiftr_div_pow2 by lia. rewrite Z.mul_comm.
    apply Z.mul_succ_div_gt. apply Z.pow_pos_nonneg; lia.
Qed.

Lemma crop_box_returns (clip_rect : Rect) (dpi_scale : float) (a b c e : Z) :
  to_int (PrimFloat.mul (x0 clip_rect) dpi_scale) = Returns a ->
  to_int (PrimFloat.mul (y0 clip_rect) dpi_scale) = Returns b ->
  to_int (PrimFloat.mul (x1 clip_rect) dpi_scale) = Returns c ->
  to_int (PrimFloat.mul (y1 clip_rect) dpi_scale) = Returns e ->
  crop_box clip_rect dpi_scale = Returns (a, b, c, e).
Proof. intros Ha Hb Hc He. unfold crop_box. by rewrite Ha, Hb, Hc, He. Qed.

Section RenderFacts.

Context {Image : Type}.
Variable imaging : Imaging Image.
Variable fitz : Fitz.
Variable pdf_path : string.
Variable page_num : Z.
Variables (imgs : list Image) (page_img : Image).
Variables (doc : list Page) (page : Page).
Variable dpi_scale : float.

Hypothesis rendered :
  convert_from_path imaging pdf_path (page_num + 1) (page_num + 1) = Returns imgs.
Hypothesis first_image : Py.getitem imgs 0 = Some page_img.
Hypothesis opened : fitz_open fitz pdf_path = Returns doc.
Hypothesis found : Py.getitem doc page_num = Some page.
Hypothesis scaled :
  scale_of fitz (snd (size imaging page_img)) (rect page) = Returns dpi_scale.

Lemma render_clipped_image_crops (clip_rect : Rect) (b : box) :
  crop_box clip_rect dpi_scale = Returns b ->
  FinalExtract.render_clipped_image imaging fitz pdf_path page_num clip_rect
  = crop imaging page_img b
  /\ AutomatedScript.render_clipped_image imaging fitz pdf_path page_num clip_rect
     = crop imaging page_img b.
Proof.
  intros Hb.
  unfold FinalExtract.render_clipped_image, AutomatedScript.render_clipped_image.
  rewrite rendered. simpl. rewrite first_image. simpl.
  rewrite opened. simpl. rewrite found. simpl.
  rewrite scaled. simpl. rewrite Hb. done.
Qed.

End RenderFacts.

(** C5 (amended). For every clip rectangle and render scale, the pixel
    crop box is the four clip coordinates, each multiplied by the scale
    and truncated toward zero to an integer (y0 = 60 at the scale 2000/792
    gives the pixel row 151), and [render_clipped_image] hands this box to
    the image's [crop] as computed: it is not clamped to the bounds of the
    rendered image. *)
Theorem pixel_crop_box_truncates_unclamped :
  (forall (clip_rect : Rect) (dpi_scale : float) (a b c e : Z),
      to_int (PrimFloat.mul (x0 clip_rect) dpi_scale) = Returns a ->
      to_int (PrimFloat.mul (y0 clip_rect) dpi_scale) = Returns b ->
      to_int (PrimFloat.mul (x1 clip_rect) dpi_scale) = Returns c ->
      to_int (PrimFloat.mul (y1 clip_rect) dpi_scale) = Returns e ->
      crop_box clip_rect dpi_scale = Returns (a, b, c, e))
  /\ (forall (x : float) (z : Z) (sg : bool) (m : positive) (ex : Z),
        Prim2SF x = S754_finite sg m ex ->
        to_int x = Returns z ->
        exists q : Z,
          0 <= q /\ z = (if sg then - q else q)
          /\ (0 <= ex -> q = Z.pos m * 2 ^ ex)
          /\ (ex < 0 -> q * 2 ^ (- ex) <= Z.pos m < (q + 1) * 2 ^ (- ex)))
  /\ (forall (fitz : Fitz) (r : Rect) (s : float),
        rect_height fitz r = 792%float ->
        scale_of fitz 2000 r = Returns s ->
        to_int (PrimFloat.mul 60 s) = Returns 151)
  /\ (forall (Image : Type) (imaging : Imaging Image) (fitz : Fitz)
             (pdf_path : string) (page_num : Z) (imgs : list Image)
             (page_img : Image) (doc : list Page) (page : Page)
             (dpi_scale : float) (clip_rect : Rect) (b : box),
        convert_from_path imaging pdf_path (page_num + 1) (page_num + 1)
        = Returns imgs ->
        Py.getitem imgs 0 = Some page_img ->
        fitz_open fitz pdf_path = Returns doc ->
        Py.getitem doc page_num = Some page ->
        scale_of fitz (snd (size imaging page_img)) (rect page) = Returns dpi_scale ->
        crop_box clip_rect dpi_scale = Returns b ->
        FinalExtract.render_clipped_image imaging fitz pdf_path page_num clip_rect
        = crop imaging page_img b
        /\ AutomatedScript.render_clipped_image imaging fitz pdf_path page_num clip_rect
           = crop imaging page_img b).
Proof.
  split; [exact crop_box_returns | split; [|split]].
  - intros x z sg m ex Hx Hz. apply (int_of_float_truncates x z sg m ex Hx).
    unfold to_int in Hz. destruct (Py.int_of_float x); [|done].
    by injection Hz as ->.
  - intros fitz r s Hh Hs. unfold scale_of in Hs. rewrite Hh in Hs.
    vm_compute in Hs. injection Hs as <-. by vm_compute.
  - intros Image imaging fitz pdf_path page_num imgs page_img doc page
      dpi_scale clip_rect b H1 H2 H3 H4 H5 H6.
    by apply (render_clipped_image_crops imaging fitz pdf_path page_num
                imgs page_img doc page dpi_scale).
Qed.

Lemma pixel_crop_box_truncates_unclamped_witness :
  FinalExtract.render_clipped_image (sample_imaging 3) sample_fitz
    FinalExtract.PDF_PATH 0 {| x0 := 0; y0 := 60; x1 := 612; y1 := 762 |}
  = crop (sample_imaging 3)
      {| shot_size := (1836, 2376); shot_box := None |} (0, 180, 1836, 2286).
Proof.
  apply (proj2 (proj2 (proj2 pixel_crop_box_truncates_unclamped))
           shot (sample_imaging 3) sample_fitz FinalExtract.PDF_PATH 0
           [{| shot_size := (1836, 2376); shot_box := None |}]
           {| shot_size := (1836, 2376); shot_box := None |}
           [letter_page; label_page] letter_page 3%float
           {| x0 := 0; y0 := 60; x1 := 612; y1 := 762 |} (0, 180, 1836, 2286));
    reflexivity.
Defined.

(** C5, as stated, fails: on a page 50 points high, rendered 100 pixels
    high and 200 wide, the unattended tool crops to the rows 120 to 40,
    outside the image; and a clip rectangle wider than a letter page
    rendered at 2 pixels per point gives the columns -20 to 2000 of an
    image 1224 pixels wide. Neither box is clamped. *)
Lemma crop_box_leaves_image_bounds :
  ((clip ← AutomatedScript.extract_clip_rect sample_fitz AutomatedScript.PDF_PATH 1;
    AutomatedScript.render_clipped_image (sample_imaging 2) sample_fitz
      AutomatedScript.PDF_PATH 1 clip)
   = Returns {| shot_size := (200, -80); shot_box := Some (0, 120, 200, 40) |}
   /\ box_within (0, 120, 200, 40) (200, 100) = false)
  /\ (FinalExtract.render_clipped_image (sample_imaging 2) sample_fitz
        FinalExtract.PDF_PATH 0 {| x0 := -10; y0 := 60; x1 := 1000; y1 := 762 |}
      = Returns {| shot_size := (2020, 1404); shot_box := Some (-20, 120, 2000, 1524) |}
      /\ box_within (-20, 120, 2000, 1524) (1224, 1584) = false).
Proof. repeat split; by vm_compute. Qed.

(* ===================================================================== *)
(** * Theorems: the corpus store *)
(* ===================================================================== *)

Section StoreFacts.

Variable path : string.

Lemma encodable_Forall (s : Py.str) :
  Py.encodable s = true <-> Forall (fun c => Py.is_scalar c = true) s.
Proof.
  unfold Py.encodable. rewrite forallb_forall, Forall_forall.
  split; intros H c Hc; apply H; by apply list_elem_of_In.
Qed.

Lemma encodable_app (s t : Py.str) :
  Py.encodable (s ++ t) = Py.encodable s && Py.encodable t.
Proof. apply forallb_app. Qed.

Lemma encodable_lit (s : string) : Py.encodable (Py.lit s) = true.
Proof. apply encodable_Forall, lit_scalar. Qed.

Lemma encodable_start_line (page_num : Z) : Py.encodable (start_line page_num) = true.
Proof.
  apply encodable_Forall. unfold start_line, Py.str_of_int.
  repeat (apply Forall_app; split); auto using lit_scalar; by repeat constructor.
Qed.

Lemma encodable_page_block (page_num : Z) (content : Py.str) :
  Py.encodable (Py.strip content) = true ->
  Py.encodable (page_block page_num content) = true.
Proof.
  intros H. unfold page_block. fold (start_line page_num).
  rewrite !encodable_app, encodable_start_line, H, encodable_lit. done.
Qed.

Lemma page_block_start_line (page_num : Z) (content : Py.str) :
  page_block page_num content
  = start_line page_num ++ (Py.strip content ++ [NL])
    ++ (Py.lit "=== END PAGE ===" ++ [NL]).
Proof. done. Qed.

(** A commit whose trimmed content can be encoded returns, with its whole
    block after what the file held. *)
Lemma append_block_whole (page_num : Z) (content : Py.str) (files : fs) :
  Py.encodable (Py.strip content) = true ->
  append_block path page_num content files
  = (Returns tt,
     <[path := default [] (files !! path) ++ Py.encode (page_block page_num content)]>
       files).
Proof.
  intros H. unfold append_block, open_append. unfold append_text at 1.
  rewrite encodable_start_line. cbn [then_append]. unfold append_text at 1.
  rewrite encodable_app, H. change (Py.encodable [NL]) with true.
  cbn [andb then_append]. unfold append_text.
  rewrite encodable_app, encodable_lit. change (Py.encodable [NL]) with true.
  cbn [andb].
  rewrite !lookup_insert_eq, !insert_insert_eq. cbn [default from_option id].
  rewrite page_block_start_line, !encode_app, <- !app_assoc. done.
Qed.

(** A commit whose trimmed content cannot be encoded raises at its second
    write, the start line being written. *)
Lemma append_block_torn (page_num : Z) (content : Py.str) (files : fs) :
  Py.encodable (Py.strip content) = false ->
  append_block path page_num content files
  = (Raises UnicodeEncodeError,
     <[path := default [] (files !! path) ++ Py.encode (start_line page_num)]> files).
Proof.
  intros H. unfold append_block, open_append. unfold append_text at 1.
  rewrite encodable_start_line. cbn [then_append]. unfold append_text at 1.
  rewrite encodable_app, H. cbn [andb then_append].
  by rewrite !lookup_insert_eq, !insert_insert_eq.
Qed.

(** What a commit leaves in the file, in both cases. *)
Lemma append_block_written (page_num : Z) (content : Py.str) (files : fs) :
  snd (append_block path page_num content files) !! path
  = written (files !! path) [(page_num, content)].
Proof.
  unfold written, entry_text, whole. cbn [flat_map fst snd]. rewrite app_nil_r.
  destruct (Py.encodable (Py.strip content)) eqn:E.
  - rewrite append_block_whole by done. cbn [snd]. by rewrite lookup_insert_eq.
  - rewrite append_block_torn by done. cbn [snd]. by rewrite lookup_insert_eq.
Qed.

Lemma append_block_result (page_num : Z) (content : Py.str) (files : fs) :
  fst (append_block path page_num content files)
  = if whole (page_num, content) then Returns tt else Raises UnicodeEncodeError.
Proof.
  unfold whole. cbn [snd]. destruct (Py.encodable (Py.strip content)) eqn:E.
  - by rewrite append_block_whole.
  - by rewrite append_block_torn.
Qed.

Lemma append_block_lookup_ne (page_num : Z) (content : Py.str) (files : fs)
    (other : string) :
  other <> path ->
  snd (append_block path page_num content files) !! other = files !! other.
Proof.
  intros H. destruct (Py.encodable (Py.strip content)) eqn:E.
  - rewrite append_block_whole by done. cbn [snd]. by rewrite lookup_insert_ne.
  - rewrite append_block_torn by done. cbn [snd]. by rewrite lookup_insert_ne.
Qed.

Lemma append_block_in_order : appends_in_order path (append_block path).
Proof.
  intros p1 p2 c1 c2 files Hc1 Hc2 old after1 after2. subst old after1 after2.
  rewrite (append_block_whole p1 c1 files Hc1). cbn [fst snd].
  rewrite (append_block_whole p2 c2 _ Hc2). cbn [fst snd].
  rewrite !lookup_insert_eq, insert_insert_eq. cbn [default from_option id].
  rewrite <- app_assoc.
  split; [done | split; [done | split; [done | split; [done | split]]]].
  - intros other Hne. by rewrite lookup_insert_ne.
  - intros Hnone. rewrite Hnone. cbn [default from_option id app].
    assert (Hcorpus : corpus_of [(p1, c1); (p2, c2)]
                      = page_block p1 c1 ++ page_block p2 c2).
    { unfold corpus_of. cbn [flat_map fst snd]. by rewrite app_nil_r. }
    rewrite Hcorpus, encode_app. split; [done|].
    unfold read_text. rewrite lookup_insert_eq, <- encode_app.
    rewrite decode_encode; [done|].
    apply encodable_Forall. rewrite encodable_app.
    by rewrite !encodable_page_block.
Qed.

Lemma append_block_tears : append_tears path (append_block path).
Proof. intros p c files H. by apply append_block_torn. Qed.

End StoreFacts.

(** C8. Two consecutive calls [append_to_output(p1, c1)] then
    [append_to_output(p2, c2)], in either tool and whatever the two page
    ordinals are, whose trimmed contents can be encoded as UTF-8, leave in
    the output file what it held before, unchanged, followed by the block
    of the first call and then the block of the second; a file that did
    not exist holds exactly these two blocks. Each block is a start line
    with the literal page marker and the page ordinal, the trimmed
    content, and the literal end marker. A call whose trimmed content
    cannot be encoded raises [UnicodeEncodeError] once its start line is
    written, and leaves that line without content and end marker. *)
Theorem two_appends_give_two_blocks :
  appends_in_order FinalExtract.OUTPUT_PATH FinalExtract.append_to_output
  /\ appends_in_order AutomatedScript.OUTPUT_PATH AutomatedScript.append_to_output
  /\ append_tears FinalExtract.OUTPUT_PATH FinalExtract.append_to_output
  /\ append_tears AutomatedScript.OUTPUT_PATH AutomatedScript.append_to_output
  /\ (forall (page_num : Z) (content : Py.str),
        page_block page_num content
        = [NL; NL] ++ Py.lit "=== PAGE " ++ Py.str_of_int page_num
          ++ Py.lit " ===" ++ [NL]
          ++ Py.strip content ++ [NL]
          ++ Py.lit "=== END PAGE ===" ++ [NL]).
Proof.
  split; [apply append_block_in_order | split; [apply append_block_in_order|]].
  split; [apply append_block_tears | split; [apply append_block_tears|]].
  intros page_num content. unfold page_block. by rewrite <- !app_assoc.
Qed.

Lemma two_appends_give_two_blocks_witness :
  read_text
    (snd (FinalExtract.append_to_output 12 (Py.lit "  hi there ")
            (snd (FinalExtract.append_to_output 3 (Py.lit " x") ∅))))
    FinalExtract.OUTPUT_PATH
  = Returns (Py.universal_newlines
               (corpus_of [(3, Py.lit " x"); (12, Py.lit "  hi there ")])).
Proof.
  apply (proj1 two_appends_give_two_blocks 3 12 (Py.lit " x")
           (Py.lit "  hi there ") ∅); reflexivity.
Defined.

(** A content that holds a lone surrogate, U+D800: the first call raises
    and leaves its start line only, and after a second call the file
    holds that line and one block, not two blocks. *)
Lemma unencodable_content_leaves_torn_block :
  FinalExtract.append_to_output 3 [55296%N] ∅
  = (Raises UnicodeEncodeError,
     {[ FinalExtract.OUTPUT_PATH := Py.encode (start_line 3) ]})
  /\ snd (FinalExtract.append_to_output 12 (Py.lit "hi")
            (snd (FinalExtract.append_to_output 3 [55296%N] ∅)))
       !! FinalExtract.OUTPUT_PATH
     = Some (Py.encode (start_line 3 ++ start_line 12 ++ Py.lit "hi" ++ [NL]
                        ++ Py.lit "=== END PAGE ===" ++ [NL])).
Proof. by vm_compute. Qed.

(* ===================================================================== *)
(** * Theorems: the vector index *)
(* ===================================================================== *)

Section IndexFacts.

Variable env : App.Env.

Lemma outcome_bind_returns {A B} (a : A) (k : A -> outcome B) :
  (Returns a ≫= k) = k a.
Proof. done. Qed.

Lemma for_each_length {A B} (f : A -> outcome B) (l : list A) (out : list B) :
  for_each f l = Returns out -> length out = length l.
Proof.
  revert out. induction l as [|a l IH]; intros out; simpl.
  - by intros [= <-].
  - destruct (f a); simpl; [|done..].
    destruct (for_each f l); simpl; [|done..].
    intros [= <-]. simpl. by rewrite (IH _ eq_refl).
Qed.

Lemma embed_texts_rows (texts : list Py.str) (a : App.ndarray) :
  App.embed_texts (App.bedrock env) texts = Returns a ->
  length (App.rows a) = length texts.
Proof.
  unfold App.embed_texts.
  destruct (for_each _ texts) as [vectors| |] eqn:E; simpl; [|done..].
  apply for_each_length in E. unfold App.np_array.
  destruct vectors as [|v vs].
  - simpl. intros [= <-]. by rewrite <- E.
  - destruct (forallb _ vs); simpl; [|done].
    intros [= <-]. simpl. rewrite length_map. by rewrite <- E.
Qed.

(** What a successful build returns and leaves in the files. *)
Lemma build_and_save_index_returns (fuel : nat) (files files' : fs)
    (index : App.IndexFlatL2) (chunks : list Py.str) :
  App.build_and_save_index env fuel files = (Returns (index, chunks), files') ->
  files' = <[App.CHUNKS_FILE := App.dumps (App.pickle env) chunks]>
             (<[App.FAISS_INDEX_FILE := App.write_index (App.faiss env) index]> files)
  /\ length (App.xb index) = length chunks.
Proof.
  unfold App.build_and_save_index.
  destruct (App.load_text files) as [text| |]; simpl; [|done..].
  destruct (App.chunk_text fuel text) as [chunks0| |]; simpl; [|done..].
  destruct (App.embed_texts (App.bedrock env) chunks0) as [emb| |] eqn:E;
    simpl; [|done..].
  destruct (Py.getitem (App.shape emb) 1) as [dim|]; simpl; [|done].
  unfold App.index_add. simpl.
  destruct (App.shape emb) as [|? [|dx [|]]]; simpl; try done.
  destruct (dx =? dim); simpl; [|done].
  intros [= <- <- <-]. split; [done|]. simpl.
  by apply embed_texts_rows.
Qed.

Lemma index_paths_differ : App.CHUNKS_FILE <> App.FAISS_INDEX_FILE.
Proof. apply (bool_decide_unpack _). by vm_compute. Qed.

Lemma load_index_after_build (files : fs) (index : App.IndexFlatL2)
    (chunks : list Py.str) :
  App.read_index (App.faiss env) (App.write_index (App.faiss env) index)
  = Returns index ->
  App.loads (App.pickle env) (App.dumps (App.pickle env) chunks) = Returns chunks ->
  App.load_index env
    (<[App.CHUNKS_FILE := App.dumps (App.pickle env) chunks]>
       (<[App.FAISS_INDEX_FILE := App.write_index (App.faiss env) index]> files))
  = Returns (index, chunks).
Proof.
  intros Hindex Hchunks. unfold App.load_index, read_binary.
  rewrite (lookup_insert_ne _ App.CHUNKS_FILE App.FAISS_INDEX_FILE)
    by apply index_paths_differ.
  rewrite !lookup_insert_eq. cbn [or_raise].
  rewrite outcome_bind_returns, Hindex, !outcome_bind_returns, Hchunks. done.
Qed.

End IndexFacts.

(** C6. When [build_and_save_index] has built and written an index and
    its chunk list, [load_index] reads back the same vector table and the
    same chunk list, element for element, provided FAISS and pickle read
    back what they wrote for this index and this list; a search, and
    [retrieve], on the loaded index then give what they give on the built
    one, for every query. The built index holds one vector per chunk. *)
Theorem build_persist_load_roundtrip :
  forall (env : App.Env) (fuel : nat) (files files' : fs)
         (index : App.IndexFlatL2) (chunks : list Py.str),
    App.build_and_save_index env fuel files = (Returns (index, chunks), files') ->
    App.read_index (App.faiss env) (App.write_index (App.faiss env) index)
    = Returns index ->
    App.loads (App.pickle env) (App.dumps (App.pickle env) chunks) = Returns chunks ->
    App.load_index env files' = Returns (index, chunks)
    /\ length (App.xb index) = length chunks
    /\ forall (index' : App.IndexFlatL2) (chunks' : list Py.str),
         App.load_index env files' = Returns (index', chunks') ->
         App.d index' = App.d index /\ App.xb index' = App.xb index
         /\ chunks' = chunks
         /\ (forall (q : App.ndarray) (k : Z),
                App.search (App.faiss env) index' q k
                = App.search (App.faiss env) index q k)
         /\ (forall query : Py.str,
                App.retrieve env query index' chunks'
                = App.retrieve env query index chunks).
Proof.
  intros env fuel files files' index chunks Hbuild Hindex Hchunks.
  apply build_and_save_index_returns in Hbuild as [-> Hlen].
  pose proof (load_index_after_build env files index chunks Hindex Hchunks) as Hload.
  split; [exact Hload | split; [exact Hlen|]].
  intros index' chunks' Hload'. rewrite Hload in Hload'.
  by injection Hload' as <- <-.
Qed.

Lemma build_persist_load_roundtrip_witness :
  App.load_index sample_env
    (snd (App.build_and_save_index sample_env 500 sample_files))
  = Returns (sample_index, sample_chunks).
Proof.
  apply (build_persist_load_roundtrip sample_env 500 sample_files
           (snd (App.build_and_save_index sample_env 500 sample_files))
           sample_index sample_chunks); by vm_compute.
Defined.

(* ===================================================================== *)
(** * Theorems: retrieval *)
(* ===================================================================== *)

Section RetrieveFacts.

Variable chunks : list Py.str.

Lemma getitem_in_range (i : Z) :
  0 <= i < Z.of_nat (length chunks) ->
  Py.getitem chunks i = chunks !! Z.to_nat i.
Proof.
  intros H. unfold Py.getitem.
  destruct (Z.leb_spec 0 i); [|lia].
  destruct (Z.ltb_spec i (Z.of_nat (length chunks))); [done | lia].
Qed.

(** [chunks[-1]] is the last chunk. *)
Lemma getitem_minus_one (c : Py.str) :
  last chunks = Some c -> Py.getitem chunks (-1) = Some c.
Proof.
  intros H. unfold Py.getitem. simpl.
  assert (length chunks <> 0%nat) by (by destruct chunks).
  destruct (Z.leb_spec (- Z.of_nat (length chunks)) (-1)); [|lia]. simpl.
  rewrite last_lookup in H. rewrite <- H. f_equal. lia.
Qed.

Lemma for_each_getitem (ids : list Z) :
  Forall (fun i => is_Some (Py.getitem chunks i)) ids ->
  for_each (fun i => or_raise IndexError (Py.getitem chunks i)) ids
  = Returns (map (fun i => default [] (Py.getitem chunks i)) ids).
Proof.
  induction 1 as [|i ids [c Hc] _ IH]; simpl; [done|].
  rewrite Hc. simpl. by rewrite IH.
Qed.

Lemma getitem_out_of_range (i : Z) :
  i < - Z.of_nat (length chunks) \/ Z.of_nat (length chunks) <= i ->
  Py.getitem chunks i = None.
Proof.
  intros H. unfold Py.getitem.
  destruct (Z.leb_spec 0 i), (Z.ltb_spec i (Z.of_nat (length chunks)));
    cbn [andb]; try lia;
    destruct (Z.leb_spec (- Z.of_nat (length chunks)) i), (Z.ltb_spec i 0);
    cbn [andb]; (done || lia).
Qed.

Lemma for_each_getitem_raises (ids : list Z) (i : Z) :
  i ∈ ids -> Py.getitem chunks i = None ->
  for_each (fun i => or_raise IndexError (Py.getitem chunks i)) ids
  = Raises IndexError.
Proof.
  intros Hin Hnone. induction Hin as [i ids|i a ids Hin IH]; cbn [for_each].
  - by rewrite Hnone.
  - destruct (Py.getitem chunks a); [|done].
    cbn [or_raise]. rewrite outcome_bind_returns. by rewrite IH.
Qed.

End RetrieveFacts.

(** C10. For an index of [n] vectors, fewer than [TOP_K] = 10, and a
    chunk list that is not empty, FAISS gives the ids of the [n]
    neighbours found and then the id -1 in each slot for which no
    neighbour is left. When the chunk list holds at least [n] chunks,
    [retrieve] returns exactly 10 entries: the first [n] are the chunks at
    the ids found, in the order of the search, and, [chunks[-1]] being the
    last chunk, the last chunk stands in every later slot. A chunk list
    that is not empty is not enough for that: when an id found is at or
    beyond the length of the chunk list, [retrieve] raises
    [IndexError]. *)
Theorem retrieve_pads_with_last_chunk :
  forall (env : App.Env) (query : Py.str) (index : App.IndexFlatL2)
         (chunks : list Py.str) (q_emb : App.ndarray)
         (dists : list (list float)) (ids : list Z) (more : list (list Z))
         (last_chunk : Py.str),
    App.embed_texts (App.bedrock env) [query] = Returns q_emb ->
    App.search (App.faiss env) index q_emb App.TOP_K = Returns (dists, ids :: more) ->
    flat_search_ids (App.ntotal index) App.TOP_K ids = true ->
    App.ntotal index < App.TOP_K ->
    last chunks = Some last_chunk ->
    (App.ntotal index <= Z.of_nat (length chunks) ->
     exists out : list Py.str,
       App.retrieve env query index chunks = Returns out
       /\ length out = 10%nat
       /\ (forall j : nat,
             Z.of_nat j < App.ntotal index ->
             exists i : Z,
               ids !! j = Some i /\ 0 <= i < App.ntotal index
               /\ is_Some (out !! j) /\ out !! j = chunks !! Z.to_nat i)
       /\ (forall j : nat,
             App.ntotal index <= Z.of_nat j -> (j < 10)%nat ->
             out !! j = Some last_chunk))
    /\ (forall i : Z,
          i ∈ ids -> Z.of_nat (length chunks) <= i ->
          App.retrieve env query index chunks = Raises IndexError).
Proof.
  intros env query index chunks q_emb dists ids more last_chunk
    Hemb Hsearch Hids Hfew Hlast.
  assert (Hrun : App.retrieve env query index chunks
                 = for_each (fun i => or_raise IndexError (Py.getitem chunks i)) ids).
  { unfold App.retrieve. rewrite Hemb. simpl. rewrite Hsearch. done. }
  split.
  2: { intros i Hin Hout. rewrite Hrun.
       apply (for_each_getitem_raises chunks ids i); [done|].
       apply getitem_out_of_range. by right. }
  intros Halign.
  unfold flat_search_ids in Hids.
  apply andb_prop in Hids as [[Hlen%Z.eqb_eq Hfound]%andb_prop Hpad].
  rewrite forallb_forall in Hfound, Hpad.
  pose proof (Nat2Z.is_nonneg (length (App.xb index))) as Hn.
  fold (App.ntotal index) in Hn.
  change App.TOP_K with 10 in Hlen, Hfew.
  assert (Hall : Forall (fun i => is_Some (Py.getitem chunks i)) ids).
  { rewrite <- (take_drop (Z.to_nat (App.ntotal index)) ids).
    apply Forall_app. split; apply Forall_forall; intros i Hi%list_elem_of_In.
    - apply Hfound in Hi. apply andb_prop in Hi as [H0%Z.leb_le H1%Z.ltb_lt].
      rewrite getitem_in_range by lia. apply lookup_lt_is_Some. lia.
    - apply Hpad in Hi. apply Z.eqb_eq in Hi as ->.
      exists last_chunk. by apply getitem_minus_one. }
  exists (map (fun i => default [] (Py.getitem chunks i)) ids).
  split; [|split; [|split]].
  - rewrite Hrun. by apply for_each_getitem.
  - rewrite length_map. lia.
  - intros j Hj. destruct (ids !! j) as [i|] eqn:E;
      [|apply lookup_ge_None in E; lia].
    assert (Hi : 0 <= i < App.ntotal index).
    { assert (Hin : In i (take (Z.to_nat (App.ntotal index)) ids)).
      { apply list_elem_of_In, list_elem_of_lookup. exists j.
        rewrite lookup_take_lt by lia. done. }
      apply Hfound in Hin. apply andb_prop in Hin as [H0%Z.leb_le H1%Z.ltb_lt].
      lia. }
    exists i. split; [done | split; [done|]].
    rewrite list_lookup_fmap, E. cbn [fmap option_fmap option_map].
    rewrite getitem_in_range by lia.
    destruct (chunks !! Z.to_nat i) as [c|] eqn:Ec; [by split; [eexists|]|].
    apply lookup_ge_None in Ec. lia.
  - intros j Hj Hj10. rewrite list_lookup_fmap.
    assert (Hjth : ids !! j = Some (-1)).
    { destruct (ids !! j) as [i|] eqn:E.
      - f_equal. apply Z.eqb_eq, Hpad, list_elem_of_In.
        apply list_elem_of_lookup. exists (j - Z.to_nat (App.ntotal index))%nat.
        rewrite lookup_drop, <- E. f_equal. lia.
      - apply lookup_ge_None in E. lia. }
    rewrite Hjth. simpl. fold (Py.getitem chunks (-1)).
    by rewrite (getitem_minus_one chunks last_chunk).
Qed.

Lemma retrieve_pads_with_last_chunk_witness :
  exists out : list Py.str,
    App.retrieve sample_env (Py.lit "stage") sample_index sample_chunks = Returns out
    /\ length out = 10%nat
    /\ (forall j : nat,
          Z.of_nat j < App.ntotal sample_index ->
          exists i : Z,
            [1; 0; -1; -1; -1; -1; -1; -1; -1; -1] !! j = Some i
            /\ 0 <= i < App.ntotal sample_index
            /\ is_Some (out !! j) /\ out !! j = sample_chunks !! Z.to_nat i)
    /\ (forall j : nat,
          App.ntotal sample_index <= Z.of_nat j -> (j < 10)%nat ->
          out !! j = Some (Py.lit "3 === stage IA === END PAGE ===")).
Proof.
  apply (proj1 (retrieve_pads_with_last_chunk sample_env (Py.lit "stage") sample_index
           sample_chunks
           {| App.shape := [1; 2]; App.rows := [[5%float; 1%float]] |}
           [[676%float; 841%float; 0x1.fffffep+127%float; 0x1.fffffep+127%float;
             0x1.fffffep+127%float; 0x1.fffffep+127%float; 0x1.fffffep+127%float;
             0x1.fffffep+127%float; 0x1.fffffep+127%float; 0x1.fffffep+127%float]]
           [1; 0; -1; -1; -1; -1; -1; -1; -1; -1] []
           (Py.lit "3 === stage IA === END PAGE ===")
           ltac:(by vm_compute) ltac:(by vm_compute) ltac:(by vm_compute)
           ltac:(by vm_compute) ltac:(by vm_compute)));
    by vm_compute.
Defined.

(** An index of two vectors loaded with a chunk list of one chunk: the
    conditions of a short index and a chunk list that is not empty hold,
    the search finds the ids 1 and 0, and [chunks[1]] raises. *)
Lemma retrieve_on_fewer_chunks_than_vectors_raises :
  App.ntotal sample_index = 2
  /\ App.ntotal sample_index < App.TOP_K
  /\ length (take 1 sample_chunks) = 1%nat
  /\ App.search (App.faiss sample_env) sample_index
       {| App.shape := [1; 2]; App.rows := [[5%float; 1%float]] |} App.TOP_K
     = Returns
         ([[676%float; 841%float; 0x1.fffffep+127%float; 0x1.fffffep+127%float;
            0x1.fffffep+127%float; 0x1.fffffep+127%float; 0x1.fffffep+127%float;
            0x1.fffffep+127%float; 0x1.fffffep+127%float; 0x1.fffffep+127%float]],
          [[1; 0; -1; -1; -1; -1; -1; -1; -1; -1]])
  /\ App.retrieve sample_env (Py.lit "stage") sample_index (take 1 sample_chunks)
     = Raises IndexError.
Proof. by vm_compute. Qed.

(* ===================================================================== *)
(** * Theorems: the editor session *)
(* ===================================================================== *)



(* ===================================================================== *)
(** * Theorems: the words of the chunks *)
(* ===================================================================== *)

Section WordFacts.

Lemma split_ws_from_words (s cur : Py.str) :
  Forall (fun c => Py.isspace c = false) cur ->
  Forall is_word (Py.split_ws_from cur s).
Proof.
  revert cur. induction s as [|c s IH]; intros cur Hcur; simpl.
  - destruct cur as [|a cur]; [constructor|].
    constructor; [|constructor]. split.
    { intros H%(f_equal length). by rewrite length_rev in H. }
    apply Forall_forall. intros x Hx. rewrite Forall_forall in Hcur. apply Hcur.
    by apply list_elem_of_In, in_rev, list_elem_of_In.
  - destruct (Py.isspace c) eqn:E.
    + destruct cur as [|a cur]; [by apply IH|].
      constructor; [|by apply IH]. split.
      * intros H%(f_equal length). by rewrite length_rev in H.
      * apply Forall_forall. intros x Hx. rewrite Forall_forall in Hcur. apply Hcur.
        by apply list_elem_of_In, in_rev, list_elem_of_In.
    + apply IH. by constructor.
Qed.

Lemma split_ws_words (s : Py.str) : Forall is_word (Py.split_ws s).
Proof. by apply split_ws_from_words. Qed.

Lemma split_ws_from_nonspace (w s cur : Py.str) :
  Forall (fun c => Py.isspace c = false) w ->
  Py.split_ws_from cur (w ++ s) = Py.split_ws_from (rev w ++ cur) s.
Proof.
  intros Hw. revert cur. induction Hw as [|c w Hc _ IH]; intros cur; [done|].
  simpl. rewrite Hc, IH. by rewrite <- app_assoc.
Qed.

(** Splitting a line of words joined by single spaces gives the words. *)
Lemma split_ws_join (ws : list Py.str) :
  Forall is_word ws -> Py.split_ws (Py.join (Py.lit " ") ws) = ws.
Proof.
  unfold Py.split_ws. induction 1 as [|w ws [Hne Hw] Hws IH]; [done|].
  assert (Hrev : rev w <> []).
  { intros H%(f_equal length). rewrite length_rev in H. by destruct w. }
  destruct ws as [|w' ws].
  - simpl. rewrite <- (app_nil_r w) at 1. rewrite split_ws_from_nonspace by done.
    rewrite app_nil_r. simpl. destruct (rev w) eqn:E; [done|].
    by rewrite <- E, rev_involutive.
  - change (Py.join (Py.lit " ") (w :: w' :: ws))
      with (w ++ Py.lit " " ++ Py.join (Py.lit " ") (w' :: ws)).
    rewrite split_ws_from_nonspace by done. rewrite app_nil_r.
    change (Py.lit " " ++ ?r) with (cons 32%N r).
    cbn [Py.split_ws_from]. change (Py.isspace 32%N) with true. cbv iota.
    destruct (rev w) eqn:E; [done|]. rewrite <- E, rev_involutive. by rewrite IH.
Qed.

End WordFacts.

Section WindowFacts.

Lemma is_word_take_drop (ws : list Py.str) (a b : nat) :
  Forall is_word ws -> Forall is_word (take a (drop b ws)).
Proof. intros H. by apply Forall_take, Forall_drop. Qed.

(** The words of a window are the words it was made of. *)
Lemma split_ws_window_at (size : Z) (seg : Py.str) (start : Z) :
  Py.split_ws (window_at size (Py.split_ws seg) start)
  = take (Z.to_nat size) (drop (Z.to_nat start) (Py.split_ws seg)).
Proof.
  unfold window_at. apply split_ws_join, is_word_take_drop, split_ws_words.
Qed.

(** The [i]-th window of a segment. *)
Lemma segment_windows_lookup (size overlap : Z) (seg : Py.str) (i : nat) (c : Py.str) :
  0 < size - overlap ->
  segment_windows size overlap seg !! i = Some c ->
  c = window_at size (Py.split_ws seg) (Z.of_nat i * (size - overlap))
  /\ Z.of_nat i * (size - overlap) < Z.of_nat (length (Py.split_ws seg)).
Proof.
  intros Hstep. unfold segment_windows, window_starts.
  destruct (Py.strip seg); [done|].
  rewrite !list_lookup_fmap. intros H.
  destruct (seq 0 _ !! i) as [k|] eqn:E; [|done].
  apply lookup_seq in E as [-> Hk]. simpl in H. injection H as <-.
  split; [done|].
  by apply (window_count_spec size overlap (length (Py.split_ws seg)) Hstep).
Qed.

(** Cutting a list into pieces of [step] elements loses nothing. *)
Lemma pieces_cover {A} (step k : nat) (l : list A) :
  (length l <= k * step)%nat ->
  flat_map (fun i => take step (drop (i * step) l)) (seq 0 k) = l.
Proof.
  revert l. induction k as [|k IH]; intros l Hl.
  - destruct l; [done | simpl in Hl; lia].
  - cbn [seq flat_map]. change (0 * step)%nat with 0%nat. rewrite drop_0.
    rewrite <- seq_shift, flat_map_concat_map, map_map.
    etransitivity; [|apply (take_drop step l)]. f_equal.
    etransitivity; [|apply (IH (drop step l)); rewrite length_drop; lia].
    rewrite flat_map_concat_map. f_equal.
    apply map_ext. intros i. rewrite drop_drop. do 2 f_equal; lia.
Qed.

(** Words 500 to 599 from an index on are words 0 to 99 from 500 further. *)
Lemma overlap_words {A} (l : list A) (a : nat) :
  take 100 (take 600 (drop (a + 500) l)) = drop 500 (take 600 (drop a l)).
Proof.
  rewrite take_take. change (100 `min` 600)%nat with 100%nat.
  change 600%nat with (500 + 100)%nat.
  by rewrite <- take_drop_commute, drop_drop.
Qed.

Lemma segment_windows_cover (seg : Py.str) :
  flat_map (fun c => take 500 (Py.split_ws c))
           (segment_windows App.CHUNK_SIZE App.CHUNK_OVERLAP seg)
  = Py.split_ws seg.
Proof.
  unfold segment_windows. destruct (Py.strip seg) eqn:E.
  - apply strip_nil_iff in E. unfold Py.split_ws.
    by rewrite split_ws_from_spaces.
  - clear E. unfold window_starts.
    destruct (window_count_spec App.CHUNK_SIZE App.CHUNK_OVERLAP
                (length (Py.split_ws seg)) ltac:(done)) as (_ & H & _).
    change (App.CHUNK_SIZE - App.CHUNK_OVERLAP) with 500 in *.
    etransitivity;
      [|apply (pieces_cover 500 (window_count 500 (length (Py.split_ws seg)))); lia].
    rewrite !flat_map_concat_map, !map_map. f_equal.
    apply map_ext. intros i.
    rewrite split_ws_window_at, take_take. do 2 f_equal. lia.
Qed.

End WindowFacts.

(** X1. [chunk_text] loses no word and keeps their order: with a step
    budget of at least the length of the text it returns, and the first
    500 words of every chunk, chunk after chunk, are the words of the
    segments between the page separators, segment after segment. *)
Theorem chunk_text_keeps_every_word :
  forall (text : Py.str) (fuel : nat),
    (length text <= fuel)%nat ->
    exists chunks : list Py.str,
      App.chunk_text fuel text = Returns chunks
      /\ flat_map (fun c => take 500 (Py.split_ws c)) chunks
         = flat_map Py.split_ws (Py.split App.PAGE_SEP text).
Proof.
  intros text fuel Hfuel. eexists. split; [by apply chunk_text_closed|].
  unfold corpus_windows.
  induction (Py.split App.PAGE_SEP text) as [|seg segs IH]; [done|].
  cbn [flat_map]. by rewrite flat_map_app, segment_windows_cover, IH.
Qed.

Lemma lookup_flat_map {A B} (f : A -> list B) (l : list A) (j : nat) (c : B) :
  flat_map f l !! j = Some c ->
  exists (pre : list A) (a : A) (post : list A) (i : nat),
    l = pre ++ a :: post
    /\ j = (length (flat_map f pre) + i)%nat
    /\ f a !! i = Some c.
Proof.
  revert j. induction l as [|a l IH]; intros j; [done|].
  cbn [flat_map]. rewrite lookup_app_Some. intros [H|[Hlen H]].
  - by exists [], a, l, j.
  - apply IH in H as (pre & a' & post & i & -> & Hj & Hi).
    exists (a :: pre), a', post, i. split; [done|]. split; [|done].
    cbn [flat_map]. rewrite length_app. lia.
Qed.

(** The window after the [i]-th exists as soon as words are left past
    its start. *)
Lemma segment_windows_next (seg : Py.str) (i : nat) (c : Py.str) :
  segment_windows App.CHUNK_SIZE App.CHUNK_OVERLAP seg !! i = Some c ->
  (500 * S i < length (Py.split_ws seg))%nat ->
  segment_windows App.CHUNK_SIZE App.CHUNK_OVERLAP seg !! S i
  = Some (window_at App.CHUNK_SIZE (Py.split_ws seg) (Z.of_nat (S i) * 500)).
Proof.
  unfold segment_windows, window_starts. destruct (Py.strip seg); [done|].
  intros _ Hleft. rewrite !list_lookup_fmap.
  destruct (window_count_spec App.CHUNK_SIZE App.CHUNK_OVERLAP
              (length (Py.split_ws seg)) ltac:(done)) as (_ & H & _).
  change (App.CHUNK_SIZE - App.CHUNK_OVERLAP) with 500 in *.
  rewrite lookup_seq_lt by lia. done.
Qed.

(** X2. Every chunk that [chunk_text] returns holds at least one and at
    most 600 words, and is these words joined by single spaces: no chunk
    is empty, and none starts, ends or is broken by other white space. *)
Theorem chunks_are_lines_of_at_most_600_words :
  forall (text : Py.str) (fuel : nat),
    (length text <= fuel)%nat ->
    exists chunks : list Py.str,
      App.chunk_text fuel text = Returns chunks
      /\ Forall (fun c => (1 <= length (Py.split_ws c) <= 600)%nat
                          /\ Py.join (Py.lit " ") (Py.split_ws c) = c) chunks.
Proof.
  intros text fuel Hfuel. eexists. split; [by apply chunk_text_closed|].
  unfold corpus_windows. apply Forall_flat_map, Forall_forall. intros seg _.
  apply Forall_lookup. intros i c Hc.
  apply segment_windows_lookup in Hc as [-> Hlt]; [|done].
  change (App.CHUNK_SIZE - App.CHUNK_OVERLAP) with 500 in *.
  rewrite split_ws_window_at. split; [|done].
  rewrite length_take, length_drop. change (Z.to_nat App.CHUNK_SIZE) with 600%nat.
  lia.
Qed.

Lemma chunks_are_lines_of_at_most_600_words_witness :
  exists chunks : list Py.str,
    App.chunk_text (length thousand_words) thousand_words = Returns chunks
    /\ Forall (fun c => (1 <= length (Py.split_ws c) <= 600)%nat
                        /\ Py.join (Py.lit " ") (Py.split_ws c) = c) chunks.
Proof.
  apply (chunks_are_lines_of_at_most_600_words thousand_words (length thousand_words)).
  lia.
Defined.

Lemma chunk_text_keeps_every_word_witness :
  exists chunks : list Py.str,
    App.chunk_text (length thousand_words) thousand_words = Returns chunks
    /\ flat_map (fun c => take 500 (Py.split_ws c)) chunks
       = flat_map Py.split_ws (Py.split App.PAGE_SEP thousand_words).
Proof.
  apply (chunk_text_keeps_every_word thousand_words (length thousand_words)). lia.
Defined.

(** X3. A chunk of more than 500 words is never the last one that
    [chunk_text] returns: the chunk after it exists, and starts with the
    words of the first from its 501st on (100 words, or as many as are
    left). *)
Theorem long_chunk_overlaps_the_next :
  forall (text : Py.str) (fuel : nat) (chunks : list Py.str) (j : nat) (c : Py.str),
    (length text <= fuel)%nat ->
    App.chunk_text fuel text = Returns chunks ->
    chunks !! j = Some c ->
    (500 < length (Py.split_ws c))%nat ->
    exists c' : Py.str,
      chunks !! S j = Some c'
      /\ take 100 (Py.split_ws c') = drop 500 (Py.split_ws c).
Proof.
  intros text fuel chunks j c Hfuel Hrun Hc Hlong.
  rewrite chunk_text_closed in Hrun by done. injection Hrun as <-.
  unfold corpus_windows in *.
  apply lookup_flat_map in Hc as (pre & seg & post & i & -> & -> & Hi).
  pose proof Hi as Hnext.
  apply segment_windows_lookup in Hi as [-> Hlt]; [|done].
  change (App.CHUNK_SIZE - App.CHUNK_OVERLAP) with 500 in *.
  rewrite split_ws_window_at, length_take, length_drop in Hlong.
  apply segment_windows_next in Hnext; [|lia].
  eexists. split.
  - rewrite flat_map_app. cbn [flat_map].
    rewrite lookup_app_r by lia.
    replace (S (length _ + i) - length _)%nat with (S i) by lia.
    rewrite lookup_app_l by (by apply lookup_lt_is_Some; eexists).
    exact Hnext.
  - rewrite !split_ws_window_at. change (Z.to_nat App.CHUNK_SIZE) with 600%nat.
    replace (Z.to_nat (Z.of_nat (S i) * 500))
      with (Z.to_nat (Z.of_nat i * 500) + 500)%nat by lia.
    apply overlap_words.
Qed.

Lemma long_chunk_overlaps_the_next_witness :
  exists c' : Py.str,
    corpus_windows App.CHUNK_SIZE App.CHUNK_OVERLAP thousand_words !! 1%nat = Some c'
    /\ take 100 (Py.split_ws c')
       = drop 500 (Py.split_ws
                     (Py.join (Py.lit " ") (take 600 (Py.split_ws thousand_words)))).
Proof.
  apply (long_chunk_overlaps_the_next thousand_words (length thousand_words)
           (corpus_windows App.CHUNK_SIZE App.CHUNK_OVERLAP thousand_words) 0
           (Py.join (Py.lit " ") (take 600 (Py.split_ws thousand_words))));
    [lia | by vm_compute | by vm_compute | vm_compute; lia].
Defined.

(* ===================================================================== *)
(** * Theorems: the start of the application, and stale chunk files *)
(* ===================================================================== *)

Section StartFacts.

Variable env : App.Env.

Lemma split_skip_pieces_forall (P : Py.char -> Prop) (sep : Py.str) (skip : nat)
    (s : Py.str) :
  Forall P s -> Forall (Forall P) (Py.split_skip sep skip s).
Proof.
  intros Hs. revert skip. induction Hs as [|c s Hc Hs IH]; intros skip; simpl.
  - by repeat constructor.
  - destruct skip; [|apply IH].
    destruct (Py.startswith sep (c :: s)).
    + constructor; [constructor | apply IH].
    + specialize (IH 0%nat). destruct (Py.split_skip sep 0 s) as [|p ps]; simpl.
      * by repeat constructor.
      * inversion IH; subst. constructor; [by constructor | done].
Qed.

Lemma chunk_pages_blank (fuel : nat) (size overlap : Z) (pages chunks : list Py.str) :
  Forall (Forall (fun c => Py.isspace c = true)) pages ->
  App.chunk_pages fuel size overlap pages chunks = Returns chunks.
Proof.
  induction 1 as [|page pages Hp _ IH]; simpl; [done|].
  apply strip_nil_iff in Hp. by rewrite Hp.
Qed.

(** A corpus of white space only has no chunk, whatever the step budget. *)
Lemma chunk_text_blank (fuel : nat) (text : Py.str) :
  Forall (fun c => Py.isspace c = true) text ->
  App.chunk_text fuel text = Returns [].
Proof.
  intros H. unfold App.chunk_text, App.chunk_text_with.
  by apply chunk_pages_blank, split_skip_pieces_forall.
Qed.

Lemma path_exists_true (files : fs) (path : string) :
  path_exists files path = true <-> is_Some (files !! path).
Proof. unfold path_exists. by rewrite bool_decide_eq_true. Qed.

End StartFacts.

(** X4. On a corpus file that holds white space only, [chunk_text] finds
    no chunk, [np.array([])] has the shape [(0,)], and
    [build_and_save_index] raises [IndexError] at [embeddings.shape[1]],
    before it writes any file. *)
Theorem build_on_blank_corpus_raises :
  forall (env : App.Env) (fuel : nat) (files : fs) (text : Py.str),
    App.load_text files = Returns text ->
    Forall (fun c => Py.isspace c = true) text ->
    App.build_and_save_index env fuel files = (Raises IndexError, files).
Proof.
  intros env fuel files text Hload Hblank.
  unfold App.build_and_save_index. rewrite Hload.
  rewrite outcome_bind_returns, (chunk_text_blank fuel text Hblank).
  done.
Qed.

Lemma build_on_blank_corpus_raises_witness :
  App.build_and_save_index sample_env 10
    {[ App.TEXT_FILE := Py.encode [NL; NL] ]}
  = (Raises IndexError, {[ App.TEXT_FILE := Py.encode [NL; NL] ]}).
Proof.
  apply (build_on_blank_corpus_raises sample_env 10 _ [NL; NL]);
    [reflexivity | by repeat constructor].
Defined.

(** X5. When the application starts without one of the two index files
    and builds them, a second start on the files it leaves takes the
    branch that loads, and gets the same index and the same chunks
    without any step of chunking (FAISS and pickle reading back what they
    wrote). *)
Theorem load_or_build_restart :
  forall (env : App.Env) (fuel fuel' : nat) (files files' : fs)
         (index : App.IndexFlatL2) (chunks : list Py.str),
    path_exists files App.FAISS_INDEX_FILE && path_exists files App.CHUNKS_FILE = false ->
    App.load_or_build env fuel files = (Returns (index, chunks), files') ->
    App.read_index (App.faiss env) (App.write_index (App.faiss env) index)
    = Returns index ->
    App.loads (App.pickle env) (App.dumps (App.pickle env) chunks) = Returns chunks ->
    App.load_or_build env fuel' files' = (Returns (index, chunks), files').
Proof.
  intros env fuel fuel' files files' index chunks Hmiss Hstart Hindex Hchunks.
  unfold App.load_or_build in Hstart. rewrite Hmiss in Hstart.
  apply build_and_save_index_returns in Hstart as [-> _].
  unfold App.load_or_build.
  assert (H1 : path_exists
                 (<[App.CHUNKS_FILE := App.dumps (App.pickle env) chunks]>
                    (<[App.FAISS_INDEX_FILE := App.write_index (App.faiss env) index]> files))
                 App.FAISS_INDEX_FILE = true).
  { apply path_exists_true.
    rewrite lookup_insert_ne by apply index_paths_differ.
    rewrite lookup_insert_eq. by eexists. }
  assert (H2 : path_exists
                 (<[App.CHUNKS_FILE := App.dumps (App.pickle env) chunks]>
                    (<[App.FAISS_INDEX_FILE := App.write_index (App.faiss env) index]> files))
                 App.CHUNKS_FILE = true).
  { apply path_exists_true. rewrite lookup_insert_eq. by eexists. }
  rewrite H1, H2. cbn [andb].
  by rewrite (load_index_after_build env files index chunks Hindex Hchunks).
Qed.

Lemma load_or_build_restart_witness :
  App.load_or_build sample_env 0 sample_built
  = (Returns (sample_index, sample_chunks), sample_built).
Proof.
  apply (load_or_build_restart sample_env 500 0 sample_files sample_built
           sample_index sample_chunks); by vm_compute.
Defined.

(** X6. When both index files exist the start of the application writes
    nothing, and what it loads depends on these two files only: a changed
    corpus file, or another embedding model, gives the same index and
    chunks. *)
Theorem load_or_build_keeps_existing_index :
  forall (env env' : App.Env) (fuel fuel' : nat) (files files' : fs),
    App.faiss env' = App.faiss env -> App.pickle env' = App.pickle env ->
    is_Some (files !! App.FAISS_INDEX_FILE) ->
    is_Some (files !! App.CHUNKS_FILE) ->
    files' !! App.FAISS_INDEX_FILE = files !! App.FAISS_INDEX_FILE ->
    files' !! App.CHUNKS_FILE = files !! App.CHUNKS_FILE ->
    snd (App.load_or_build env fuel files) = files
    /\ fst (App.load_or_build env' fuel' files')
       = fst (App.load_or_build env fuel files).
Proof.
  intros env env' fuel fuel' files files' Hf Hp H1 H2 E1 E2.
  unfold App.load_or_build.
  assert (path_exists files App.FAISS_INDEX_FILE = true) as -> by by apply path_exists_true.
  assert (path_exists files App.CHUNKS_FILE = true) as -> by by apply path_exists_true.
  assert (path_exists files' App.FAISS_INDEX_FILE = true) as ->
    by (apply path_exists_true; by rewrite E1).
  assert (path_exists files' App.CHUNKS_FILE = true) as ->
    by (apply path_exists_true; by rewrite E2).
  cbn [andb fst snd]. split; [done|].
  unfold App.load_index, read_binary. by rewrite E1, E2, Hf, Hp.
Qed.

Lemma load_or_build_keeps_existing_index_witness :
  snd (App.load_or_build sample_env 0 sample_built) = sample_built
  /\ fst (App.load_or_build sample_env 7
            (<[App.TEXT_FILE := Py.encode (Py.lit "another corpus")]> sample_built))
     = fst (App.load_or_build sample_env 0 sample_built).
Proof.
  apply (load_or_build_keeps_existing_index sample_env sample_env 0 7 sample_built
           (<[App.TEXT_FILE := Py.encode (Py.lit "another corpus")]> sample_built));
    [reflexivity | reflexivity
    | apply (bool_decide_unpack _); by vm_compute
    | apply (bool_decide_unpack _); by vm_compute
    | by vm_compute | by vm_compute].
Defined.

(** X7. [retrieve] does not check the ids of the search against the chunk
    list: when one of them is outside [-len(chunks) .. len(chunks) - 1],
    as for a chunk file shorter than its index, or for the padding id -1
    on an empty chunk list, [retrieve] raises [IndexError]. *)
Theorem retrieve_with_stale_chunks_raises :
  forall (env : App.Env) (query : Py.str) (index : App.IndexFlatL2)
         (chunks : list Py.str) (q_emb : App.ndarray)
         (dists : list (list float)) (ids : list Z) (more : list (list Z)) (i : Z),
    App.embed_texts (App.bedrock env) [query] = Returns q_emb ->
    App.search (App.faiss env) index q_emb App.TOP_K = Returns (dists, ids :: more) ->
    i ∈ ids ->
    i < - Z.of_nat (length chunks) \/ Z.of_nat (length chunks) <= i ->
    App.retrieve env query index chunks = Raises IndexError.
Proof.
  intros env query index chunks q_emb dists ids more i Hemb Hsearch Hin Hout.
  unfold App.retrieve. rewrite Hemb, outcome_bind_returns, Hsearch.
  rewrite outcome_bind_returns. cbn [snd].
  change (Py.getitem (ids :: more) 0) with (Some ids). cbn [or_raise].
  rewrite outcome_bind_returns.
  by apply (for_each_getitem_raises chunks ids i), getitem_out_of_range.
Qed.

Lemma retrieve_with_stale_chunks_raises_witness :
  App.retrieve sample_env (Py.lit "stage") sample_index (take 1 sample_chunks)
  = Raises IndexError.
Proof.
  apply (retrieve_with_stale_chunks_raises sample_env (Py.lit "stage") sample_index
           (take 1 sample_chunks)
           {| App.shape := [1; 2]; App.rows := [[5%float; 1%float]] |}
           [[676%float; 841%float; 0x1.fffffep+127%float; 0x1.fffffep+127%float;
             0x1.fffffep+127%float; 0x1.fffffep+127%float; 0x1.fffffep+127%float;
             0x1.fffffep+127%float; 0x1.fffffep+127%float; 0x1.fffffep+127%float]]
           [1; 0; -1; -1; -1; -1; -1; -1; -1; -1] [] 1);
    [by vm_compute | by vm_compute | by left | right; simpl; lia].
Defined.

(* ===================================================================== *)
(** * Theorems: the text an editor session returns *)
(* ===================================================================== *)

(** X8. For an initial text that can be encoded, [launch_editor] returns
    the text that the editor left in the temporary file, whatever its exit
    status, with the newlines as text mode reads them (["\r\n"] and
    ["\r"] as ["\n"]), and the files it leaves are those the editor left
    without the temporary file. *)
Theorem launch_editor_returns_saved_text :
  forall (os : OS) (initial_text saved : Py.str) (files files2 : fs) (status : Z),
    Forall (fun c => Py.is_scalar c = true) initial_text ->
    call os [default "nano" (environ os !! "EDITOR"); temp_name os files ".txt"]
      (write_binary files (temp_name os files ".txt") (Py.encode initial_text))
    = Some (status, files2) ->
    files2 !! temp_name os files ".txt" = Some (Py.encode saved) ->
    Forall (fun c => Py.is_scalar c = true) saved ->
    FinalExtract.launch_editor os initial_text files
    = (Returns (Py.universal_newlines saved),
       delete (temp_name os files ".txt") files2).
Proof.
  intros os initial_text saved files files2 status _ Hcall Hfile Hsaved.
  unfold FinalExtract.launch_editor. cbv zeta. rewrite Hcall.
  unfold read_text, unlink. rewrite Hfile, decode_encode by done. done.
Qed.

Lemma launch_editor_returns_saved_text_witness :
  FinalExtract.launch_editor dos_os (Py.lit "Stage IA") ∅
  = (Returns (Py.universal_newlines [83; 116; 97; 103; 101; 13; 10; 73; 66; 13]%N),
     delete "/tmp/tmpk3x9.txt"
       (<["/tmp/tmpk3x9.txt" := Py.encode [83; 116; 97; 103; 101; 13; 10; 73; 66; 13]%N]>
          (write_binary ∅ "/tmp/tmpk3x9.txt" (Py.encode (Py.lit "Stage IA")))))
  /\ Py.universal_newlines [83; 116; 97; 103; 101; 13; 10; 73; 66; 13]%N
     = [83; 116; 97; 103; 101; 10; 73; 66; 10]%N.
Proof.
  split; [|reflexivity].
  apply (launch_editor_returns_saved_text dos_os (Py.lit "Stage IA")
           [83; 116; 97; 103; 101; 13; 10; 73; 66; 13]%N ∅ _ 0);
    [apply lit_scalar | reflexivity | reflexivity | by repeat constructor].
Defined.

(* ===================================================================== *)
(** * Theorems: the batch run *)
(* ===================================================================== *)

Section WrittenFacts.

Lemma corpus_of_app (l1 l2 : list (Z * Py.str)) :
  corpus_of (l1 ++ l2) = corpus_of l1 ++ corpus_of l2.
Proof. apply flat_map_app. Qed.

Lemma written_app (before : option blob) (l1 l2 : list (Z * Py.str)) :
  written (written before l1) l2 = written before (l1 ++ l2).
Proof.
  destruct l1 as [|b1 l1]; [done|]. destruct l2 as [|b2 l2].
  - by rewrite app_nil_r.
  - cbn [written app default from_option id].
    change (b1 :: l1 ++ b2 :: l2) with ((b1 :: l1) ++ b2 :: l2).
    by rewrite flat_map_app, encode_app, <- app_assoc.
Qed.

(** Calls that all wrote their whole block leave the corpus of their
    blocks. *)
Lemma written_whole (before : option blob) (entries : list (Z * Py.str)) :
  Forall (fun b => whole b = true) entries ->
  written before entries = appended before entries.
Proof.
  intros H. destruct entries as [|b entries]; [done|].
  cbn [written appended]. do 3 f_equal. unfold corpus_of.
  induction H as [|b' l Hb _ IH]; [done|].
  cbn [flat_map]. unfold entry_text at 1. by rewrite Hb, IH.
Qed.

Lemma extended_trans {St} (path : string) (l1 l2 : list (Z * Py.str))
    (w w1 w2 : world St) :
  extended path l1 w w1 -> extended path l2 w1 w2 -> extended path (l1 ++ l2) w w2.
Proof.
  intros [Hlog1 Hfile1] [Hlog2 Hfile2]. split.
  - by rewrite Hlog2, Hlog1, <- app_assoc.
  - by rewrite Hfile2, Hfile1, written_app.
Qed.

Lemma extended_refl {St} (path : string) (w : world St) : extended path [] w w.
Proof. split; [by rewrite app_nil_r | done]. Qed.

(** A call of [append_to_output] in a session: the record and the file
    grow by this call, nothing else changes, and the call raises exactly
    when its content cannot be encoded. *)
Lemma call_append_extended {St} (path : string) (page_num : Z) (content : Py.str)
    (w w' : world St) (o : outcome unit) :
  call_append (append_block path) page_num content w = (o, w') ->
  extended path [(page_num, content)] w w'
  /\ (forall other : string, other <> path -> w_files w' !! other = w_files w !! other)
  /\ w_stdin w' = w_stdin w /\ w_env w' = w_env w
  /\ o = (if whole (page_num, content) then Returns tt else Raises UnicodeEncodeError).
Proof.
  unfold call_append.
  pose proof (append_block_written path page_num content (w_files w)) as Hfile.
  pose proof (append_block_result path page_num content (w_files w)) as Hres.
  pose proof (append_block_lookup_ne path page_num content (w_files w)) as Hne.
  destruct (append_block path page_num content (w_files w)) as [o1 files1].
  cbn [fst snd] in *. intros [= <- <-]. by repeat split.
Qed.

End WrittenFacts.

Section BatchFacts.

Context {Image St : Type}.
Variable tools : Tools Image St.
Variable pdf_path : string.

Lemma process_range_commits (pages : list Z) (w : world St) :
  exists entries : list (Z * Py.str),
    extended AutomatedScript.OUTPUT_PATH entries w
      (AutomatedScript.process_range tools pdf_path pages w)
    /\ (forall other : string,
          other <> AutomatedScript.OUTPUT_PATH ->
          w_files (AutomatedScript.process_range tools pdf_path pages w) !! other
          = w_files w !! other)
    /\ sublist (map fst entries) (map (Z.add 1) pages)
    /\ Forall (replied tools pdf_path) entries.
Proof.
  revert w. induction pages as [|page pages IH]; intros w.
  - exists []. split; [apply extended_refl | by repeat split].
  - cbn [AutomatedScript.process_range].
    destruct (AutomatedScript.convert_page tools pdf_path page (w_env w))
      as [[output|e|] env1] eqn:Econv.
    + destruct (call_append _ _ _ _) as [o w1] eqn:Ecall.
      apply call_append_extended in Ecall as (Hext & Hother1 & _ & _ & _).
      destruct (IH w1) as (entries & Hrest & Hother & Hsub & Hrep).
      exists ((page + 1, output) :: entries). split; [|split; [|split]].
      * apply (extended_trans _ [(page + 1, output)] entries _ w1); [|done].
        destruct Hext as [Hlog Hfile]. by split.
      * intros other Hne. rewrite Hother by done. by rewrite Hother1.
      * cbn [map fst]. rewrite (Z.add_comm 1 page). by constructor.
      * constructor; [|done]. exists (w_env w), env1. cbn [fst snd].
        by replace (page + 1 - 1) with page by lia.
    + destruct (IH (World (w_files w) (w_stdin w) env1 (w_log w)))
        as (entries & Hrest & Hother & Hsub & Hrep).
      exists entries. repeat split; try done; [apply Hrest..|].
      cbn [map]. by constructor.
    + destruct (IH (World (w_files w) (w_stdin w) env1 (w_log w)))
        as (entries & Hrest & Hother & Hsub & Hrep).
      exists entries. repeat split; try done; [apply Hrest..|].
      cbn [map]. by constructor.
Qed.

Lemma process_range_commits_all (pages : list Z) (w : world St) :
  (forall (page : Z) (env : St), page ∈ pages ->
     exists output env',
       AutomatedScript.convert_page tools pdf_path page env = (Returns output, env')
       /\ Py.encodable (Py.strip output) = true) ->
  exists entries : list (Z * Py.str),
    extended AutomatedScript.OUTPUT_PATH entries w
      (AutomatedScript.process_range tools pdf_path pages w)
    /\ map fst entries = map (Z.add 1) pages
    /\ Forall (fun b => whole b = true) entries
    /\ Forall (replied tools pdf_path) entries.
Proof.
  revert w. induction pages as [|page pages IH]; intros w Hall.
  - exists []. split; [apply extended_refl | by repeat split].
  - cbn [AutomatedScript.process_range].
    destruct (Hall page (w_env w)) as (output & env1 & Econv & Hwhole); [by left|].
    rewrite Econv.
    destruct (call_append _ _ _ _) as [o w1] eqn:Ecall.
    apply call_append_extended in Ecall as (Hext & _).
    destruct (IH w1) as (entries & Hrest & Hmap & Hwholes & Hrep).
    { intros p env Hp. apply Hall. by right. }
    exists ((page + 1, output) :: entries). split; [|split; [|split]].
    + apply (extended_trans _ [(page + 1, output)] entries _ w1); [|done].
      destruct Hext as [Hlog Hfile]. by split.
    + cbn [map fst]. rewrite Hmap. f_equal. lia.
    + by constructor.
    + constructor; [|done]. exists (w_env w), env1. cbn [fst snd].
      by replace (page + 1 - 1) with page by lia.
Qed.

Lemma ordinals_of_range (start_page end_page total_pages : Z) :
  map (Z.add 1) (py_range (Z.max 1 start_page - 1) (Z.min end_page total_pages - 1 + 1))
  = seqZ (Z.max 1 start_page) (Z.min end_page total_pages - Z.max 1 start_page + 1).
Proof.
  unfold py_range. change (map (Z.add 1)) with (fmap (M:=list) (Z.add 1)).
  rewrite fmap_add_seqZ. f_equal; lia.
Qed.

End BatchFacts.

(** X9. [process_pages] returns for every range of pages, failures of
    single pages included. It calls [append_to_output] at most once per
    page, for pages of [max(1, start_page) .. min(end_page, total_pages)]
    in increasing order, each time with a reply of the model to the image
    of that page; it changes no file but its output file, which holds
    afterwards what it held, then what these calls wrote, in their order:
    the block of the page, or its start line only when the reply cannot
    be encoded. *)
Theorem process_pages_commits_in_page_order :
  forall (Image St : Type) (tools : Tools Image St) (pdf_path : string)
         (start_page end_page total_pages : Z) (w : world St),
    page_count (reader tools) pdf_path = Returns total_pages ->
    exists (entries : list (Z * Py.str)) (w' : world St),
      AutomatedScript.process_pages tools pdf_path start_page end_page w
      = (Returns tt, w')
      /\ w_log w' = w_log w ++ entries
      /\ w_files w' !! AutomatedScript.OUTPUT_PATH
         = written (w_files w !! AutomatedScript.OUTPUT_PATH) entries
      /\ (forall other : string,
            other <> AutomatedScript.OUTPUT_PATH ->
            w_files w' !! other = w_files w !! other)
      /\ sublist (map fst entries)
           (seqZ (Z.max 1 start_page)
                 (Z.min end_page total_pages - Z.max 1 start_page + 1))
      /\ Forall (replied tools pdf_path) entries.
Proof.
  intros Image St tools pdf_path start_page end_page total_pages w Hcount.
  unfold AutomatedScript.process_pages. rewrite Hcount.
  destruct (process_range_commits tools pdf_path
              (py_range (Z.max 1 start_page - 1) (Z.min end_page total_pages - 1 + 1)) w)
    as (entries & [Hlog Hfile] & Hother & Hsub & Hrep).
  rewrite ordinals_of_range in Hsub.
  exists entries. eexists. repeat split; done.
Qed.

Lemma process_pages_commits_in_page_order_witness :
  exists (entries : list (Z * Py.str)) (w' : world nat),
    AutomatedScript.process_pages sample_tools "ovarian.pdf" 1 5 (World ∅ [] 0%nat [])
    = (Returns tt, w')
    /\ w_log w' = w_log (World (St:=nat) ∅ [] 0%nat []) ++ entries
    /\ w_files w' !! AutomatedScript.OUTPUT_PATH
       = written (w_files (World (St:=nat) ∅ [] 0%nat []) !! AutomatedScript.OUTPUT_PATH)
           entries
    /\ (forall other : string,
          other <> AutomatedScript.OUTPUT_PATH ->
          w_files w' !! other = w_files (World (St:=nat) ∅ [] 0%nat []) !! other)
    /\ sublist (map fst entries) (seqZ (Z.max 1 1) (Z.min 5 2 - Z.max 1 1 + 1))
    /\ Forall (replied sample_tools "ovarian.pdf") entries.
Proof.
  apply (process_pages_commits_in_page_order shot nat sample_tools "ovarian.pdf"
           1 5 2 (World ∅ [] 0%nat [])).
  reflexivity.
Defined.

(** X10. When the conversion of every page of the range succeeds with a
    reply that can be encoded, [process_pages] calls [append_to_output]
    exactly once for each page of
    [max(1, start_page) .. min(end_page, total_pages)], in page order,
    with a reply of the model to the image of that page, and the output
    file holds afterwards what it held, then the whole blocks of these
    calls. *)
Theorem process_pages_commits_every_page :
  forall (Image St : Type) (tools : Tools Image St) (pdf_path : string)
         (start_page end_page total_pages : Z) (w : world St),
    page_count (reader tools) pdf_path = Returns total_pages ->
    (forall (page : Z) (env : St),
        Z.max 1 start_page <= page + 1 <= Z.min end_page total_pages ->
        exists output env',
          AutomatedScript.convert_page tools pdf_path page env = (Returns output, env')
          /\ Py.encodable (Py.strip output) = true) ->
    exists entries : list (Z * Py.str),
      w_log (snd (AutomatedScript.process_pages tools pdf_path start_page end_page w))
      = w_log w ++ entries
      /\ w_files (snd (AutomatedScript.process_pages tools pdf_path start_page end_page w))
           !! AutomatedScript.OUTPUT_PATH
         = appended (w_files w !! AutomatedScript.OUTPUT_PATH) entries
      /\ map fst entries
         = seqZ (Z.max 1 start_page)
                (Z.min end_page total_pages - Z.max 1 start_page + 1)
      /\ Forall (replied tools pdf_path) entries.
Proof.
  intros Image St tools pdf_path start_page end_page total_pages w Hcount Hall.
  unfold AutomatedScript.process_pages. rewrite Hcount. cbn [snd].
  destruct (process_range_commits_all tools pdf_path
              (py_range (Z.max 1 start_page - 1) (Z.min end_page total_pages - 1 + 1)) w)
    as (entries & [Hlog Hfile] & Hmap & Hwhole & Hrep).
  { intros page env Hin. apply Hall. unfold py_range in Hin.
    apply elem_of_seqZ in Hin. lia. }
  rewrite ordinals_of_range in Hmap. exists entries.
  rewrite written_whole in Hfile by done. by repeat split.
Qed.

Lemma process_pages_commits_every_page_witness :
  exists entries : list (Z * Py.str),
    w_log (snd (AutomatedScript.process_pages steady_tools "ovarian.pdf" 1 5
                  (World ∅ [] 0%nat [])))
    = w_log (World (St:=nat) ∅ [] 0%nat []) ++ entries
    /\ w_files (snd (AutomatedScript.process_pages steady_tools "ovarian.pdf" 1 5
                       (World ∅ [] 0%nat [])))
         !! AutomatedScript.OUTPUT_PATH
       = appended (w_files (World (St:=nat) ∅ [] 0%nat []) !! AutomatedScript.OUTPUT_PATH)
           entries
    /\ map fst entries = seqZ (Z.max 1 1) (Z.min 5 2 - Z.max 1 1 + 1)
    /\ Forall (replied steady_tools "ovarian.pdf") entries.
Proof.
  apply (process_pages_commits_every_page shot nat steady_tools "ovarian.pdf"
           1 5 2 (World ∅ [] 0%nat [])); [reflexivity|].
  intros page env Hpage.
  assert (Hp : page = 0 \/ page = 1) by lia.
  destruct Hp as [-> | ->];
    exists (Py.lit "Stage IB: chemotherapy."), (S env); split; by vm_compute.
Defined.

(** X11. For every page the batch script sends the model the image that
    flowchart mode of the interactive reviewer sends: the same clip
    rectangle (margins 0, 60, 0, 30), crop and encoding, with the same
    exceptions. *)
Theorem automated_script_sends_the_flowchart_image :
  forall (Image St : Type) (tools : Tools Image St) (pdf_path : string) (page : Z),
    (clip_rect ← AutomatedScript.extract_clip_rect (fitz tools) pdf_path page;
     image ← AutomatedScript.render_clipped_image (imaging tools) (fitz tools)
                pdf_path page clip_rect;
     encode_image_to_base64 (vision tools) image)
    = (found ← FinalExtract.extract_text_with_margins (fitz tools) pdf_path page
                 0 60 0 30;
       clipped_img ← FinalExtract.render_clipped_image (imaging tools) (fitz tools)
                        pdf_path page (snd found);
       encode_image_to_base64 (vision tools) clipped_img).
Proof.
  intros Image St tools pdf_path page.
  unfold AutomatedScript.extract_clip_rect, FinalExtract.extract_text_with_margins.
  destruct (fitz_open (fitz tools) pdf_path) as [doc| |]; [|done..].
  rewrite !outcome_bind_returns.
  destruct (Py.getitem doc page) as [pg|]; [|done].
  cbn [or_raise]. rewrite !outcome_bind_returns.
  change AutomatedScript.MARGIN_LEFT with 0. change AutomatedScript.MARGIN_TOP with 60.
  change AutomatedScript.MARGIN_RIGHT with 0.
  change AutomatedScript.MARGIN_BOTTOM with 30.
  destruct (clipped (rect pg) 0 60 0 30) as [r| |]; [|done..].
  by rewrite !outcome_bind_returns.
Qed.

(* ===================================================================== *)
(** * Theorems: the interactive session *)
(* ===================================================================== *)

Section SessionFacts.

Context {Image St : Type}.
Variable tools : Tools Image St.

Hypothesis editor_keeps_output :
  forall st : St, sessions_keep (os_of (desk tools) st) FinalExtract.OUTPUT_PATH.

Lemma unchanged_refl (w : world St) : unchanged w w.
Proof. by split. Qed.

Lemma unchanged_trans (w w1 w2 : world St) :
  unchanged w w1 -> unchanged w1 w2 -> unchanged w w2.
Proof. intros [Hl1 Hf1] [Hl2 Hf2]. split; congruence. Qed.

Lemma unchanged_extended (entries : list (Z * Py.str)) (w w1 w2 : world St) :
  unchanged w w1 ->
  extended FinalExtract.OUTPUT_PATH entries w1 w2 ->
  extended FinalExtract.OUTPUT_PATH entries w w2.
Proof. intros [Hl1 Hf1] [Hl2 Hf2]. split; congruence. Qed.

Lemma unchanged_committed {A} (page : Z) (ok : A) (w w1 w2 : world St)
    (r : halt + A) :
  unchanged w w1 -> committed page ok w1 w2 r -> committed page ok w w2 r.
Proof.
  intros Hsame (text & Hext & Hr). exists text. split; [|done].
  by apply (unchanged_extended _ w w1).
Qed.

(** The result of a step read through what its caller makes of it. *)
Lemma committed_through {A B} (page : Z) (ok : A) (ok' : B) (w w' : world St)
    (r : halt + A) (r' : halt + B) :
  committed page ok w w' r ->
  (r = inr ok -> r' = inr ok') ->
  (r = inl (Raised UnicodeEncodeError) -> r' = inl (Raised UnicodeEncodeError)) ->
  committed page ok' w w' r'.
Proof.
  intros (text & Hext & Hr) Hok Hraise. exists text. split; [done|].
  destruct (whole (page + 1, text)); auto.
Qed.

Lemma input_unchanged (w w' : world St) (r : halt + Py.str) :
  input w = (r, w') -> unchanged w w'.
Proof. unfold input. destruct (w_stdin w); by intros [= <- <-]. Qed.

Lemma ask_unchanged (w w' : world St) (r : halt + Py.str) :
  FinalExtract.ask tools w = (r, w') -> unchanged w w'.
Proof.
  unfold FinalExtract.ask. destruct (input w) as [[h|line] w1] eqn:E;
    intros [= <- <-]; by apply input_unchanged in E.
Qed.

Lemma invoke_or_empty_unchanged (b64_img : Py.str) (w : world St) :
  unchanged w (snd (FinalExtract.invoke_or_empty tools b64_img w)).
Proof.
  unfold FinalExtract.invoke_or_empty.
  by destruct (invoke_claude_image _ _ _ _) as [[?|?|] ?].
Qed.

(** Saving a text is one call of [append_to_output], which ends the
    session when the text cannot be encoded. *)
Lemma save_committed (page : Z) (text : Py.str) (w w' : world St)
    (r : halt + FinalExtract.leave) :
  FinalExtract.save page text w = (r, w') ->
  committed page FinalExtract.Break w w' r.
Proof.
  unfold FinalExtract.save.
  change FinalExtract.append_to_output with (append_block FinalExtract.OUTPUT_PATH).
  destruct (call_append _ _ _ _) as [o w1] eqn:E.
  apply call_append_extended in E as (Hext & _ & _ & _ & ->).
  destruct (whole (page + 1, text)) eqn:Hw; intros [= <- <-];
    exists text; (split; [done|]); by rewrite Hw.
Qed.

Lemma edit_and_confirm_effect (page : Z) (text : Py.str) (w w' : world St)
    (r : halt + option FinalExtract.leave) :
  FinalExtract.edit_and_confirm tools page text w = (r, w') ->
  (unchanged w w' /\ forall l, r <> inr (Some l))
  \/ committed page (Some FinalExtract.Break) w w' r.
Proof.
  unfold FinalExtract.edit_and_confirm.
  pose proof (editor_keeps_output (w_env w) text (w_files w)) as Hkeep.
  destruct (FinalExtract.launch_editor _ text (w_files w)) as [[edited|e|] files1];
    cbn [snd] in Hkeep.
  - assert (Hed : unchanged w (World files1 (w_stdin w)
                                 (after_editor (desk tools) (w_env w)) (w_log w)))
      by (by split).
    cbv zeta.
    destruct (FinalExtract.ask tools _) as [[h|answer] w2] eqn:E;
      apply ask_unchanged in E.
    + intros [= <- <-]. left. split; [|done].
      by apply (unchanged_trans _ _ _ Hed).
    + assert (Hsame : unchanged w w2) by (by apply (unchanged_trans _ _ _ Hed)).
      case_bool_decide.
      * destruct (FinalExtract.save page edited w2) as [r3 w3] eqn:Esave.
        apply save_committed in Esave. intros Hrun. right.
        apply (unchanged_committed _ _ w w2 w'); [done|].
        destruct r3 as [h|l]; injection Hrun as <- <-.
        -- apply (committed_through _ _ _ _ _ _ _ Esave); [done|by intros [= ->]].
        -- apply (committed_through _ _ _ _ _ _ _ Esave); [|done].
           by intros [= ->].
      * intros [= <- <-]. left. by split.
  - intros [= <- <-]. left. split; [by split | done].
  - intros [= <- <-]. left. split; [by split | done].
Qed.

(** What the caller of an edit makes of its result, in both review
    loops. *)
Lemma edit_branch_effect (page : Z) (w w2 : world St)
    (r2 : halt + option FinalExtract.leave) (r : halt + FinalExtract.leave)
    (w' : world St) (again : (halt + FinalExtract.leave) * world St) :
  (unchanged w w2 /\ (forall l, r2 <> inr (Some l))
   \/ committed page (Some FinalExtract.Break) w w2 r2) ->
  (unchanged w w2 -> again = (r, w') ->
   unchanged w w' \/ committed page FinalExtract.Break w w' r) ->
  match r2 with
  | inl h => (inl h, w2)
  | inr (Some l) => (inr l, w2)
  | inr None => again
  end = (r, w') ->
  unchanged w w' \/ committed page FinalExtract.Break w w' r.
Proof.
  intros [[Hsame Hr2]|Hc] Hagain Hrun.
  - destruct r2 as [h|[l|]].
    + injection Hrun as <- <-. by left.
    + by destruct (Hr2 l).
    + by apply Hagain.
  - right. destruct r2 as [h|[l|]].
    + injection Hrun as <- <-.
      apply (committed_through _ _ _ _ _ _ _ Hc); [done|by intros [= ->]].
    + injection Hrun as <- <-.
      apply (committed_through _ _ _ _ _ _ _ Hc); [by intros [= ->]|done].
    + destruct Hc as (text & _ & Hr). by destruct (whole (page + 1, text)).
Qed.

Lemma raw_loop_effect (fuel : nat) (pdf_path : string) (page : Z)
    (m : FinalExtract.margins) (w w' : world St) (r : halt + FinalExtract.leave) :
  FinalExtract.raw_loop fuel tools pdf_path page m w = (r, w') ->
  unchanged w w' \/ committed page FinalExtract.Break w w' r.
Proof.
  revert m w. induction fuel as [|fuel IH]; intros m w; cbn [FinalExtract.raw_loop].
  - intros [= <- <-]. left. apply unchanged_refl.
  - destruct (lift _) as [h|[text clip]].
    { intros [= <- <-]. left. apply unchanged_refl. }
    destruct (FinalExtract.ask tools w) as [[h|choice] w1] eqn:E1;
      apply ask_unchanged in E1.
    { by intros [= <- <-]; left. }
    assert (Hnext : forall m1 w2, unchanged w w2 ->
              FinalExtract.raw_loop fuel tools pdf_path page m1 w2 = (r, w') ->
              unchanged w w' \/ committed page FinalExtract.Break w w' r).
    { intros m1 w2 Hsame Hrun. apply IH in Hrun as [Hu|Hc].
      - left. by apply (unchanged_trans _ w2).
      - right. by apply (unchanged_committed _ _ w w2). }
    repeat case_bool_decide.
    + intros Hrun. apply save_committed in Hrun. right.
      by apply (unchanged_committed _ _ w w1).
    + destruct (input w1) as [[h|new_top] w2] eqn:E2; apply input_unchanged in E2.
      { intros [= <- <-]. left. by apply (unchanged_trans _ w1). }
      destruct (input w2) as [[h|new_bottom] w3] eqn:E3; apply input_unchanged in E3.
      { intros [= <- <-]. left. eauto using unchanged_trans. }
      destruct (input w3) as [[h|new_left] w4] eqn:E4; apply input_unchanged in E4.
      { intros [= <- <-]. left. eauto using unchanged_trans. }
      destruct (input w4) as [[h|new_right] w5] eqn:E5; apply input_unchanged in E5.
      { intros [= <- <-]. left. eauto 6 using unchanged_trans. }
      apply Hnext. eauto 6 using unchanged_trans.
    + destruct (FinalExtract.edit_and_confirm tools page text w1) as [r2 w2] eqn:E2.
      apply edit_and_confirm_effect in E2. intros Hrun.
      assert (Hstep : unchanged w w' \/ committed page FinalExtract.Break w w' r
                      -> unchanged w w' \/ committed page FinalExtract.Break w w' r)
        by done.
      apply (edit_branch_effect page w w2 r2 r w'
               (FinalExtract.raw_loop fuel tools pdf_path page m w2)); [| |done].
      * destruct E2 as [[Hu Hr]|Hc].
        -- left. split; [by apply (unchanged_trans _ w1)|done].
        -- right. by apply (unchanged_committed _ _ w w1).
      * intros Hsame. by apply Hnext.
    + by apply Hnext.
    + by intros [= <- <-]; left.
    + by intros [= <- <-]; left.
    + by apply Hnext.
Qed.

Lemma flowchart_loop_effect (fuel : nat) (page : Z) (b64_img output : Py.str)
    (w w' : world St) (r : halt + FinalExtract.leave) :
  FinalExtract.flowchart_loop fuel tools page b64_img output w = (r, w') ->
  unchanged w w' \/ committed page FinalExtract.Break w w' r.
Proof.
  revert output w. induction fuel as [|fuel IH]; intros output w;
    cbn [FinalExtract.flowchart_loop].
  - intros [= <- <-]. left. apply unchanged_refl.
  - destruct (FinalExtract.ask tools w) as [[h|post] w1] eqn:E1;
      apply ask_unchanged in E1.
    { by intros [= <- <-]; left. }
    assert (Hnext : forall output1 w2, unchanged w w2 ->
              FinalExtract.flowchart_loop fuel tools page b64_img output1 w2 = (r, w') ->
              unchanged w w' \/ committed page FinalExtract.Break w w' r).
    { intros output1 w2 Hsame Hrun. apply IH in Hrun as [Hu|Hc].
      - left. by apply (unchanged_trans _ w2).
      - right. by apply (unchanged_committed _ _ w w2). }
    repeat case_bool_decide.
    + intros Hrun. apply save_committed in Hrun. right.
      by apply (unchanged_committed _ _ w w1).
    + destruct (FinalExtract.edit_and_confirm tools page output w1) as [r2 w2] eqn:E2.
      apply edit_and_confirm_effect in E2. intros Hrun.
      apply (edit_branch_effect page w w2 r2 r w'
               (FinalExtract.flowchart_loop fuel tools page b64_img output w2));
        [| |done].
      * destruct E2 as [[Hu Hr]|Hc].
        -- left. split; [by apply (unchanged_trans _ w1)|done].
        -- right. by apply (unchanged_committed _ _ w w1).
      * intros Hsame. by apply Hnext.
    + pose proof (invoke_or_empty_unchanged b64_img w1) as Hi.
      destruct (FinalExtract.invoke_or_empty tools b64_img w1) as [output' w2].
      cbn [snd] in Hi. apply Hnext. by apply (unchanged_trans _ w1).
    + by intros [= <- <-]; left.
    + by intros [= <- <-]; left.
    + by apply Hnext.
Qed.

Lemma flowchart_mode_effect (fuel : nat) (pdf_path : string) (page : Z)
    (w w' : world St) (r : halt + FinalExtract.leave) :
  FinalExtract.flowchart_mode fuel tools pdf_path page w = (r, w') ->
  unchanged w w' \/ committed page FinalExtract.Break w w' r.
Proof.
  unfold FinalExtract.flowchart_mode. destruct (lift _) as [h|b64_img].
  { intros [= <- <-]. left. apply unchanged_refl. }
  pose proof (invoke_or_empty_unchanged b64_img w) as Hi.
  destruct (FinalExtract.invoke_or_empty tools b64_img w) as [output w1].
  cbn [snd] in Hi. intros Hrun. apply flowchart_loop_effect in Hrun as [Hu|Hc].
  - left. by apply (unchanged_trans _ w1).
  - right. by apply (unchanged_committed _ _ w w1).
Qed.

Lemma torn_only_last_nil {A} (r : halt + A) : torn_only_last [] r.
Proof. left. constructor. Qed.

Lemma torn_only_last_cons {A} (b : Z * Py.str) (entries : list (Z * Py.str))
    (r : halt + A) :
  whole b = true -> torn_only_last entries r -> torn_only_last (b :: entries) r.
Proof.
  intros Hb [Hall|(pre & b' & -> & Hpre & Hb' & Hr)].
  - left. by constructor.
  - right. exists (b :: pre), b'. repeat split; try done. by constructor.
Qed.

Lemma main_loop_commits (fuel : nat) (pdf_path : string) (total_pages page : Z)
    (w w' : world St) (r : halt + unit) :
  FinalExtract.main_loop fuel tools pdf_path total_pages page w = (r, w') ->
  exists entries : list (Z * Py.str),
    extended FinalExtract.OUTPUT_PATH entries w w'
    /\ sublist (map fst entries) (seqZ (page + 1) (total_pages - page))
    /\ torn_only_last entries r.
Proof.
  assert (Hnone : forall (w0 w1 : world St) (r1 : halt + unit) (p : Z),
            unchanged w0 w1 ->
            exists entries : list (Z * Py.str),
              extended FinalExtract.OUTPUT_PATH entries w0 w1
              /\ sublist (map fst entries) (seqZ (p + 1) (total_pages - p))
              /\ torn_only_last entries r1).
  { intros w0 w1 r1 p Hsame. exists [].
    split; [|split; [apply sublist_nil_l | apply torn_only_last_nil]].
    apply (unchanged_extended [] w0 w1 w1 Hsame), extended_refl. }
  revert page w w' r. induction fuel as [|fuel IH]; intros page w w' r;
    cbn [FinalExtract.main_loop]; destruct (Z.ltb_spec page total_pages);
    try (intros [= <- <-]; apply Hnone, unchanged_refl).
  assert (Hseq : seqZ (page + 1) (total_pages - page)
                 = (page + 1) :: seqZ (page + 1 + 1) (total_pages - (page + 1))).
  { rewrite seqZ_cons by lia. do 2 f_equal; lia. }
  assert (Hnext : forall w1 w2 r2, unchanged w w1 ->
            FinalExtract.main_loop fuel tools pdf_path total_pages (page + 1) w1 = (r2, w2) ->
            exists entries,
              extended FinalExtract.OUTPUT_PATH entries w w2
              /\ sublist (map fst entries) (seqZ (page + 1) (total_pages - page))
              /\ torn_only_last entries r2).
  { intros w1 w2 r2 Hsame H1. apply IH in H1 as (entries & Hext & Hsub & Htorn).
    exists entries. split; [by apply (unchanged_extended _ w w1)|].
    split; [|done]. rewrite Hseq. by constructor. }
  assert (Hmode : forall w1 w2 (r2 : halt + FinalExtract.leave),
            unchanged w w1 ->
            (unchanged w1 w2 \/ committed page FinalExtract.Break w1 w2 r2) ->
            match r2 with
            | inl h => (inl h, w2)
            | inr FinalExtract.Return => (inr tt, w2)
            | inr FinalExtract.Break =>
                FinalExtract.main_loop fuel tools pdf_path total_pages (page + 1) w2
            end = (r, w') ->
            exists entries,
              extended FinalExtract.OUTPUT_PATH entries w w'
              /\ sublist (map fst entries) (seqZ (page + 1) (total_pages - page))
              /\ torn_only_last entries r).
  { intros w1 w2 r2 Hsame1 [Hsame2|(text & Hext & Hr)] Hrun.
    - assert (Hsame : unchanged w w2) by (by apply (unchanged_trans _ w1)).
      destruct r2 as [h|[]].
      + injection Hrun as <- <-. by apply Hnone.
      + by apply (Hnext w2 w' r).
      + injection Hrun as <- <-. by apply Hnone.
    - apply (unchanged_extended _ w w1 w2 Hsame1) in Hext.
      destruct (whole (page + 1, text)) eqn:Hw; subst r2.
      + apply IH in Hrun as (entries & Hrest & Hsub & Htorn).
        exists ((page + 1, text) :: entries). split; [|split].
        * by apply (extended_trans _ [(page + 1, text)] entries w w2 w').
        * rewrite Hseq. cbn [map fst]. by constructor.
        * by apply torn_only_last_cons.
      + injection Hrun as <- <-. exists [(page + 1, text)]. split; [done|split].
        * rewrite Hseq. cbn [map fst]. constructor. apply sublist_nil_l.
        * right. exists [], (page + 1, text). by repeat split. }
  destruct (FinalExtract.ask tools w) as [[h|action] w1] eqn:E1;
    apply ask_unchanged in E1.
  { intros [= <- <-]. by apply Hnone. }
  repeat case_bool_decide.
  - intros [= <- <-]. by apply Hnone.
  - by apply Hnext.
  - destruct (FinalExtract.raw_loop fuel tools pdf_path page _ w1) as [r2 w2] eqn:E2.
    apply raw_loop_effect in E2. intros Hrun. apply (Hmode w1 w2 r2 E1 E2).
    by destruct r2 as [h|[]].
  - destruct (FinalExtract.flowchart_mode fuel tools pdf_path page w1) as [r2 w2] eqn:E2.
    apply flowchart_mode_effect in E2. intros Hrun. apply (Hmode w1 w2 r2 E1 E2).
    by destruct r2 as [h|[]].
  - intros Hrun. apply IH in Hrun as (entries & Hext & Hsub & Htorn).
    exists entries. split; [by apply (unchanged_extended _ w w1)|done].
Qed.

End SessionFacts.

Lemma sample_sessions_keep_output (st : nat) :
  sessions_keep (os_of (desk sample_tools) st) FinalExtract.OUTPUT_PATH.
Proof.
  intros text files. unfold FinalExtract.launch_editor.
  change (os_of (desk sample_tools) st) with (sample_os true).
  change (temp_name (sample_os true) files ".txt") with "/tmp/tmpk3x9.txt"%string.
  cbn [call sample_os environ]. unfold read_text.
  rewrite lookup_insert_eq.
  change (Py.universal_newlines <$> Py.decode (Py.encode (Py.lit "edited")))
    with (Some (Py.lit "edited")).
  cbn [or_raise snd]. unfold unlink. rewrite lookup_insert_eq.
  cbn [default from_option id].
  assert (Hne : ("/tmp/tmpk3x9.txt" : string) <> FinalExtract.OUTPUT_PATH)
    by (apply (bool_decide_unpack _); by vm_compute).
  rewrite lookup_delete_ne by done. rewrite lookup_insert_ne by done.
  unfold write_binary. by rewrite lookup_insert_ne.
Qed.

(** X12. Whatever the operator types, and however long the session runs,
    [interactive_run] calls [append_to_output] at most once per page, for
    pages in increasing order from [max(1, start_page)] up to the last,
    and these calls are all that changes its output file (editor sessions
    leaving that file alone): the file holds what it held, then what the
    calls wrote, in their order. Each call wrote its whole block, but for
    a content that cannot be encoded: that call is the last, the session
    ends with its [UnicodeEncodeError], and of its block the start line
    only is written. What is printed is not part of the model. *)
Theorem interactive_run_commits_in_page_order :
  forall (Image St : Type) (tools : Tools Image St) (pdf_path : string)
         (start_page total_pages : Z) (fuel : nat) (w w' : world St)
         (r : halt + unit),
    (forall st : St, sessions_keep (os_of (desk tools) st) FinalExtract.OUTPUT_PATH) ->
    page_count (reader tools) pdf_path = Returns total_pages ->
    FinalExtract.interactive_run fuel tools pdf_path start_page w = (r, w') ->
    exists entries : list (Z * Py.str),
      w_log w' = w_log w ++ entries
      /\ w_files w' !! FinalExtract.OUTPUT_PATH
         = written (w_files w !! FinalExtract.OUTPUT_PATH) entries
      /\ sublist (map fst entries)
           (seqZ (Z.max 1 start_page) (total_pages - Z.max 1 start_page + 1))
      /\ torn_only_last entries r.
Proof.
  intros Image St tools pdf_path start_page total_pages fuel w w' r Hkeep Hcount.
  unfold FinalExtract.interactive_run. rewrite Hcount. cbn [lift].
  intros Hrun.
  apply main_loop_commits in Hrun as (entries & [Hlog Hfile] & Hsub & Htorn); [|done].
  exists entries. split; [done | split; [done | split; [|done]]].
  replace (Z.max 1 start_page - 1 + 1) with (Z.max 1 start_page) in Hsub by lia.
  replace (total_pages - (Z.max 1 start_page - 1))
    with (total_pages - Z.max 1 start_page + 1) in Hsub by lia.
  done.
Qed.

Lemma interactive_run_commits_in_page_order_witness :
  exists entries : list (Z * Py.str),
    w_log (snd (FinalExtract.interactive_run 20 sample_tools "all.pdf" 1 sample_session))
    = w_log sample_session ++ entries
    /\ w_files (snd (FinalExtract.interactive_run 20 sample_tools "all.pdf" 1
                       sample_session))
         !! FinalExtract.OUTPUT_PATH
       = written (w_files sample_session !! FinalExtract.OUTPUT_PATH) entries
    /\ sublist (map fst entries) (seqZ (Z.max 1 1) (2 - Z.max 1 1 + 1))
    /\ torn_only_last entries
         (fst (FinalExtract.interactive_run 20 sample_tools "all.pdf" 1 sample_session)).
Proof.
  apply (interactive_run_commits_in_page_order shot nat sample_tools "all.pdf" 1 2 20
           sample_session
           (snd (FinalExtract.interactive_run 20 sample_tools "all.pdf" 1 sample_session))
           (fst (FinalExtract.interactive_run 20 sample_tools "all.pdf" 1 sample_session)));
    [apply sample_sessions_keep_output | reflexivity | apply surjective_pairing].
Defined.

(** X13. In raw mode the choice [q], announced as leaving raw mode, ends
    [interactive_run] as a whole: no further line is read, no file is
    changed and [append_to_output] is not called. *)
Theorem raw_mode_quit_ends_the_session :
  forall (Image St : Type) (tools : Tools Image St) (pdf_path : string)
         (start_page total_pages : Z) (fuel : nat) (w : world St)
         (line_r line_q : Py.str) (rest : list Py.str)
         (text : Py.str) (clip_rect : Rect),
    page_count (reader tools) pdf_path = Returns total_pages ->
    Z.max 1 start_page <= total_pages ->
    w_stdin w = line_r :: line_q :: rest ->
    lower (builtins tools) (Py.strip line_r) = Py.lit "r" ->
    lower (builtins tools) (Py.strip line_q) = Py.lit "q" ->
    FinalExtract.extract_text_with_margins (fitz tools) pdf_path
      (Z.max 1 start_page - 1) 0 80 0 30 = Returns (text, clip_rect) ->
    FinalExtract.interactive_run (S (S fuel)) tools pdf_path start_page w
    = (inr tt, World (w_files w) rest (w_env w) (w_log w)).
Proof.
  intros Image St tools pdf_path start_page total_pages fuel w line_r line_q rest
    text clip_rect Hcount Hpage Hin Hr Hq Hextract.
  unfold FinalExtract.interactive_run. rewrite Hcount. cbn [lift].
  cbn [FinalExtract.main_loop].
  destruct (Z.ltb_spec (Z.max 1 start_page - 1) total_pages); [|lia].
  unfold FinalExtract.ask at 1, input. rewrite Hin, Hr.
  do 2 (case_bool_decide; [done|]). case_bool_decide; [|done].
  cbn [FinalExtract.raw_loop FinalExtract.margin_left FinalExtract.margin_top
         FinalExtract.margin_right FinalExtract.margin_bottom].
  rewrite Hextract. cbn [lift]. unfold FinalExtract.ask, input.
  cbn [w_stdin w_files w_env w_log]. rewrite Hq.
  do 5 (case_bool_decide; [done|]). by case_bool_decide.
Qed.

Lemma raw_mode_quit_ends_the_session_witness :
  FinalExtract.interactive_run 2 sample_tools "all.pdf" 1
    (World ∅ [Py.lit "r"; Py.lit "Q"; Py.lit "s"; Py.lit "s"] 0%nat [])
  = (inr tt, World ∅ [Py.lit "s"; Py.lit "s"] 0%nat []).
Proof.
  apply (raw_mode_quit_ends_the_session shot nat sample_tools "all.pdf" 1 2 0
           (World ∅ [Py.lit "r"; Py.lit "Q"; Py.lit "s"; Py.lit "s"] 0%nat [])
           (Py.lit "r") (Py.lit "Q") [Py.lit "s"; Py.lit "s"]
           (Py.lit "Stage IA disease")
           {| x0 := 0; y0 := 80; x1 := 612; y1 := 762 |});
    (reflexivity || lia).
Defined.

(** X14. In the (m)odify branch of raw mode all four lines are read
    first; when the entry for the top margin is a number and the one for
    the bottom margin is not, the top margin is changed all the same, the
    other three margins stay, and the page is extracted again. *)
Theorem invalid_margin_keeps_earlier_entries :
  forall (Image St : Type) (tools : Tools Image St) (pdf_path : string)
         (page : Z) (m : FinalExtract.margins) (fuel : nat) (w : world St)
         (line new_top new_bottom new_left new_right : Py.str) (rest : list Py.str)
         (text : Py.str) (clip_rect : Rect) (t : Z),
    FinalExtract.extract_text_with_margins (fitz tools) pdf_path page
      (FinalExtract.margin_left m) (FinalExtract.margin_top m)
      (FinalExtract.margin_right m) (FinalExtract.margin_bottom m)
    = Returns (text, clip_rect) ->
    w_stdin w = line :: new_top :: new_bottom :: new_left :: new_right :: rest ->
    lower (builtins tools) (Py.strip line) = Py.lit "m" ->
    Py.strip new_top <> [] ->
    int_of_str (builtins tools) (Py.strip new_top) = Some t ->
    Py.strip new_bottom <> [] ->
    int_of_str (builtins tools) (Py.strip new_bottom) = None ->
    FinalExtract.raw_loop (S fuel) tools pdf_path page m w
    = FinalExtract.raw_loop fuel tools pdf_path page
        {| FinalExtract.margin_left := FinalExtract.margin_left m;
           FinalExtract.margin_top := t;
           FinalExtract.margin_right := FinalExtract.margin_right m;
           FinalExtract.margin_bottom := FinalExtract.margin_bottom m |}
        (World (w_files w) rest (w_env w) (w_log w)).
Proof.
  intros Image St tools pdf_path page m fuel w line new_top new_bottom new_left
    new_right rest text clip_rect t Hextract Hin Hm Htop Ht Hbottom Hb.
  cbn [FinalExtract.raw_loop]. rewrite Hextract. cbn [lift].
  unfold FinalExtract.ask, input. rewrite Hin, Hm.
  case_bool_decide; [done|]. case_bool_decide; [|done].
  cbn [w_stdin w_files w_env w_log]. f_equal.
  unfold FinalExtract.modify_margins.
  destruct (Py.strip new_top) as [|c1 s1] eqn:E1; [done|]. rewrite Ht.
  destruct (Py.strip new_bottom) as [|c2 s2] eqn:E2; [done|]. by rewrite Hb.
Qed.

Lemma invalid_margin_keeps_earlier_entries_witness :
  FinalExtract.raw_loop 3 sample_tools "all.pdf" 0
    {| FinalExtract.margin_left := 0; FinalExtract.margin_top := 80;
       FinalExtract.margin_right := 0; FinalExtract.margin_bottom := 30 |}
    (World ∅ [Py.lit "m"; Py.lit " 50"; Py.lit "x"; Py.lit "3"; Py.lit "4"; Py.lit "q"]
           0%nat [])
  = FinalExtract.raw_loop 2 sample_tools "all.pdf" 0
      {| FinalExtract.margin_left := 0; FinalExtract.margin_top := 50;
         FinalExtract.margin_right := 0; FinalExtract.margin_bottom := 30 |}
      (World ∅ [Py.lit "q"] 0%nat []).
Proof.
  apply (invalid_margin_keeps_earlier_entries shot nat sample_tools "all.pdf" 0
           {| FinalExtract.margin_left := 0; FinalExtract.margin_top := 80;
              FinalExtract.margin_right := 0; FinalExtract.margin_bottom := 30 |}
           2 (World ∅ [Py.lit "m"; Py.lit " 50"; Py.lit "x"; Py.lit "3"; Py.lit "4";
                       Py.lit "q"] 0%nat [])
           (Py.lit "m") (Py.lit " 50") (Py.lit "x") (Py.lit "3") (Py.lit "4")
           [Py.lit "q"] (Py.lit "Stage IA disease")
           {| x0 := 0; y0 := 80; x1 := 612; y1 := 762 |} 50);
    (reflexivity || by vm_compute).
Defined.

(** X15. When the call of the vision model raises in flowchart mode, the
    output is the empty string, and accepting it is one call
    [append_to_output(page + 1, "")], which returns and commits a block
    without content for the page. *)
Theorem failed_model_call_accepted_commits_empty_block :
  forall (Image St : Type) (tools : Tools Image St) (pdf_path : string)
         (page : Z) (fuel : nat) (w : world St) (b64_img line : Py.str)
         (rest : list Py.str) (e : exn) (env1 : St),
    (found ← FinalExtract.extract_text_with_margins (fitz tools) pdf_path page 0 60 0 30;
     clipped_img ← FinalExtract.render_clipped_image (imaging tools) (fitz tools)
                      pdf_path page (snd found);
     encode_image_to_base64 (vision tools) clipped_img) = Returns b64_img ->
    invoke_claude_image (vision tools) (w_env w) FinalExtract.prompt_text b64_img
    = (Raises e, env1) ->
    w_stdin w = line :: rest ->
    lower (builtins tools) (Py.strip line) = Py.lit "a" ->
    FinalExtract.flowchart_mode (S fuel) tools pdf_path page w
    = (inr FinalExtract.Break,
       World (snd (FinalExtract.append_to_output (page + 1) [] (w_files w))) rest env1
             (w_log w ++ [(page + 1, [])]))
    /\ fst (FinalExtract.append_to_output (page + 1) [] (w_files w)) = Returns tt
    /\ snd (FinalExtract.append_to_output (page + 1) [] (w_files w))
         !! FinalExtract.OUTPUT_PATH
       = Some (default [] (w_files w !! FinalExtract.OUTPUT_PATH)
               ++ Py.encode ([NL; NL] ++ Py.lit "=== PAGE " ++ Py.str_of_int (page + 1)
                             ++ Py.lit " ===" ++ [NL; NL]
                             ++ Py.lit "=== END PAGE ===" ++ [NL])).
Proof.
  intros Image St tools pdf_path page fuel w b64_img line rest e env1
    Hpre Hcall Hin Ha.
  assert (Hsave : FinalExtract.append_to_output (page + 1) [] (w_files w)
                  = (Returns tt,
                     <[FinalExtract.OUTPUT_PATH :=
                         default [] (w_files w !! FinalExtract.OUTPUT_PATH)
                         ++ Py.encode (page_block (page + 1) [])]> (w_files w)))
    by (by apply append_block_whole).
  split; [|split].
  - unfold FinalExtract.flowchart_mode. rewrite Hpre. cbn [lift].
    unfold FinalExtract.invoke_or_empty. rewrite Hcall.
    cbn [FinalExtract.flowchart_loop]. unfold FinalExtract.ask, input.
    cbn [w_stdin w_files w_env w_log]. rewrite Hin, Ha.
    case_bool_decide; [|done].
    unfold FinalExtract.save, call_append. cbn [w_stdin w_files w_env w_log].
    by rewrite Hsave.
  - by rewrite Hsave.
  - rewrite Hsave. cbn [snd]. rewrite lookup_insert_eq.
    do 2 f_equal. unfold page_block. change (Py.strip []) with (@nil Py.char).
    by rewrite <- !app_assoc.
Qed.

Lemma failed_model_call_accepted_commits_empty_block_witness :
  FinalExtract.flowchart_mode 1 sample_tools "all.pdf" 0
    (World ∅ [Py.lit "A"] 1%nat [])
  = (inr FinalExtract.Break,
     World (snd (FinalExtract.append_to_output (0 + 1) [] ∅)) [] 2%nat
           ([] ++ [(0 + 1, [])])).
Proof.
  apply (failed_model_call_accepted_commits_empty_block shot nat sample_tools
           "all.pdf" 0 0 (World ∅ [Py.lit "A"] 1%nat []) (Py.lit "aW1hZ2U=")
           (Py.lit "A") [] CollaboratorError 2%nat); reflexivity.
Defined.

(** X16. Skipping every page from the start page to the last ends the
    session after as many lines, with all files as they were and no call
    of [append_to_output]. *)
Theorem skipping_every_page_changes_nothing :
  forall (Image St : Type) (tools : Tools Image St) (pdf_path : string)
         (start_page total_pages : Z) (fuel : nat) (files : fs) (env : St)
         (log : list (Z * Py.str)) (lines rest : list Py.str),
    page_count (reader tools) pdf_path = Returns total_pages ->
    Forall (fun line => lower (builtins tools) (Py.strip line) = Py.lit "s") lines ->
    Z.max 1 start_page - 1 + Z.of_nat (length lines) = total_pages ->
    (length lines <= fuel)%nat ->
    FinalExtract.interactive_run fuel tools pdf_path start_page
      (World files (lines ++ rest) env log)
    = (inr tt, World files rest env log).
Proof.
  intros Image St tools pdf_path start_page total_pages fuel files env log lines rest
    Hcount Hlines Hlast Hfuel.
  unfold FinalExtract.interactive_run. rewrite Hcount. cbn [lift].
  revert Hlast Hfuel. generalize (Z.max 1 start_page - 1). revert fuel.
  induction Hlines as [|line lines Hline _ IH]; intros fuel page Hlast Hfuel.
  - simpl in Hlast. destruct fuel; cbn [FinalExtract.main_loop];
      destruct (Z.ltb_spec page total_pages); (lia || done).
  - destruct fuel as [|fuel]; [simpl in Hfuel; lia|].
    cbn [FinalExtract.main_loop].
    destruct (Z.ltb_spec page total_pages); [|simpl in Hlast; lia].
    unfold FinalExtract.ask, input. cbn [w_stdin w_files w_env w_log app].
    rewrite Hline.
    case_bool_decide; [done|]. case_bool_decide; [|done].
    apply IH; simpl in *; lia.
Qed.

Lemma skipping_every_page_changes_nothing_witness :
  FinalExtract.interactive_run 2 sample_tools "all.pdf" 0
    (World sample_files ([Py.lit "s"; Py.lit " S"] ++ [Py.lit "r"]) 0%nat [])
  = (inr tt, World sample_files [Py.lit "r"] 0%nat []).
Proof.
  apply (skipping_every_page_changes_nothing shot nat sample_tools "all.pdf" 0 2 2
           sample_files 0%nat [] [Py.lit "s"; Py.lit " S"] [Py.lit "r"]);
    [reflexivity | by repeat constructor | reflexivity | simpl; lia].
Defined.

Section HaltFacts.

Context {Image St : Type}.
Variable tools : Tools Image St.
Variable pdf_path : string.

Hypothesis settle : tools_settle tools pdf_path.

Lemma settled_bind {A B} (m : outcome A) (k : A -> outcome B) :
  settled m -> (forall a, settled (k a)) -> settled (m ≫= k).
Proof. unfold settled. destruct m; simpl; [by intros _ H|done..]. Qed.

Lemma settled_or_raise {A} (e : exn) (o : option A) : settled (or_raise e o).
Proof. by destruct o. Qed.

Lemma settled_to_float (z : Z) : settled (to_float z).
Proof. apply settled_or_raise. Qed.

Lemma settled_to_int (x : float) : settled (to_int x).
Proof. unfold to_int. by destruct (Py.int_of_float x). Qed.

Ltac settle_step :=
  first [ done | apply settled_or_raise | apply settled_to_float
        | apply settled_to_int | by unfold settled
        | apply settled_bind; [|intros ?] ].

Lemma settled_lift {A} (o : outcome A) (h : halt) :
  settled o -> lift o = inl h -> h <> OutOfFuel.
Proof. destruct o; simpl; [done| |done]. by intros _ [= <-]. Qed.

Lemma extract_text_with_margins_settles (page left top right bottom : Z) :
  settled (FinalExtract.extract_text_with_margins (fitz tools) pdf_path page
             left top right bottom).
Proof.
  destruct settle as (_ & Hopen & _).
  unfold FinalExtract.extract_text_with_margins, clipped.
  repeat settle_step.
Qed.

Lemma render_clipped_image_settles (page : Z) (clip_rect : Rect) :
  settled (FinalExtract.render_clipped_image (imaging tools) (fitz tools)
             pdf_path page clip_rect).
Proof.
  destruct settle as (_ & Hopen & Hconvert & Hcrop & _).
  unfold FinalExtract.render_clipped_image, scale_of, crop_box.
  repeat settle_step.
Qed.

Lemma launch_editor_settles (os : OS) (text : Py.str) (files : fs) :
  settled (fst (FinalExtract.launch_editor os text files)).
Proof.
  unfold FinalExtract.launch_editor.
  destruct (call os _ _) as [[status files2]|]; [|done].
  unfold read_text. destruct (files2 !! _) as [b|]; [|done].
  by destruct (Py.decode b).
Qed.

Lemma ask_reads (w w' : world St) (r : halt + Py.str) :
  FinalExtract.ask tools w = (r, w') ->
  (r = inl EndOfInput /\ w' = w)
  \/ (exists answer, r = inr answer
                     /\ S (length (w_stdin w')) = length (w_stdin w)).
Proof.
  unfold FinalExtract.ask, input. destruct (w_stdin w) as [|line rest] eqn:E.
  - intros [= <- <-]. by left.
  - intros [= <- <-]. right. eexists. split; [done|]. done.
Qed.

Lemma input_reads (w w' : world St) (r : halt + Py.str) :
  input w = (r, w') ->
  (r = inl EndOfInput /\ w' = w)
  \/ (exists line, r = inr line
                   /\ S (length (w_stdin w')) = length (w_stdin w)).
Proof.
  unfold input. destruct (w_stdin w) as [|line rest] eqn:E.
  - intros [= <- <-]. by left.
  - intros [= <- <-]. right. eexists. split; [done|]. done.
Qed.

Lemma save_ends (page : Z) (text : Py.str) (w w' : world St)
    (r : halt + FinalExtract.leave) :
  FinalExtract.save page text w = (r, w') ->
  r <> inl OutOfFuel /\ length (w_stdin w') = length (w_stdin w).
Proof.
  unfold FinalExtract.save.
  change FinalExtract.append_to_output with (append_block FinalExtract.OUTPUT_PATH).
  destruct (call_append _ _ _ _) as [o w1] eqn:E.
  apply call_append_extended in E as (_ & _ & Hin & _ & ->).
  apply (f_equal length) in Hin.
  by destruct (whole (page + 1, text)); intros [= <- <-].
Qed.

Lemma edit_and_confirm_ends (page : Z) (text : Py.str) (w w' : world St)
    (r : halt + option FinalExtract.leave) :
  FinalExtract.edit_and_confirm tools page text w = (r, w') -> ends w r w'.
Proof.
  unfold FinalExtract.edit_and_confirm, ends.
  pose proof (launch_editor_settles (os_of (desk tools) (w_env w)) text (w_files w))
    as Hed.
  destruct (FinalExtract.launch_editor _ _ _) as [[edited|e|] files1];
    [|by intros [= <- <-]|done].
  destruct (FinalExtract.ask tools _) as [r1 w1] eqn:Eask.
  apply ask_reads in Eask as [[-> ->]|(answer & -> & Hlen)].
  - by intros [= <- <-].
  - cbn [w_stdin] in Hlen. case_bool_decide.
    + destruct (FinalExtract.save page edited w1) as [r3 w3] eqn:Esave.
      apply save_ends in Esave as [Hr3 Hin3].
      destruct r3 as [h|l]; intros [= <- <-]; (split; [congruence|lia]).
    + intros [= <- <-]. split; [congruence|lia].
Qed.

Lemma raw_loop_ends (fuel : nat) (page : Z) (m : FinalExtract.margins)
    (w w' : world St) (r : halt + FinalExtract.leave) :
  (length (w_stdin w) < fuel)%nat ->
  FinalExtract.raw_loop fuel tools pdf_path page m w = (r, w') -> ends w r w'.
Proof.
  unfold ends. revert m w.
  induction fuel as [|fuel IH]; intros m w Hfuel; [lia|].
  cbn [FinalExtract.raw_loop].
  destruct (lift _) as [h|[text clip_rect]] eqn:Elift.
  { apply settled_lift in Elift; [|apply extract_text_with_margins_settles].
    intros [= <- <-]. split; [congruence|done]. }
  destruct (FinalExtract.ask tools w) as [r1 w1] eqn:Eask.
  apply ask_reads in Eask as [[-> ->]|(choice & -> & Hlen)];
    [by intros [= <- <-]|].
  case_bool_decide.
  { intros Hrun. apply save_ends in Hrun as [Hr Hin]. split; [congruence|lia]. }
  case_bool_decide.
  { destruct (input w1) as [r2 w2] eqn:E2.
    apply input_reads in E2 as [[-> ->]|(new_top & -> & Hlen2)];
      [intros [= <- <-]; split; [congruence|lia]|].
    destruct (input w2) as [r3 w3] eqn:E3.
    apply input_reads in E3 as [[-> ->]|(new_bottom & -> & Hlen3)];
      [intros [= <- <-]; split; [congruence|lia]|].
    destruct (input w3) as [r4 w4] eqn:E4.
    apply input_reads in E4 as [[-> ->]|(new_left & -> & Hlen4)];
      [intros [= <- <-]; split; [congruence|lia]|].
    destruct (input w4) as [r5 w5] eqn:E5.
    apply input_reads in E5 as [[-> ->]|(new_right & -> & Hlen5)];
      [intros [= <- <-]; split; [congruence|lia]|].
    intros Hrun. apply IH in Hrun as [Hr Hlen']; [|lia]. split; [congruence|lia]. }
  case_bool_decide.
  { destruct (FinalExtract.edit_and_confirm tools page text w1)
      as [[h|[l|]] w2] eqn:Eedit; apply edit_and_confirm_ends in Eedit as [He Hlen2].
    - intros [= <- <-]. split; [congruence|lia].
    - intros [= <- <-]. split; [congruence|lia].
    - intros Hrun. apply IH in Hrun as [Hr Hlen']; [|lia]. split; [congruence|lia]. }
  case_bool_decide.
  { intros Hrun. apply IH in Hrun as [Hr Hlen']; [|lia]. split; [congruence|lia]. }
  case_bool_decide.
  { intros [= <- <-]. split; [congruence|lia]. }
  case_bool_decide.
  { intros [= <- <-]. split; [congruence|lia]. }
  intros Hrun. apply IH in Hrun as [Hr Hlen']; [|lia]. split; [congruence|lia].
Qed.

Lemma invoke_or_empty_reads (b64_img output : Py.str) (w w' : world St) :
  FinalExtract.invoke_or_empty tools b64_img w = (output, w') ->
  w_stdin w' = w_stdin w.
Proof.
  unfold FinalExtract.invoke_or_empty.
  destruct (invoke_claude_image _ _ _ _) as [[out|e|] env1]; by intros [= <- <-].
Qed.

Lemma flowchart_loop_ends (fuel : nat) (page : Z) (b64_img output : Py.str)
    (w w' : world St) (r : halt + FinalExtract.leave) :
  (length (w_stdin w) < fuel)%nat ->
  FinalExtract.flowchart_loop fuel tools page b64_img output w = (r, w') ->
  ends w r w'.
Proof.
  unfold ends. revert output w.
  induction fuel as [|fuel IH]; intros output w Hfuel; [lia|].
  cbn [FinalExtract.flowchart_loop].
  destruct (FinalExtract.ask tools w) as [r1 w1] eqn:Eask.
  apply ask_reads in Eask as [[-> ->]|(post & -> & Hlen)];
    [by intros [= <- <-]|].
  case_bool_decide.
  { intros Hrun. apply save_ends in Hrun as [Hr Hin]. split; [congruence|lia]. }
  case_bool_decide.
  { destruct (FinalExtract.edit_and_confirm tools page output w1)
      as [[h|[l|]] w2] eqn:Eedit; apply edit_and_confirm_ends in Eedit as [He Hlen2].
    - intros [= <- <-]. split; [congruence|lia].
    - intros [= <- <-]. split; [congruence|lia].
    - intros Hrun. apply IH in Hrun as [Hr Hlen']; [|lia]. split; [congruence|lia]. }
  case_bool_decide.
  { destruct (FinalExtract.invoke_or_empty tools b64_img w1) as [output' w2] eqn:Einv.
    apply invoke_or_empty_reads, (f_equal length) in Einv.
    intros Hrun. apply IH in Hrun as [Hr Hlen']; [|lia]. split; [congruence|lia]. }
  case_bool_decide.
  { intros [= <- <-]. split; [congruence|lia]. }
  case_bool_decide.
  { intros [= <- <-]. split; [congruence|lia]. }
  intros Hrun. apply IH in Hrun as [Hr Hlen']; [|lia]. split; [congruence|lia].
Qed.

Lemma flowchart_mode_ends (fuel : nat) (page : Z) (w w' : world St)
    (r : halt + FinalExtract.leave) :
  (length (w_stdin w) < fuel)%nat ->
  FinalExtract.flowchart_mode fuel tools pdf_path page w = (r, w') -> ends w r w'.
Proof.
  intros Hfuel. unfold FinalExtract.flowchart_mode.
  destruct (lift _) as [h|b64_img] eqn:Elift.
  { apply settled_lift in Elift.
    - intros [= <- <-]. split; [congruence|done].
    - destruct settle as (_ & _ & _ & _ & Hencode).
      apply settled_bind; [apply extract_text_with_margins_settles|intros ?].
      apply settled_bind; [apply render_clipped_image_settles|intros ?].
      apply Hencode. }
  destruct (FinalExtract.invoke_or_empty tools b64_img w) as [output w1] eqn:Einv.
  apply invoke_or_empty_reads, (f_equal length) in Einv.
  intros Hrun. apply flowchart_loop_ends in Hrun as [Hr Hlen]; [|lia].
  split; [congruence|lia].
Qed.

Lemma main_loop_ends (fuel : nat) (total_pages page : Z) (w w' : world St)
    (r : halt + unit) :
  (length (w_stdin w) < fuel)%nat ->
  FinalExtract.main_loop fuel tools pdf_path total_pages page w = (r, w') ->
  ends w r w'.
Proof.
  unfold ends. revert page w.
  induction fuel as [|fuel IH]; intros page w Hfuel; [lia|].
  cbn [FinalExtract.main_loop].
  destruct (page <? total_pages); [|by intros [= <- <-]].
  destruct (FinalExtract.ask tools w) as [r1 w1] eqn:Eask.
  apply ask_reads in Eask as [[-> ->]|(action & -> & Hlen)];
    [by intros [= <- <-]|].
  case_bool_decide.
  { intros [= <- <-]. split; [congruence|lia]. }
  case_bool_decide.
  { intros Hrun. apply IH in Hrun as [Hr Hlen']; [|lia]. split; [congruence|lia]. }
  case_bool_decide.
  { destruct (FinalExtract.raw_loop _ _ _ _ _ _) as [[h|[|]] w2] eqn:Eraw;
      apply raw_loop_ends in Eraw as [He Hlen2]; try lia.
    - intros [= <- <-]. split; [congruence|lia].
    - intros Hrun. apply IH in Hrun as [Hr Hlen']; [|lia]. split; [congruence|lia].
    - intros [= <- <-]. split; [congruence|lia]. }
  case_bool_decide.
  { destruct (FinalExtract.flowchart_mode _ _ _ _ _) as [[h|[|]] w2] eqn:Eflow;
      apply flowchart_mode_ends in Eflow as [He Hlen2]; try lia.
    - intros [= <- <-]. split; [congruence|lia].
    - intros Hrun. apply IH in Hrun as [Hr Hlen']; [|lia]. split; [congruence|lia].
    - intros [= <- <-]. split; [congruence|lia]. }
  intros Hrun. apply IH in Hrun as [Hr Hlen']; [|lia]. split; [congruence|lia].
Qed.

End HaltFacts.

(** X17. Every turn of the three loops of [interactive_run] reads a line:
    on [n] lines of input, and libraries whose calls come back, the
    session ends within [n + 1] turns, by returning, at the end of the
    input, or with an exception. A call of the model that does not come
    back counts as failed. *)
Theorem interactive_run_ends_on_finite_input :
  forall (Image St : Type) (tools : Tools Image St) (pdf_path : string)
         (start_page : Z) (fuel : nat) (w : world St),
    tools_settle tools pdf_path ->
    (length (w_stdin w) < fuel)%nat ->
    exists w' : world St,
      FinalExtract.interactive_run fuel tools pdf_path start_page w = (inr tt, w')
      \/ FinalExtract.interactive_run fuel tools pdf_path start_page w
         = (inl EndOfInput, w')
      \/ exists e : exn,
           FinalExtract.interactive_run fuel tools pdf_path start_page w
           = (inl (Raised e), w').
Proof.
  intros Image St tools pdf_path start_page fuel w Hsettle Hfuel.
  destruct (FinalExtract.interactive_run fuel tools pdf_path start_page w)
    as [r w'] eqn:Erun.
  assert (Hr : r <> inl OutOfFuel).
  { revert Erun. unfold FinalExtract.interactive_run.
    destruct (lift _) as [h|total_pages] eqn:Elift.
    - apply settled_lift in Elift; [|apply Hsettle]. intros [= <- <-]. congruence.
    - intros Hrun. by apply main_loop_ends in Hrun as [Hr _]. }
  exists w'. destruct r as [[e| |]|[]]; [|by right; left|done|by left].
  right; right. by exists e.
Qed.

Lemma sample_tools_settle : tools_settle sample_tools "all.pdf".
Proof.
  repeat split; try done.
  - intros first_page last_page. cbn. unfold settled. by destruct first_page as [|[[]|[]|]|].
  - by intros img [[[l u] r] b].
Qed.

Lemma interactive_run_ends_on_finite_input_witness :
  exists w' : world nat,
    FinalExtract.interactive_run 20 sample_tools "all.pdf" 1 sample_session = (inr tt, w')
    \/ FinalExtract.interactive_run 20 sample_tools "all.pdf" 1 sample_session
       = (inl EndOfInput, w')
    \/ exists e : exn,
         FinalExtract.interactive_run 20 sample_tools "all.pdf" 1 sample_session
         = (inl (Raised e), w').
Proof.
  apply (interactive_run_ends_on_finite_input shot nat sample_tools "all.pdf" 1 20
           sample_session); [apply sample_tools_settle | vm_compute; lia].
Defined.
